(** * FoxESS-Cloud: charge scheduling and battery-energy simulation

    A shallow embedding of the scheduling core of
    [src/foxesscloud/openapi.py]: the decimal-hour utilities, the Agile
    price-window search, the rotation of 24-hour profiles, and the
    energy-balance loops and charge decision of [charge_needed]; and of
    what feeds and follows them: the hour and minute fields of
    [set_charge] and [set_group], the battery model and its limits, the
    consumption profile of a report, the energy summary of [get_history],
    daylight saving, the forecast timelines and the timed work mode.

    Python floats are embedded in two ways.  The energy and scheduling
    arithmetic is read over exact rationals ([Q]): every comparison,
    clamp and rounding step is the one the source performs, without
    binary rounding error.  Where one rounding decides a discrete result
    the code is embedded over IEEE binary64 ([PrimFloat]): the text
    conversions [time_hours] / [hours_time], the hour and minute of
    [split_hours], the rounded averages that the price-window search
    compares, and the index into the derating table.  Python ints are
    [Z]. *)

From Stdlib Require Import ZArith QArith Qround Qabs Qminmax Lia Lqa Bool.
From Stdlib Require Import ZifyBool.
From Stdlib Require Import String Ascii DecimalString.
From Stdlib Require Import Floats.
From stdpp Require Import list gmap.

Local Open Scope Z_scope.
Local Open Scope Q_scope.

(** ** Python numerics over [Q] *)

Module PyNum.

(** [x < y] on floats. *)
Definition Qltb (x y : Q) : bool := negb (Qle_bool y x).

(** [int(x)]: truncation towards zero. *)
Definition py_int (x : Q) : Z :=
  if Qle_bool 0 x then Qfloor x else Qceiling x.

(** [round(x, 0)]: nearest integer, ties to the even neighbour. *)
Definition py_round (x : Q) : Z :=
  let f := Qfloor x in
  match Qcompare (x - inject_Z f) (1 # 2) with
  | Lt => f
  | Gt => (f + 1)%Z
  | Eq => if Z.even f then f else (f + 1)%Z
  end.

(** [sum(l)]. *)
Definition py_sum (l : list Q) : Q := fold_left Qplus l 0.

(** Outcome of a computation that may raise. *)
Inductive result (A : Type) : Type :=
| Ok (a : A)
| IndexError
| ZeroDivisionError
| TypeError
| ValueError
| OverflowError.
Arguments Ok {A} a.
Arguments IndexError {A}.
Arguments ZeroDivisionError {A}.
Arguments TypeError {A}.
Arguments ValueError {A}.
Arguments OverflowError {A}.

#[global] Instance result_bind : MBind result := fun A B k r =>
  match r with
  | Ok a => k a
  | IndexError => IndexError
  | ZeroDivisionError => ZeroDivisionError
  | TypeError => TypeError
  | ValueError => ValueError
  | OverflowError => OverflowError
  end.

#[global] Instance result_ret : MRet result := fun A a => Ok a.

(** [a / b] on floats. *)
Definition py_div (a b : Q) : result Q :=
  if Qeq_bool b 0 then ZeroDivisionError else Ok (a / b).

(** [for i in l: st = body(st, i)], stopping at the first exception. *)
Fixpoint for_each {St} (body : St -> Z -> result St) (l : list Z) (st : St)
    : result St :=
  match l with
  | [] => Ok st
  | i :: l => st' ← body st i; for_each body l st'
  end.

(** The value of a computation that did not raise. *)
Definition ok_or {A} (d : A) (r : result A) : A :=
  match r with
  | Ok a => a
  | _ => d
  end.

(** [o is None]. *)
Definition is_None {A} (o : option A) : bool :=
  match o with
  | None => true
  | Some _ => false
  end.

(** Position denoted by a slice bound [i] in a sequence of length [n]:
    negative bounds count from the end, and all bounds are clipped. *)
Definition py_clip (n : nat) (i : Z) : nat :=
  if (i <? 0)%Z then Z.to_nat (Z.max 0 (Z.of_nat n + i))
  else Z.to_nat (Z.min i (Z.of_nat n)).

(** [l[i:]], [l[:i]] and [l[i:j]]. *)
Definition py_from {A} (l : list A) (i : Z) : list A :=
  drop (py_clip (length l) i) l.
Definition py_upto {A} (l : list A) (i : Z) : list A :=
  take (py_clip (length l) i) l.
Definition py_slice {A} (l : list A) (i j : Z) : list A :=
  let a := py_clip (length l) i in
  let b := py_clip (length l) j in
  take (b - a) (drop a l).

(** [l[i]]: negative indices count from the end; out of range raises. *)
Definition py_index {A} (l : list A) (i : Z) : result A :=
  let j := if (i <? 0)%Z then (Z.of_nat (length l) + i)%Z else i in
  if (j <? 0)%Z then IndexError
  else match l !! Z.to_nat j with
       | Some x => Ok x
       | None => IndexError
       end.

(** [l[i] = x]. *)
Definition py_store {A} (l : list A) (i : Z) (x : A) : result (list A) :=
  let j := if (i <? 0)%Z then (Z.of_nat (length l) + i)%Z else i in
  if (j <? 0)%Z then IndexError
  else if (j <? Z.of_nat (length l))%Z then Ok (<[Z.to_nat j := x]> l)
       else IndexError.

(** [range(a, b)]. *)
Definition py_range (a b : Z) : list Z :=
  map (fun k => (a + Z.of_nat k)%Z) (seq 0 (Z.to_nat (b - a))).

End PyNum.
Import PyNum.

(** ** Time and charge period functions (decimal hours) *)

Module TimeUtil.

(** [while h < 0: h += 24], run for at most [fuel] iterations. *)
Fixpoint add24_while_neg (fuel : nat) (h : Q) : Q :=
  match fuel with
  | O => h
  | S k => if Qltb h 0 then add24_while_neg k (h + 24) else h
  end.

(** [while h >= 24: h -= 24], run for at most [fuel] iterations. *)
Fixpoint sub24_while_ge (fuel : nat) (h : Q) : Q :=
  match fuel with
  | O => h
  | S k => if Qle_bool 24 h then sub24_while_ge k (h - 24) else h
  end.

(** A number of iterations after which either loop has left its guard. *)
Definition wrap_fuel (h : Q) : nat := S (Z.to_nat (Z.abs (Qfloor (h / 24)))).

(** The two loops in sequence, as in [round_time], [hours_time] and
    [hour_in]. *)
Definition wrap24 (h : Q) : Q :=
  let h1 := add24_while_neg (wrap_fuel h) h in
  sub24_while_ge (wrap_fuel h1) h1.

(** [round_time(h)] for a number [h]. *)
Definition round_time (h : Q) : Q :=
  let h := wrap24 h in
  inject_Z (py_int h)
  + inject_Z (py_int (60 * (h - inject_Z (py_int h)) + (1 # 2))) / 60.

(** [round_time(h)] with its [None] guard. *)
Definition round_time_opt (h : option Q) : option Q :=
  match h with
  | None => None
  | Some h => Some (round_time h)
  end.

(** A period dictionary: [{'start': s, 'end': e}], either of which may be
    [None]. *)
Record period : Type := Period { p_start : option Q; p_end : option Q }.

Definition mk_period (s e : Q) : option period :=
  Some (Period (Some s) (Some e)).


(** [hour_in(h, period)]. *)
Definition hour_in (h : Q) (p : option period) : bool :=
  match p with
  | None => false
  | Some p =>
      match p_start p, p_end p with
      | Some s, Some e =>
          if Qeq_bool s e then false
          else
            let h := wrap24 h in
            if Qltb e s then Qle_bool s h || Qltb h e
            else Qle_bool s h && Qltb h e
      | _, _ => false
      end
  end.

End TimeUtil.
Import TimeUtil.

(** ** Octopus Agile price window: span, weights and bounds *)

Module Agile.

(** The entries of [tariff_config] read by the search.  Times are already
    decimal hours; [None] selects the source's default. *)
Record tariff_config : Type := TariffConfig {
  duration : option Q;
  start_at : option Q;
  end_by : option Q;
  weighting : option (list Q) }.

(** [3 if duration is None else 6 if duration > 6 else 1 if duration < 1
    else duration]. *)
Definition clamp_duration (d : option Q) : Q :=
  match d with
  | None => 3
  | Some d => if Qltb 6 d then 6 else if Qltb d 1 then 1 else d
  end.

(** [round(duration * 2 + 0.49, 0) / 2]. *)
Definition round_duration (d : Q) : Q :=
  inject_Z (py_round (d * 2 + (49 # 100))) / 2.

(** [span = int(duration * 2)], from the configured duration. *)
Definition span_of (d : option Q) : Z :=
  py_int (round_duration (clamp_duration d) * 2).

(** [[1.0] * span if weighting is None else
    (weighting + [0.0] * span)[:span]]. *)
Definition weights_of (w : option (list Q)) (span : Z) : list Q :=
  match w with
  | None => replicate (Z.to_nat span) 1
  | Some w => py_upto (w ++ replicate (Z.to_nat span) 0) span
  end.

(** First and last candidate slot. *)
Definition start_index (cfg : tariff_config) : Z :=
  py_int (round_time (default 23 (start_at cfg) - 23) * 2).

Definition end_index (cfg : tariff_config) : Z :=
  let d := round_duration (clamp_duration (duration cfg)) in
  let end_i := py_int (round_time (default 8 (end_by cfg) - 23 - d) * 2) in
  if (end_i <? start_index cfg)%Z then start_index cfg else end_i.

End Agile.

(** ** Hour-aligned timelines and the next charge window *)

Module Timeline.

(** [timed_list(data, hour_now, run_time)]. *)
Definition timed_list {A} (data : list A) (hour_now : Q)
    (run_time : option Z) : list A :=
  let h := py_int hour_now in
  let data1 := py_from data h ++ py_upto data h in
  match run_time with
  | None => data1
  | Some r => py_upto (data1 ++ data1) r
  end.

(** How consumption varies by hour across a day, from hour 00 to 23. *)
Definition medium_profile : list Q :=
  [28; 28; 28; 28; 28; 28; 36; 49; 65; 70; 65; 49;
   44; 44; 49; 63; 92; 99; 92; 63; 47; 39; 33; 31].
Definition no_profile : list Q := replicate 24 50.

(** How generation varies by hour across a winter day. *)
Definition winter_sun : list Q :=
  [0; 0; 0; 0; 0; 0; 0; 0; 5; 20; 55; 85;
   99; 85; 55; 20; 5; 0; 0; 0; 0; 0; 0; 0].

(** An off-peak entry of a tariff. *)
Record off_peak : Type := OffPeak { op_start : Q; op_end : Q; op_force : Z }.

(** The entries of a tariff read by [charge_needed]. *)
Record tariff : Type := Tariff {
  off_peak1 : off_peak;
  off_peak2 : off_peak;
  backup : option period;
  feedin : option period }.

Definition octopus_flux : tariff :=
  Tariff (OffPeak 2 5 1) (OffPeak 0 0 0) None (mk_period 16 7).
Definition intelligent_octopus : tariff :=
  Tariff (OffPeak (47 # 2) (11 # 2) 1) (OffPeak 0 0 0) None None.
Definition octopus_cosy : tariff :=
  Tariff (OffPeak 4 7 1) (OffPeak 13 16 0) None None.
Definition octopus_go : tariff :=
  Tariff (OffPeak (1 # 2) (9 # 2) 1) (OffPeak 0 0 0) None None.

(** What [charge_needed] derives from the tariff and the clock before it
    reads the battery. *)
Record schedule : Type := Schedule {
  start_am : Q; end_am : Q; force_charge_am : Z; time_to_am : Q;
  start_pm : Q; end_pm : Q; force_charge_pm : Z; time_to_pm : option Q;
  charge_pm : bool;
  force_charge : Z;
  start_at : Q;
  end_by : Q;
  charge_time : Q;
  time_to_start : Q;
  start_hour : Q;
  time_to_next : Z;
  run_time : Z }.

(** "get next charge times from am/pm charge times" up to the computation
    of [run_time]. *)
Definition next_charge (t : option tariff) (base_hour : Z)
    (hour_adjustment change_hour : Z) (force_charge : Z) : schedule :=
  let start_am := match t with Some t => op_start (off_peak1 t) | None => 2 end in
  let end_am := match t with Some t => op_end (off_peak1 t) | None => 5 end in
  let force_charge_am :=
    if match t with Some t => (op_force (off_peak1 t) =? 0)%Z | None => false end
       || (force_charge =? 0)%Z
    then 0%Z else force_charge in
  let time_to_am := round_time (start_am - inject_Z base_hour) in
  let start_pm := match t with Some t => op_start (off_peak2 t) | None => 0 end in
  let end_pm := match t with Some t => op_end (off_peak2 t) | None => 0 end in
  let force_charge_pm :=
    if match t with Some t => (op_force (off_peak2 t) =? 0)%Z | None => false end
       || (force_charge =? 0)%Z
    then 0%Z else 1%Z in
  let time_to_pm :=
    if Qltb 0 start_pm then Some (round_time (start_pm - inject_Z base_hour))
    else None in
  let charge_pm :=
    match time_to_pm with
    | Some pm => Qltb pm time_to_am
    | None => false
    end in
  let force_charge := if charge_pm then force_charge_pm else force_charge_am in
  let start_at := if charge_pm then start_pm else start_am in
  let end_by := if charge_pm then end_pm else end_am in
  let charge_time := round_time (end_by - start_at) in
  let time_to_start :=
    if charge_pm then default time_to_am time_to_pm else time_to_am in
  let start_hour := inject_Z base_hour + time_to_start in
  let time_to_next := py_int time_to_start in
  let time_to_next :=
    if (hour_adjustment <? 0)%Z && Qltb (inject_Z change_hour) start_hour
    then (time_to_next - 1)%Z else time_to_next in
  let run_time :=
    (py_int ((if charge_pm then time_to_am
              else match time_to_pm with
                   | None => time_to_am + 24
                   | Some pm => pm
                   end) + (99 # 100)) + 1 + hour_adjustment)%Z in
  Schedule start_am end_am force_charge_am time_to_am
           start_pm end_pm force_charge_pm time_to_pm
           charge_pm force_charge start_at end_by charge_time
           time_to_start start_hour time_to_next run_time.

End Timeline.

(** ** The energy balance and the charge decision ([charge_needed]) *)

Module Solver.

(** [interpolate(f, v)]. *)
Definition interpolate (f : Q) (v : list Q) : result (option Q) :=
  match v with
  | [] => Ok None
  | v0 :: _ =>
      if Qltb f 0 then Ok (Some v0)
      else if Qle_bool (inject_Z (Z.of_nat (length v) - 1)) f
      then x ← py_index v (-1); Ok (Some x)
      else
        let i := py_int f in
        let x := f - inject_Z i in
        a ← py_index v i;
        b ← py_index v (i + 1);
        Ok (Some (a * (1 - x) + b * x))
  end.

(** The values [charge_needed] works from once the clock, the tariff, the
    battery, the device limits and the forecasts have been read: the
    state of the function at "produce time lines for main charge and
    discharge".  [full_charge] says that the configuration asks for a full
    charge tomorrow, [special_day] that tomorrow is in [special_days],
    [derate_full] that the derating table was exceeded. *)
Record scenario : Type := Scenario {
  tariff : option Timeline.tariff;
  base_hour : Z;
  hour_now : Q;
  hour_adjustment : Z;
  change_hour : Z;
  force_charge : Z;
  timed_mode : Z;
  capacity : Q;
  residual : Q;
  min_soc : Q;
  derate_full : bool;
  charge_limit : Q;
  charge_loss : Q;
  discharge_limit : Q;
  operating_loss : Q;
  export_limit : Q;
  bms_power : Q;
  pv_loss : Q;
  discharge_loss : Q;
  consumption : Q;
  consumption_by_hour : list Q;
  generation_timed : list Q;
  special_contingency : Q;
  special_day : bool;
  min_kwh : Q;
  min_hours : Q;
  full_charge : bool;
  test_charge : option Q }.

Definition sched (S : scenario) : Timeline.schedule :=
  Timeline.next_charge (tariff S) (base_hour S) (hour_adjustment S)
                       (change_hour S) (force_charge S).

(** [reserve = capacity * min_soc / 100]. *)
Definition reserve (S : scenario) : Q := capacity S * min_soc S / 100.

(** [consumption_timed], one-hour buckets of consumption. *)
Definition consumption_timed (S : scenario) : result (list Q) :=
  let daily_sum := py_sum (consumption_by_hour S) in
  l ← mapM (fun x => py_div (consumption S * x) daily_sum)
           (consumption_by_hour S);
  Ok (Timeline.timed_list l (hour_now S) (Some (Timeline.run_time (sched S)))).

(** [charge_timed] and [discharge_timed] after losses. *)
Definition initial_timelines (S : scenario) : result (list Q * list Q) :=
  consumption_timed ← consumption_timed S;
  let charge_timed := map (fun x => x * pv_loss S) (generation_timed S) in
  discharge_timed ←
    mapM (fun x => q ← py_div x (discharge_loss S);
                   Ok (q + bms_power S / 1000)) consumption_timed;
  Ok (charge_timed, discharge_timed).

(** [operating_loss if charge_timed[i] == 0.0 else 0.0]. *)
Definition forced_discharge (S : scenario) (c : Q) : Q :=
  if Qeq_bool c 0 then operating_loss S else 0.

(** One hour of "adjust charge and discharge time lines for work mode,
    force charge and power limits". *)
Definition adjust_step (S : scenario) (st : list Q * list Q) (i : Z)
    : result (list Q * list Q) :=
  let sc := sched S in
  let h := inject_Z (base_hour S + i) in
  c ← py_index st.1 i;
  let c := if Qltb (charge_limit S) c then charge_limit S else c in
  ct ← py_store st.1 i c;
  d ← py_index st.2 i;
  let d := if Qltb (discharge_limit S) d then discharge_limit S else d in
  dt ← py_store st.2 i d;
  if (Timeline.force_charge_am sc =? 1)%Z
     && hour_in h (mk_period (Timeline.start_am sc) (Timeline.end_am sc))
  then dt ← py_store dt i (forced_discharge S c); Ok (ct, dt)
  else if (Timeline.force_charge_pm sc =? 1)%Z
     && hour_in h (mk_period (Timeline.start_pm sc) (Timeline.end_pm sc))
  then dt ← py_store dt i (forced_discharge S c); Ok (ct, dt)
  else if (0 <? timed_mode S)%Z
     && match tariff S with
        | Some t => hour_in h (Timeline.backup t)
        | None => false
        end
  then dt ← py_store dt i (forced_discharge S c); Ok (ct, dt)
  else if (0 <? timed_mode S)%Z
     && match tariff S with
        | Some t => hour_in h (Timeline.feedin t)
        | None => false
        end
  then
    let d' := if Qle_bool d c then 0 else d - c in
    let c' := if Qle_bool c (export_limit S + d) then 0
              else c - export_limit S - d in
    dt ← py_store dt i d';
    ct ← py_store ct i c';
    Ok (ct, dt)
  else Ok (ct, dt).

(** The adjusted [charge_timed] and [discharge_timed]. *)
Definition timelines (S : scenario) : result (list Q * list Q) :=
  tl ← initial_timelines S;
  for_each (adjust_step S) (py_range 0 (Timeline.run_time (sched S))) tl.

(** [[charge * charge_loss - discharge for charge, discharge in
    zip(charge_timed, discharge_timed)]]. *)
Definition kwh_timed_of (S : scenario) (tl : list Q * list Q) : list Q :=
  zip_with (fun charge discharge => charge * charge_loss S - discharge)
           tl.1 tl.2.

(** The variables of the residual-tracking loops. *)
Record sim : Type := Sim {
  kwh_current : Q;
  reserve_drain : Q;
  bat_timed : list Q;
  kwh_min : Q;
  min_hour : Z;
  h : Z }.

(** The body of the baseline loop for hour [i], up to and including
    "track minimum and time". *)
Definition settle_baseline (S : scenario) (i : Z) (s : sim) : sim :=
  let '(kc, rd) :=
    if Qle_bool (kwh_current s) (reserve S)
       && (i <=? Timeline.time_to_next (sched S))%Z
    then
      let rd := if Qltb (reserve_drain s) (capacity S * 6 / 100)
                then reserve S else reserve_drain s in
      (rd, rd - bms_power S / 1000)
    else (kwh_current s, reserve S) in
  let kc := if Qltb (capacity S) kc then capacity S else kc in
  let bt := bat_timed s ++ [kc] in
  if Qltb kc (kwh_min s) then Sim kc rd bt kc (h s) (h s)
  else Sim kc rd bt (kwh_min s) (min_hour s) (h s).

(** The body of the loop that rebuilds the residual with the charge added,
    up to and including [bat_timed.append(kwh_current)]. *)
Definition settle_charged (S : scenario) (i : Z) (s : sim) : sim :=
  let '(kc, rd) :=
    if Qle_bool (kwh_current s) (reserve S)
    then
      let rd := if Qltb (reserve_drain s) (capacity S * 6 / 100)
                then reserve S else reserve_drain s in
      (rd, rd - bms_power S / 1000)
    else (kwh_current s, reserve S) in
  let kc := if Qltb (capacity S) kc then capacity S else kc in
  Sim kc rd (bat_timed s ++ [kc]) (kwh_min s) (min_hour s) (h s).

(** [kwh_current += kwh_timed[i]; h += 1]. *)
Definition advance (d : Q) (s : sim) : sim :=
  Sim (kwh_current s + d) (reserve_drain s) (bat_timed s)
      (kwh_min s) (min_hour s) (h s + 1).

(** A residual-tracking loop over the hours [hours].  The flag is [false]
    when [kwh_timed[i]] raised [IndexError]; the state then holds what had
    been appended so far. *)
Fixpoint run_hours (settle : Z -> sim -> sim) (kwh_timed : list Q)
    (hours : list Z) (s : sim) : sim * bool :=
  match hours with
  | [] => (s, true)
  | i :: hours =>
      let s := settle i s in
      match py_index kwh_timed i with
      | Ok d => run_hours settle kwh_timed hours (advance d s)
      | _ => (s, false)
      end
  end.

(** The state on entry to either loop; [kwh_start] is
    [residual - kwh_timed[0] * (hour_now - h)]. *)
Definition sim_init (S : scenario) (kwh_start : Q) : sim :=
  Sim kwh_start (reserve S) [] kwh_start (base_hour S) (base_hour S).

Definition kwh_start (S : scenario) (kwh_timed : list Q) : result Q :=
  k0 ← py_index kwh_timed 0;
  Ok (residual S - k0 * (hour_now S - inject_Z (base_hour S))).

Definition completed (r : sim * bool) : result sim :=
  if r.2 then Ok r.1 else IndexError.

(** "track the battery residual over the run time (if we don't add any
    charge)". *)
Definition baseline (S : scenario) (tl : list Q * list Q) : result sim :=
  let kwh_timed := kwh_timed_of S tl in
  k ← kwh_start S kwh_timed;
  completed (run_hours (settle_baseline S) kwh_timed
                       (py_range 0 (Timeline.run_time (sched S)))
                       (sim_init S k)).

(** "rebuild the battery residual with the charge added". *)
Definition charged (S : scenario) (tl : list Q * list Q) : result sim :=
  let kwh_timed := kwh_timed_of S tl in
  k ← kwh_start S kwh_timed;
  completed (run_hours (settle_charged S) kwh_timed
                       (py_range 0 (Timeline.run_time (sched S)))
                       (sim_init S k)).

(** The contingency percentage in force. *)
Definition contingency_of (S : scenario) (contingency : Q) : Q :=
  if special_day S && negb (Timeline.charge_pm (sched S))
  then special_contingency S else contingency.

(** [kwh_needed = reserve + kwh_contingency - kwh_min], before the
    decision. *)
Definition kwh_shortfall (S : scenario) (contingency : Q) (b : sim) : Q :=
  reserve S + consumption S * contingency_of S contingency / 100 - kwh_min b.

(** [full_charge] after "if we need to do a full charge". *)
Definition full_charge_due (S : scenario) : bool :=
  full_charge S && negb (Timeline.charge_pm (sched S)).

(** The guard of the "No charging is needed" branch. *)
Definition no_charge_guard (S : scenario) (contingency : Q) (b : sim) : bool :=
  Qltb (reserve S) (kwh_min b)
  && Qltb (kwh_shortfall S contingency b) (min_kwh S)
  && negb (full_charge_due S)
  && is_None (test_charge S).

(** The fraction [t] of the hour from [i] to [i + 1] spent charging. *)
Definition charge_fraction (start_timed end_timed : Q) (i : Z) : Q :=
  let i' := inject_Z i in
  let j := inject_Z (i + 1) in
  if Qle_bool i' start_timed && Qltb end_timed j
  then end_timed - start_timed
  else if Qle_bool i' start_timed && Qltb start_timed j && Qle_bool j end_timed
  then j - start_timed
  else if Qltb i' end_timed && Qle_bool end_timed j && Qle_bool start_timed i'
  then end_timed - i'
  else if Qle_bool start_timed i' && Qltb j end_timed
  then 1
  else 0.

(** One hour of "rework charge and discharge". *)
Definition rework_step (S : scenario) (start_timed end_timed : Q)
    (st : list Q * list Q) (i : Z) : result (list Q * list Q) :=
  let t := charge_fraction start_timed end_timed i in
  let charge_added := charge_limit S * t in
  c ← py_index st.1 i;
  ct ← py_store st.1 i (if Qltb (c + charge_added) (charge_limit S)
                        then c + charge_added else charge_limit S);
  d ← py_index st.2 i;
  dt ← py_store st.2 i (d * (1 - t));
  Ok (ct, dt).

Inductive charge_message : Type :=
| no_charge_needed
| with_charge_added
| test_charge_message.

(** The outcome of the charge decision. *)
Record plan : Type := Plan {
  message : charge_message;
  kwh_needed : Q;
  hours : Q;
  full_charge_used : bool;
  end1 : Q;
  start_residual : option Q;
  kwh_contingency : Q;
  before : sim;
  bat_timed_after : list Q;
  kwh_added : option Q;
  new_residual : option Q }.

(** The amount and the charge time for the "with charge added" branch:
    [(kwh_needed, hours)] after the full-charge and minimum-time rules,
    and whether "Full charge time used" applied. *)
Definition charge_amount (S : scenario) (kwh_needed sr d : Q)
    : result (Q * Q * bool) :=
  let sc := sched S in
  let taper_time :=
    if Qle_bool (capacity S * (95 # 100)) (sr + kwh_needed)
    then 10 / 60 else 0 in
  q ← py_div kwh_needed (charge_limit S * charge_loss S + d);
  let hours := round_time (q + taper_time) in
  let force_charge :=
    if derate_full S then 2%Z else Timeline.force_charge sc in
  if full_charge_due S || (force_charge =? 2)%Z
     || Qltb (Timeline.charge_time sc) hours
     || Qltb (capacity S * (105 # 100)) (sr + kwh_needed)
  then Ok (capacity S - sr, Timeline.charge_time sc, true)
  else if Qltb hours (min_hours S) then Ok (kwh_needed, min_hours S, false)
  else Ok (kwh_needed, hours, false).

(** From "work out what we need to add to stay above reserve and provide
    contingency" to the predicted residuals. *)
Definition decide (S : scenario) (contingency : Q) (tl : list Q * list Q)
    (b : sim) : result plan :=
  let sc := sched S in
  let kwh_contingency := consumption S * contingency_of S contingency / 100 in
  let kwh_needed := kwh_shortfall S contingency b in
  start_residual ← interpolate (Timeline.time_to_start sc) (bat_timed b);
  if no_charge_guard S contingency b
  then Ok (Plan no_charge_needed 0 0 false (Timeline.start_at sc)
                start_residual kwh_contingency b (bat_timed b) None None)
  else
    let message :=
      if is_None (test_charge S)
      then with_charge_added else test_charge_message in
    let kwh_needed := default kwh_needed (test_charge S) in
    sr ← match start_residual with Some x => Ok x | None => TypeError end;
    d ← py_index tl.2 (Timeline.time_to_next sc);
    amount ← charge_amount S kwh_needed sr d;
    let kwh_needed := amount.1.1 in
    let hours := amount.1.2 in
    let end1 := round_time (Timeline.start_at sc + hours) in
    let start_timed := Timeline.time_to_start sc in
    let end_timed := start_timed + hours in
    tl' ← for_each (rework_step S start_timed end_timed)
          (py_range (Timeline.time_to_next sc)
             (py_int (inject_Z (Timeline.time_to_next sc) + hours + 2)))
          tl;
    a ← charged S tl';
    let time_to_end := (py_int (start_timed + hours) + 1)%Z in
    new ← py_index (bat_timed a) time_to_end;
    old ← py_index (bat_timed b) time_to_end;
    let kwh_added := new - old in
    old_residual ← interpolate end_timed (bat_timed b);
    old_residual ← match old_residual with
                   | Some x => Ok x
                   | None => TypeError
                   end;
    let new_residual :=
      if Qltb (capacity S) (old_residual + kwh_added) then capacity S
      else old_residual + kwh_added in
    Ok (Plan message kwh_needed hours amount.2 end1 start_residual
             kwh_contingency b (bat_timed a)
             (Some kwh_added) (Some new_residual)).

(** [charge_needed] from the timelines to the predicted residuals, for the
    configured [contingency] percentage. *)
Definition charge_needed (S : scenario) (contingency : Q) : result plan :=
  tl ← timelines S;
  b ← baseline S tl;
  decide S contingency tl b.

End Solver.

(** ** Floats and time text over binary64 ([time_hours], [hours_time]) *)

Module Binary64.

(** A finite float as [m * 2 ^ e]. *)
Definition exact (x : float) : option (Z * Z) :=
  match Prim2SF x with
  | S754_zero _ => Some (0%Z, 0%Z)
  | S754_finite s m e => Some (if s then Zneg m else Zpos m, e)
  | _ => None
  end.

(** The float nearest to [m * 2 ^ e]. *)
Definition of_exact (m e : Z) : float :=
  SF2Prim (binary_normalize prec emax m e false).

(** [float(n)] for an int [n]. *)
Definition of_Z (n : Z) : float := of_exact n 0.

(** [int(x)] for a finite [x]: truncation towards zero. *)
Definition f_int (x : float) : option Z :=
  match exact x with
  | Some (m, e) =>
      Some (if (0 <=? e)%Z then (m * 2 ^ e)%Z else Z.quot m (2 ^ (- e)))
  | None => None
  end.

(** [x % y] for finite [x] and finite non-zero [y]: the C [fmod], which
    is exact, moved to the sign of [y]. *)
Definition f_mod (x y : float) : float :=
  match exact x, exact y with
  | Some (mx, ex), Some (my, ey) =>
      if (my =? 0)%Z then nan
      else
        let e := Z.min ex ey in
        let r := Z.rem (mx * 2 ^ (ex - e)) (my * 2 ^ (ey - e)) in
        if (r =? 0)%Z then (if (my <? 0)%Z then neg_zero else zero)
        else
          let m := of_exact r e in
          if Bool.eqb (my <? 0)%Z (r <? 0)%Z then m else (m + y)%float
  | _, _ => nan
  end.

(** [f"{n:02}"] for an int [n]. *)
Definition fmt02 (n : Z) : string :=
  let s := NilZero.string_of_int (Z.to_int n) in
  if (n <? 0)%Z then s
  else if (String.length s <? 2)%nat then String "0" s else s.

Definition is_digit (c : ascii) : bool :=
  let n := nat_of_ascii c in (48 <=? n)%nat && (n <=? 57)%nat.

(** [t.split(":")]. *)
Fixpoint split_colon (t : string) : list string :=
  match t with
  | EmptyString => [EmptyString]
  | String c t =>
      if Ascii.eqb c ":" then EmptyString :: split_colon t
      else match split_colon t with
           | [] => [String c EmptyString]
           | p :: ps => String c p :: ps
           end
  end.

(** [t.replace(":", "").isnumeric()], for ASCII text. *)
Definition numeric_without_colons (t : string) : bool :=
  let cs := filter (fun c => negb (Ascii.eqb c ":")) (list_ascii_of_string t) in
  negb (Nat.eqb (length cs) 0) && forallb is_digit cs.

Definition digits_value (t : string) : Z :=
  fold_left (fun n c => (10 * n + Z.of_nat (nat_of_ascii c - 48))%Z)
            (list_ascii_of_string t) 0%Z.

(** [float(t)] for a run of digits; the empty text raises. *)
Definition float_of_digits (t : string) : result float :=
  match t with
  | EmptyString => ValueError
  | _ => Ok (of_Z (digits_value t))
  end.

(** A time as the source holds it. *)
Inductive time_value : Type :=
| TNone
| TFloat (f : float)
| TInt (n : Z)
| TStr (s : string).

(** [sum(float(t) / x for x, t in zip([1, 60, 3600], parts))]. *)
Fixpoint sum_parts (acc : option float) (xs : list float) (parts : list string)
    : result (option float) :=
  match xs, parts with
  | x :: xs, p :: parts =>
      f ← float_of_digits p;
      let term := (f / x)%float in
      sum_parts (Some (match acc with
                       | None => term
                       | Some a => (a + term)%float
                       end)) xs parts
  | _, _ => Ok acc
  end.

(** [time_hours(t, d)].  [Ok None] is the "invalid time string" return. *)
Definition time_hours (t d : time_value) : result (option float) :=
  let t := match t with TNone => d | _ => t end in
  match t with
  | TFloat f => Ok (Some f)
  | TInt n => Ok (Some (of_Z n))
  | TStr t =>
      let count := (length (split_colon t) - 1)%nat in
      if numeric_without_colons t && (count <=? 2)%nat
      then
        let t := if (count =? 1)%nat then (t ++ ":00")%string else t in
        sum_parts None [1%float; 60%float; 3600%float] (split_colon t)
      else Ok None
  | TNone => Ok None
  end.

(** The two loops of [hours_time], which also count days, for at most
    [fuel] iterations each; [None] when a loop has not finished. *)
Fixpoint add24_days (fuel : nat) (h : float) (d : Z) : option (float * Z) :=
  match fuel with
  | O => None
  | S k => if (h <? 0)%float then add24_days k (h + 24)%float (d - 1)%Z
           else Some (h, d)
  end.

Fixpoint sub24_days (fuel : nat) (h : float) (d : Z) : option (float * Z) :=
  match fuel with
  | O => None
  | S k => if (24 <=? h)%float then sub24_days k (h - 24)%float (d + 1)%Z
           else Some (h, d)
  end.

Definition days_fuel (h : float) : nat :=
  match f_int h with
  | Some n => Z.to_nat (Z.abs n / 24 + 2)
  | None => 0%nat
  end.

(** [hours_time(h, ss, day, mm)] for a float [h]; [None] stands for a
    call that produces no text (a loop that does not finish, or [int] of
    a non-finite value). *)
Definition hours_time (h : float) (ss day mm : bool) : option string :=
  let n := if ss then 8%nat else if mm then 5%nat else 2%nat in
  '(h, d) ← add24_days (days_fuel h) h 0%Z;
  '(h, d) ← sub24_days (days_fuel h) h d;
  let suffix :=
    if day then ("/" ++ NilZero.string_of_int (Z.to_int d))%string
    else EmptyString in
  hh ← f_int h;
  mi ← f_int (f_mod (h * 60)%float 60%float);
  se ← f_int (f_mod (h * 3600)%float 60%float);
  Some (substring 0 n (fmt02 hh ++ ":" ++ fmt02 mi ++ ":" ++ fmt02 se)
        ++ suffix)%string.

(** [hours_time(time_hours(s))] with the default arguments. *)
Definition roundtrip (s : string) : option string :=
  match time_hours (TStr s) TNone with
  | Ok (Some h) => hours_time h false false true
  | _ => None
  end.

(** Whether the round trip gives [s] back. *)
Definition survives (s : string) : bool :=
  match roundtrip s with
  | Some r => String.eqb r s
  | None => false
  end.

(** The text [HH:MM] of hour [hh] and minute [mi]. *)
Definition hhmm (hh mi : Z) : string :=
  (fmt02 hh ++ ":" ++ fmt02 mi)%string.

(** Every [HH:MM] from 00:00 to 23:59. *)
Definition all_hhmm : list string :=
  hh ← map Z.of_nat (seq 0 24);
  mi ← map Z.of_nat (seq 0 60);
  [hhmm hh mi].

(** [round_time(h)] over binary64, for a finite [h]. *)
Definition round_time (h : float) : option float :=
  '(h, _) ← add24_days (days_fuel h) h 0%Z;
  '(h, _) ← sub24_days (days_fuel h) h 0%Z;
  hh ← f_int h;
  mi ← f_int (60 * (h - of_Z hh) + 0.5)%float;
  Some (of_Z hh + of_Z mi / 60)%float.

(** [int(x)]: a NaN raises [ValueError] and an infinity
    [OverflowError]. *)
Definition to_int (x : float) : result Z :=
  match f_int x with
  | Some n => Ok n
  | None => if is_nan x then ValueError else OverflowError
  end.

(** The float nearest to the rational [q], ties to the even float: what
    Python reads from the decimal text of [q], and [float(n)] for an int
    [n].  The quotient is cut after 63 bits or more, and one more bit
    records whether anything was cut off. *)
Definition of_Q (q : Q) : float :=
  let n := Z.abs (Qnum q) in
  let d := Zpos (Qden q) in
  let k := Z.max 0 (Z.log2 d - Z.log2 n + 64) in
  let a := (n * 2 ^ k)%Z in
  let m := (2 * (a / d) + (if (a mod d =? 0)%Z then 0 else 1))%Z in
  of_exact (Z.sgn (Qnum q) * m) (- k - 1).

(** [round(x, 2)]: the multiple of 0.01 nearest to the number that [x]
    holds (ties to the even multiple), read back as a float; a zero keeps
    the sign of [x], and a NaN or an infinity is returned as it is. *)
Definition round2 (x : float) : float :=
  match exact x with
  | Some (m, e) =>
      if (0 <=? e)%Z then x
      else
        let r := py_round (Qmake (m * 100) (Z.to_pos (2 ^ (- e)))) in
        if (r =? 0)%Z then (if (m <? 0)%Z then neg_zero else zero)
        else of_Q (Qmake r 100)
  | None => x
  end.

(** [sum(l)] for floats, before Python 3.12: added from the left to the
    int 0. *)
Definition sum_left (l : list float) : float :=
  fold_left PrimFloat.add l 0%float.

(** One addition of the compensated sum: the running total, and the
    rounding errors collected so far. *)
Definition compensated_step (st : float * float) (x : float)
    : float * float :=
  let '(total, c) := st in
  let t := (total + x)%float in
  (t, if (abs x <=? abs total)%float
      then (c + ((total - t) + x))%float
      else (c + ((x - t) + total))%float).

(** [sum(l)] for floats, from Python 3.12: the first float is added to
    the int 0, the others with compensation. *)
Definition sum_compensated (l : list float) : float :=
  match l with
  | [] => 0%float
  | x :: l =>
      let '(total, c) :=
        fold_left compensated_step l ((0 + x)%float, 0%float) in
      if negb (c =? 0)%float && is_finite c then (total + c)%float
      else total
  end.

(** The text [HH:MM:SS]. *)
Definition hhmmss (hh mi ss : Z) : string :=
  (fmt02 hh ++ ":" ++ fmt02 mi ++ ":" ++ fmt02 ss)%string.

End Binary64.

(** ** The search for the cheapest window ([get_agile_period]) *)

Module AgileWindow.

Section Sum.

(** Python's built-in [sum] on a list of floats: [Binary64.sum_left] or,
    from Python 3.12, [Binary64.sum_compensated]. *)
Variable sum : list float -> float.

(** [sum(p * w for p,w in zip(p_span, weights)) / sum(weights)] for the
    window starting at slot [i], before it is rounded: the weighted
    average as the specification writes it. *)
Definition weighted_avg (prices weights : list float) (span i : Z) : float :=
  (sum (zip_with PrimFloat.mul (py_slice prices i (i + span)) weights)
   / sum weights)%float.

(** The same, rounded to two decimals. *)
Definition rounded_avg (prices weights : list float) (span i : Z) : float :=
  Binary64.round2 (weighted_avg prices weights span i).

(** [wavg = round(sum(p * w for p,w in zip(p_span, weights)) /
    sum(weights), 2)] for the window starting at slot [i]. *)
Definition wavg (prices weights : list float) (span i : Z) : result float :=
  if (sum weights =? 0)%float then ZeroDivisionError
  else Ok (rounded_avg prices weights span i).

(** One iteration of the search loop on the pair [(min_i, min_v)]:
    [if min_v is None or wavg < min_v]. *)
Definition scan_step (times : list string) (prices weights : list float)
    (span : Z) (st : option (Z * float)) (i : Z)
    : result (option (Z * float)) :=
  _ ← py_index times i;
  w ← wavg prices weights span i;
  match st with
  | None => Ok (Some (i, w))
  | Some (_, min_v) => if (w <? min_v)%float then Ok (Some (i, w)) else Ok st
  end.

(** The weights of the search, as floats. *)
Definition weights (cfg : Agile.tariff_config) : list float :=
  map Binary64.of_Q
      (Agile.weights_of (Agile.weighting cfg)
                        (Agile.span_of (Agile.duration cfg))).

(** The loop of the search: the final [(min_i, min_v)]. *)
Definition best_slot (cfg : Agile.tariff_config)
    (results : list (string * float)) : result (option (Z * float)) :=
  let span := Agile.span_of (Agile.duration cfg) in
  for_each (scan_step results.*1 results.*2 (weights cfg) span)
           (py_range (Agile.start_index cfg) (Agile.end_index cfg + 1)) None.

(** The dictionary returned by [get_agile_period] (without its date). *)
Record agile_period : Type := AgilePeriod {
  ap_times : list string;
  ap_prices : list float;
  ap_span : Z;
  ap_start : string;
  ap_end : string;
  ap_price : float }.

(** [get_agile_period], from the point where the price list has been
    fetched: [results] holds, in chronological order, the local time text
    and the price ([value_inc_vat]) of each half-hour slot from 23:00.
    [Ok None] is the "prices not available" return. *)
Definition get_agile_period (cfg : Agile.tariff_config)
    (results : list (string * float)) : result (option agile_period) :=
  let span := Agile.span_of (Agile.duration cfg) in
  let times := results.*1 in
  if (Z.of_nat (length results) <? Agile.end_index cfg + span)%Z then Ok None
  else
    st ← best_slot cfg results;
    match st with
    | None => TypeError
    | Some (min_i, min_v) =>
        start ← py_index times min_i;
        end_ ← py_index times (min_i + span);
        Ok (Some (AgilePeriod times results.*2 span start end_ min_v))
    end.

End Sum.

End AgileWindow.

(** ** Hour and minute fields ([split_hours], [set_charge], [set_group]) *)

Module Fields.

(** [split_hours(h)] for a float [h]:
    [(int(h % 24), int(h % 1 * 60 + 0.5))]. *)
Definition split_hours (h : float) : result (Z * Z) :=
  hours ← Binary64.to_int (Binary64.f_mod h 24);
  minutes ← Binary64.to_int (Binary64.f_mod h 1 * 60 + 0.5)%float;
  Ok (hours, minutes).

(** [{'hour': .., 'minute': ..}]. *)
Record time_of_day : Type := TimeOfDay { hour : Z; minute : Z }.

(** An entry of [battery_settings['times']]. *)
Record charge_period : Type := ChargePeriod {
  enable : bool;
  startTime : time_of_day;
  endTime : time_of_day }.

(** [int(st)] and [int(60 * (st - int(st)) + 0.5)]. *)
Definition clock_fields (st : Q) : time_of_day :=
  TimeOfDay (py_int st) (py_int (60 * (st - inject_Z (py_int st)) + (1 # 2))).

(** "configure time period" of [set_charge], for numbers [st] and [en]
    and a truth value [ch]. *)
Definition configure_period (ch : bool) (st en adjust : Q) : charge_period :=
  if Qeq_bool st en
  then ChargePeriod false (clock_fields 0) (clock_fields 0)
  else ChargePeriod ch (clock_fields (round_time (st + adjust)))
                       (clock_fields (round_time (en + adjust))).

Definition work_modes : list string :=
  ["SelfUse"; "Feedin"; "Backup"; "ForceCharge"; "ForceDischarge"]%string.

(** The time segment built by [set_group]. *)
Record group : Type := Group {
  g_enable : Z;
  startHour : Z;
  startMinute : Z;
  endHour : Z;
  endMinute : Z;
  workMode : string;
  minSocOnGrid : Q;
  fdSoc : Q;
  fdPwr : Q }.

(** [if type(t) is str: t = time_hours(t)]. *)
Definition hours_of_text (t : Binary64.time_value)
    : result Binary64.time_value :=
  match t with
  | Binary64.TStr _ =>
      h ← Binary64.time_hours t Binary64.TNone;
      Ok (match h with
          | Some h => Binary64.TFloat h
          | None => Binary64.TNone
          end)
  | _ => Ok t
  end.

(** [split_hours(t)] for a float or an int [t]; on an int, [%] and [int]
    are exact and [int(0 * 60 + 0.5)] is 0. *)
Definition split_time (t : Binary64.time_value) : result (Z * Z) :=
  match t with
  | Binary64.TFloat h => split_hours h
  | Binary64.TInt n => Ok ((n mod 24)%Z, 0%Z)
  | _ => TypeError
  end.

(** [set_group(enable, start, end, mode, min_soc, fdsoc, fdpwr)];
    [Ok None] is its refusal. *)
Definition set_group (enable : Z) (start end_ : Binary64.time_value)
    (mode : string) (min_soc fdsoc fdpwr : Q) : result (option group) :=
  start ← hours_of_text start;
  end_ ← hours_of_text end_;
  match start, end_ with
  | Binary64.TNone, _ | _, Binary64.TNone => Ok None
  | _, _ =>
      if negb (existsb (String.eqb mode) work_modes) then Ok None
      else if Qltb fdpwr 0 || Qltb 12000 fdpwr then Ok None
      else if Qltb fdsoc 10 || Qltb 100 fdsoc then Ok None
      else
        '(start_hour, start_minute) ← split_time start;
        '(end_hour, end_minute) ← split_time end_;
        Ok (Some (Group enable start_hour start_minute end_hour end_minute
                        mode min_soc fdsoc fdpwr))
  end.

End Fields.

(** ** Battery and device limits (in [charge_needed]) *)

Module Battery.

(** The entries of [charge_config] read by the temperature derating. *)
Record derate_config : Type := DerateConfig {
  derate_temp : Q;
  derate_step : option Q;
  derating : option (list Q) }.

(** [i = int((derate_temp - temperature) / (derate_step if derate_step
    is not None and derate_step > 0 else 1))], over binary64: the
    quotient is rounded before [int] cuts it. *)
Definition derate_index (cfg : derate_config) (temperature : Q) : result Z :=
  let step := match derate_step cfg with
              | Some s => if (0 <? Binary64.of_Q s)%float
                          then Binary64.of_Q s else 1%float
              | None => 1%float
              end in
  Binary64.to_int ((Binary64.of_Q (derate_temp cfg)
                    - Binary64.of_Q temperature) / step)%float.

(** "charge times are derated based on temperature": the charge current
    and [force_charge] that result. *)
Definition derate (cfg : derate_config) (temperature charge_current : Q)
    (force_charge : Z) : result (Q * Z) :=
  if Qltb 36 temperature then Ok (charge_current, force_charge)
  else if Qle_bool (inject_Z (py_round temperature)) (derate_temp cfg)
  then
    i ← derate_index cfg temperature;
    match derating cfg with
    | Some table =>
        if (i <? Z.of_nat (length table))%Z
        then
          derated_current ← py_index table i;
          Ok (if Qltb derated_current charge_current
              then derated_current else charge_current, force_charge)
        else Ok (charge_current, 2%Z)
    | None => Ok (charge_current, 2%Z)
    end
  else Ok (charge_current, force_charge).

(** Battery telemetry. *)
Record readings : Type := Readings {
  bat_volt : Q;
  bat_current : Q;
  current_soc : Q;
  temperature : Q }.

(** The entries of [charge_config] and of [device] read by the limits. *)
Record settings : Type := Settings {
  device_power : option Q;
  device_current : option Q;
  charge_current : option Q;
  discharge_current : option Q;
  export_limit : option Q;
  discharge_loss : Q;
  grid_loss : Q;
  charge_loss : option Q;
  inverter_power : option Q;
  bms_power : Q;
  bat_resistance : Q;
  volt_curve : list Q;
  nominal_soc : Q;
  derate_cfg : derate_config }.

(** What the battery model hands to the rest of [charge_needed]. *)
Record limits : Type := Limits {
  l_device_power : Q;
  l_bat_count : Z;
  l_bat_resistance : Q;
  l_bat_ocv : Q;
  l_charge_current : Q;
  l_force_charge : Z;
  l_charge_limit : Q;
  l_charge_loss : Q;
  l_operating_loss : Q;
  l_discharge_limit : Q;
  l_export_limit : Q }.

Definition some_or_TypeError {A} (o : option A) : result A :=
  match o with
  | Some a => Ok a
  | None => TypeError
  end.

(** From [volt_curve = charge_config['volt_curve']] to
    [export_limit = export_power / discharge_loss]. *)
Definition device_limits (cfg : settings) (b : readings) (force_charge : Z)
    : result limits :=
  volt_nominal ← Solver.interpolate (nominal_soc cfg / 10) (volt_curve cfg);
  volt_nominal ← some_or_TypeError volt_nominal;
  q ← py_div (bat_volt b) volt_nominal;
  let bat_count := py_int (q + (1 # 2)) in
  let bat_resistance := bat_resistance cfg * inject_Z bat_count in
  volt_soc ← Solver.interpolate (current_soc b / 10) (volt_curve cfg);
  volt_soc ← some_or_TypeError volt_soc;
  bat_ocv ← py_div ((bat_volt b + bat_current b * bat_resistance)
                    * volt_nominal) volt_soc;
  let '(device_power, device_current) :=
    match device_power cfg, device_current cfg with
    | Some p, Some c => (p, c)
    | _, _ => (368 # 100, 26)
    end in
  let charge_current := default device_current (charge_current cfg) in
  d ← derate (derate_cfg cfg) (temperature b) charge_current force_charge;
  let charge_current := d.1 in
  let charge_limit := device_power * grid_loss cfg in
  let charge_power :=
    charge_current * (bat_ocv + charge_current * bat_resistance) / 1000 in
  let charge_limit :=
    if Qltb charge_power (1 # 10) then charge_limit
    else if Qltb charge_power charge_limit then charge_power
    else charge_limit in
  let inverter_power :=
    default (inject_Z (py_round device_power) * 20) (inverter_power cfg) in
  charge_loss ←
    match charge_loss cfg with
    | Some l => Ok l
    | None =>
        a ← py_div (charge_limit * 1000 * bat_resistance) (bat_ocv * bat_ocv);
        b ← py_div (bms_power cfg) charge_limit;
        Ok (1 - a - b / 1000)
    end;
  let operating_loss := inverter_power / 1000 in
  let discharge_current := default device_current (discharge_current cfg) in
  let discharge_power := discharge_current * bat_ocv / 1000 in
  let discharge_limit :=
    if Qltb discharge_power device_power then discharge_power
    else device_power in
  let export_power := default device_power (export_limit cfg) in
  export_limit ← py_div export_power (discharge_loss cfg);
  Ok (Limits device_power bat_count bat_resistance bat_ocv charge_current d.2
             charge_limit charge_loss operating_loss discharge_limit
             export_limit).

End Battery.

(** ** Reports and history ([report_value_profile], [get_history]) *)

Module History.

(** A day of a report: whether its type is ['day'], its values by hour
    and its total. *)
Record day_report : Type := DayReport {
  is_day : bool;
  day_data : list Q;
  day_total : Q }.

(** [data[i] = (data[i][0] + day['data'][i]['value'], data[i][1]+1);
    hours += 1]. *)
Definition add_hour (day : day_report) (st : list (Q * Z) * Z) (i : Z)
    : result (list (Q * Z) * Z) :=
  cell ← py_index st.1 i;
  value ← py_index (day_data day) i;
  data ← py_store st.1 i (cell.1 + value, (cell.2 + 1)%Z);
  Ok (data, (st.2 + 1)%Z).

(** The body of [for day in result]. *)
Definition add_day (st : list (Q * Z) * Q * Z) (day : day_report)
    : result (list (Q * Z) * Q * Z) :=
  let '(data, totals, n) := st in
  r ← for_each (add_hour day)
               (py_range 0 (Z.of_nat (length (day_data day)))) (data, 0%Z);
  let hours := r.2 in
  let scale := if (1 <=? hours)%Z then 24 / inject_Z hours else 1 in
  Ok (r.1, totals + day_total day * scale, (n + 1)%Z).

Fixpoint add_days (days : list day_report) (st : list (Q * Z) * Q * Z)
    : result (list (Q * Z) * Q * Z) :=
  match days with
  | [] => Ok st
  | day :: days => st' ← add_day st day; add_days days st'
  end.

(** [h[0] / h[1] if h[1] != 0 else 0.0]. *)
Definition hour_average (h : Q * Z) : Q :=
  if (h.2 =? 0)%Z then 0 else h.1 / inject_Z h.2.

(** [report_value_profile(result)]: [Ok None] is [(None, None)]; the
    argument is [None] when it is not a list. *)
Definition report_value_profile (result : option (list day_report))
    : PyNum.result (option (Q * list Q)) :=
  match result with
  | None => Ok None
  | Some days =>
      first ← py_index days 0;
      if negb (is_day first) then Ok None
      else
        st ← add_days days (replicate 24 (0, 0%Z), 0, 0%Z);
        let '(data, totals, n) := st in
        let daily_average :=
          if (n =? 0)%Z then None else Some (totals / inject_Z n) in
        let by_hour := map hour_average data in
        match daily_average with
        | None => Ok None
        | Some daily_average =>
            if Qeq_bool daily_average 0 then Ok None
            else
              let current_total := py_sum by_hour in
              profile ← mapM (fun h => py_div (h * daily_average)
                                              current_total) by_hour;
              Ok (Some (daily_average, profile))
        end
  end.

(** The periods of the tariff that [get_history] sorts energy by. *)
Record tou : Type := Tou {
  off_peak1 : option period;
  off_peak2 : option period;
  peak : option period;
  peak2 : option period }.

(** The running totals [kwh], [kwh_off], [kwh_peak] and [kwh_neg]. *)
Record energy : Type := Energy {
  kwh : Q;
  kwh_off : Q;
  kwh_peak : Q;
  kwh_neg : Q }.

(** The energy part of [for y in var['data']], for a sample at hour [h]
    with value [value]. *)
Definition add_sample (tariff : option tou) (sample_time : Q) (acc : energy)
    (y : Q * Q) : energy :=
  let h := y.1 in
  let e := y.2 * sample_time / 60 in
  if Qltb 0 e
  then
    match tariff with
    | None => Energy (kwh acc + e) (kwh_off acc) (kwh_peak acc) (kwh_neg acc)
    | Some t =>
        if hour_in h (off_peak1 t)
        then Energy (kwh acc + e) (kwh_off acc + e) (kwh_peak acc) (kwh_neg acc)
        else if hour_in h (off_peak2 t)
        then Energy (kwh acc + e) (kwh_off acc + e) (kwh_peak acc) (kwh_neg acc)
        else if hour_in h (peak t)
        then Energy (kwh acc + e) (kwh_off acc) (kwh_peak acc + e) (kwh_neg acc)
        else if hour_in h (peak2 t)
        then Energy (kwh acc + e) (kwh_off acc) (kwh_peak acc + e) (kwh_neg acc)
        else Energy (kwh acc + e) (kwh_off acc) (kwh_peak acc) (kwh_neg acc)
    end
  else Energy (kwh acc) (kwh_off acc) (kwh_peak acc) (kwh_neg acc - e).

(** The energy totals of a series of power samples. *)
Definition energy_summary (tariff : option tou) (sample_time : Q)
    (data : list (Q * Q)) : energy :=
  fold_left (add_sample tariff sample_time) data (Energy 0 0 0 0).

End History.

(** ** Daylight saving ([british_summer_time], [daylight_changes]) *)

Module Calendar.

(** A date within its year. *)
Record date : Type := Date { month : Z; day : Z }.

Definition date_eqb (a b : date) : bool :=
  (month a =? month b)%Z && (day a =? day b)%Z.

Definition date_ltb (a b : date) : bool :=
  (month a <? month b)%Z || ((month a =? month b)%Z && (day a <? day b)%Z).

(** [d.replace(month=m, day=31)] moved back by
    [(weekday() + 1) % 7] days, where [weekday] is the day of the week of
    the 31st (Monday 0 to Sunday 6). *)
Definition last_sunday (m weekday : Z) : date :=
  Date m (31 - (weekday + 1) mod 7).

(** [british_summer_time(d)] for a date and an hour; [mar31] and [oct31]
    are the days of the week of 31 March and 31 October of its year. *)
Definition british_summer_time (mar31 oct31 : Z) (dat : date) (hour : Z) : Z :=
  let start_date := last_sunday 3 mar31 in
  let end_date := last_sunday 10 oct31 in
  if date_eqb dat start_date && (hour <? 1)%Z then 0%Z
  else if date_eqb dat end_date && (hour <? 1)%Z then 1%Z
  else if negb (date_ltb dat start_date) && date_ltb dat end_date then 1%Z
  else 0%Z.

(** [daylight_changes(a, b)], both in the same year. *)
Definition daylight_changes (mar31 oct31 : Z) (a : date) (hour_a : Z)
    (b : date) (hour_b : Z) : Z :=
  (british_summer_time mar31 oct31 a hour_a
   - british_summer_time mar31 oct31 b hour_b)%Z.

End Calendar.

(** ** Forecast timelines ([forecast_value_timed]) *)

Module Forecast.

(** [c_float(n)]. *)
Definition c_float (n : option Q) : Q := default 0 n.

(** The key looked up for hour [h]: [int(round_time(h - time_offset))]. *)
Definition hour_key (time_offset h : Z) : Z :=
  py_int (round_time (inject_Z (h - time_offset))).

(** [forecast_value_timed]: [today] and [tomorrow] are the ['hourly']
    dictionaries of the two days and [kwh] is tomorrow's ['kwh']. *)
Definition forecast_value_timed (today tomorrow : gmap Z Q) (kwh : Q)
    (hour_now : Q) (run_time time_offset : Z) : Q * list Q :=
  let profile :=
    map (fun h => c_float (tomorrow !! hour_key time_offset h))
        (py_range 0 24) in
  let timed :=
    map (fun h => c_float (today !! hour_key time_offset h))
        (py_range (py_int hour_now) 24) in
  (kwh, py_upto (timed ++ profile ++ profile) run_time).

End Forecast.

(** ** Timed work mode (the end of [charge_needed]) *)

Module WorkMode.

(** A work mode entry of a tariff, such as
    [{'start': 16.0, 'end': 7.0, 'min_soc': 75}]. *)
Record mode_window : Type := ModeWindow {
  window : period;
  min_soc : option Q }.

(** [tariff.get(w)], the tariff being held as its list of work mode
    entries. *)
Fixpoint tariff_get (t : list (string * mode_window)) (w : string)
    : option mode_window :=
  match t with
  | [] => None
  | (k, v) :: t => if String.eqb k w then Some v else tariff_get t w
  end.

(** [tariff.get(w) is not None and hour_in(hour_now, tariff[w])]. *)
Definition mode_applies (t : list (string * mode_window)) (hour_now : Q)
    (w : string) : bool :=
  match tariff_get t w with
  | Some mw => hour_in hour_now (Some (window mw))
  | None => false
  end.

(** The body of [for w in work_modes] on [(target_mode, required_soc)]. *)
Definition select_step (t : list (string * mode_window)) (hour_now : Q)
    (st : string * Q) (w : string) : string * Q :=
  match tariff_get t w with
  | Some mw =>
      if hour_in hour_now (Some (window mw)) then (w, default 0 (min_soc mw))
      else st
  | None => st
  end.

(** [(target_mode, required_soc)] after the loop. *)
Definition target_work_mode (t : list (string * mode_window))
    (default_mode : string) (hour_now : Q) : string * Q :=
  fold_left (select_step t hour_now) Fields.work_modes (default_mode, 0).

(** The mode handed to [set_work_mode], if any: "timed work mode
    change". *)
Definition work_mode_change (t : list (string * mode_window))
    (default_mode : option string) (update_settings : Z)
    (current_mode : option string) (current_soc hour_now : Q)
    : option string :=
  match default_mode with
  | None => None
  | Some default_mode =>
      if (update_settings =? 0)%Z || (update_settings =? 1)%Z then None
      else
        match current_mode with
        | None => None
        | Some current_mode =>
            let target := target_work_mode t default_mode hour_now in
            if ((update_settings =? 2)%Z || (update_settings =? 3)%Z)
               && negb (String.eqb current_mode target.1)
            then if Qle_bool target.2 current_soc then Some target.1 else None
            else None
        end
  end.

End WorkMode.

(** ** Households used as concrete inputs *)

Module Examples.

(** A 3.68 kW inverter under the default [charge_config]: grid, PV and
    discharge losses, 27 W of BMS power, 80 W of inverter power, a 10%
    minimum state of charge, no full-charge day and no test charge. *)
Definition household (t : Timeline.tariff) (base_hour : Z)
    (hour_now capacity residual consumption : Q)
    (generation_timed : list Q) : Solver.scenario :=
  Solver.Scenario (Some t) base_hour hour_now 0 0 0 0
    capacity residual 10 false
    (3496 # 1000) (97 # 100) (368 # 100) (8 # 100) (368 # 97)
    27 (95 # 100) (97 # 100)
    consumption Timeline.medium_profile generation_timed
    33 false (1 # 2) (1 # 4) false None.

(** Octopus Cosy at 12:00, a 10 kWh battery, an afternoon of sun. *)
Definition afternoon_sun : list Q :=
  [6 # 5; 1; 4 # 5; 1 # 2; 1 # 5] ++ replicate 12 0.

(** The battery sits exactly at its reserve. *)
Definition cosy_at_reserve : Solver.scenario :=
  household Timeline.octopus_cosy 12 12 10 1 1 afternoon_sun.

(** The battery holds 0.2 kWh more than its reserve. *)
Definition cosy_above_reserve : Solver.scenario :=
  household Timeline.octopus_cosy 12 12 10 (6 # 5) 2 afternoon_sun.

Definition cosy_above_timelines : list Q * list Q :=
  ok_or ([], []) (Solver.timelines cosy_above_reserve).

Definition cosy_above_baseline : Solver.sim :=
  ok_or (Solver.sim_init cosy_above_reserve 0)
        (Solver.baseline cosy_above_reserve cosy_above_timelines).

(** Octopus Flux at 21:00, a 20 kWh battery, a winter day ahead. *)
Definition winter_day : list Q :=
  replicate 11 0 ++ [1 # 10; 1 # 5; 2 # 5; 1 # 2; 2 # 5; 1 # 5; 1 # 10]
  ++ replicate 12 0.

Definition flux_full : Solver.scenario :=
  household Timeline.octopus_flux 21 21 20 20 16 winter_day.

Definition flux_low : Solver.scenario :=
  household Timeline.octopus_flux 21 21 20 8 16 winter_day.

(** Half a kilowatt-hour leaving the battery every hour. *)
Definition steady_drain : list Q := replicate 30 (- (1 # 2)).

(** Intelligent Octopus at 00:30, with a 49-hour generation forecast. *)
Definition intelligent_after_midnight : Solver.scenario :=
  household Timeline.intelligent_octopus 0 (1 # 2) 10 5 8 (replicate 49 0).

(** Five half-hour prices from 23:00; the first two carry 0.4p more. *)
Definition agile_one_hour : Agile.tariff_config :=
  Agile.TariffConfig (Some 1) (Some 23) (Some 1) None.

Definition agile_prices : list (string * float) :=
  [("23:00"%string, Binary64.of_Q (10004 # 1000));
   ("23:30"%string, Binary64.of_Q (10004 # 1000));
   ("00:00"%string, 10%float); ("00:30"%string, 10%float);
   ("01:00"%string, 10%float)].

(** The same search with four prices only, the last two the cheapest. *)
Definition agile_prices_short : list (string * float) :=
  [("23:00"%string, 10.5%float); ("23:30"%string, 10.5%float);
   ("00:00"%string, 10%float); ("00:30"%string, 10%float)].

(** Prices of 2.67p, but for 2.68p at 23:30. *)
Definition agile_prices_267 : list (string * float) :=
  [("23:00"%string, Binary64.of_Q (267 # 100));
   ("23:30"%string, Binary64.of_Q (268 # 100));
   ("00:00"%string, Binary64.of_Q (267 # 100));
   ("00:30"%string, Binary64.of_Q (267 # 100));
   ("01:00"%string, Binary64.of_Q (267 # 100))].

(** The 48 half-hour slots from 23:00, as [hours_time] prints them. *)
Definition half_hours_from_23 : list string :=
  map (fun i => default EmptyString
                  (Binary64.hours_time (23 + Binary64.of_Z i / 2)%float
                                       false false true))
      (py_range 0 48).

(** Six slots at 10p, then 5p: a three-hour charge between 23:00 and
    08:00. *)
Definition agile_three_hours : Agile.tariff_config :=
  Agile.TariffConfig (Some 3) (Some 23) (Some 8) None.

Definition agile_cheap_after_2am : list (string * float) :=
  zip half_hours_from_23 (replicate 6 10%float ++ replicate 42 5%float).

(** Octopus Go at 01:15, with a 72-hour generation forecast. *)
Definition go_after_1am : Solver.scenario :=
  household Timeline.octopus_go 1 (5 # 4) 10 5 8 (replicate 72 0).

(** The derating of the default [charge_config], and the same table read
    in steps of a quarter of a degree and of 0.4 degrees. *)
Definition default_derating : Battery.derate_config :=
  Battery.DerateConfig 22 (Some 5) (Some [24; 15; 10; 2]).

Definition quarter_derating : Battery.derate_config :=
  Battery.DerateConfig 22 (Some (1 # 4)) (Some [24; 15; 10; 2]).

Definition decimal_derating : Battery.derate_config :=
  Battery.DerateConfig 22 (Some (2 # 5)) (Some [24; 15; 10; 2]).

(** Open circuit voltage of a LiFePO4 battery from 0% to 100% SoC. *)
Definition lifepo4_curve : list Q :=
  [5131 # 100; 5184 # 100; 5241 # 100; 5245 # 100; 5250 # 100; 5264 # 100;
   5297 # 100; 5310 # 100; 5316 # 100; 5363 # 100; 55].

(** The default [charge_config] for a 3.68 kW inverter that takes 26 A. *)
Definition default_settings : Battery.settings :=
  Battery.Settings (Some (368 # 100)) (Some 26) None None None
    (97 # 100) (95 # 100) None None 27 (72 # 1000) lifepo4_curve 60
    default_derating.

(** Two batteries at rest, half full, at 19.5 degrees. *)
Definition cool_battery : Battery.readings :=
  Battery.Readings 106 0 50 (39 # 2).

Definition default_limits : Battery.limits :=
  ok_or (Battery.Limits 0 0 0 0 0 0 0 0 0 0 0)
        (Battery.device_limits default_settings cool_battery 1).

(** Two days of hourly loads, the second reported up to 12:00, and a day
    of 25 hours. *)
Definition two_days : list History.day_report :=
  [History.DayReport true (replicate 24 (1 # 2)) 12;
   History.DayReport true (replicate 12 (1 # 4)) 3].

Definition long_day : History.day_report :=
  History.DayReport true (replicate 25 (1 # 2)) (25 # 2).

(** A tariff that feeds in from 16:00 to 07:00 with the battery at 75% or
    more. *)
Definition evening_feedin : list (string * WorkMode.mode_window) :=
  [("Feedin"%string,
    WorkMode.ModeWindow (Period (Some 16) (Some 7)) (Some 75))].

End Examples.

(** ** Loop invariants *)

Module Invariants.

(** What the baseline loop appends in hour [i]. *)
Definition baseline_value (S : Solver.scenario) (i : Z) (v : Q) : Prop :=
  v <= Solver.capacity S
  /\ ((i <= Timeline.time_to_next (Solver.sched S))%Z -> 0 <= v).

(** What the loop with the charge added appends. *)
Definition charged_value (S : Solver.scenario) (i : Z) (v : Q) : Prop :=
  0 <= v <= Solver.capacity S.

(** [(min_i, min_v)] after the slots [seen], for the rounded averages
    [w]: no slot seen is below [min_v], and none before [min_i] is as low
    as it. *)
Definition best_of (w : Z -> float) (seen : list Z) (st : option (Z * float))
    : Prop :=
  match st with
  | None => seen = []
  | Some (i, v) =>
      v = w i
      /\ exists l1 l2, seen = l1 ++ i :: l2
                       /\ (forall j, j ∈ l1 -> (w j <=? v)%float = false)
                       /\ (forall j, j ∈ l2 -> (w j <? v)%float = false)
  end.

(** What the baseline loop knows at the head of each iteration, having
    started from a residual [k0] at hour [base]: [h] counts the values
    appended, [kwh_min] is the least of [k0] and those values, and
    [min_hour] is the hour of the first value that reached it. *)
Definition lowest_so_far (k0 : Q) (base : Z) (s : Solver.sim) : Prop :=
  Solver.h s = (base + Z.of_nat (length (Solver.bat_timed s)))%Z
  /\ (forall v, v ∈ Solver.bat_timed s -> Solver.kwh_min s <= v)
  /\ ((Solver.kwh_min s = k0 /\ Solver.min_hour s = base)
      \/ (Solver.kwh_min s < k0
          /\ exists n : nat,
               Solver.min_hour s = (base + Z.of_nat n)%Z
               /\ Solver.bat_timed s !! n = Some (Solver.kwh_min s)
               /\ forall j v, (j < n)%nat -> Solver.bat_timed s !! j = Some v ->
                              Solver.kwh_min s < v)).

(** Whether the text [HH:MM] comes back from [hours_time(time_hours(..))]
    as itself or as the minute before, and as itself on the quarter
    hours. *)
Definition back_within_a_minute (hh mi : Z) : bool :=
  match Binary64.roundtrip (Binary64.hhmm hh mi) with
  | Some r =>
      (String.eqb r (Binary64.hhmm hh mi)
       || ((1 <=? mi)%Z && String.eqb r (Binary64.hhmm hh (mi - 1))))
      && (negb (mi mod 15 =? 0)%Z || String.eqb r (Binary64.hhmm hh mi))
  | None => false
  end.

(** Whether [split_hours] gives the text [HH:MM], read by [time_hours],
    its hour and minute back, and [round_time] adds the two up. *)
Definition fields_of_hhmm (hh mi : Z) : bool :=
  match Binary64.time_hours (Binary64.TStr (Binary64.hhmm hh mi))
                            Binary64.TNone with
  | Ok (Some h) =>
      match Fields.split_hours h, Binary64.round_time h with
      | Ok (a, b), Some r =>
          (a =? hh)%Z && (b =? mi)%Z
          && PrimFloat.Leibniz.eqb
               r (Binary64.of_Z hh + Binary64.of_Z mi / 60)%float
      | _, _ => false
      end
  | _ => false
  end.

(** Whether, for the text [HH:59:SS] with more than 30 seconds,
    [split_hours] returns the hour [HH] and the minute 60. *)
Definition minute_60_of_hhmmss (hh ss : Z) : bool :=
  (ss <=? 30)%Z
  || match Binary64.time_hours (Binary64.TStr (Binary64.hhmmss hh 59 ss))
                               Binary64.TNone with
     | Ok (Some h) =>
         match Fields.split_hours h with
         | Ok (a, b) => (a =? hh)%Z && (b =? 60)%Z
         | _ => false
         end
     | _ => false
     end.

(** Whether, one step of [1 / 2 ^ n] degrees above a whole [derate_temp]
    of [dt] degrees, the battery is derated with the index -1. *)
Definition derated_at_index_minus_1 (dt n : Z) : bool :=
  let step := 1 # Z.to_pos (2 ^ n) in
  let t := inject_Z dt + step in
  (n <? 2)%Z
  || (negb (Qltb 36 t) && Qle_bool (inject_Z (py_round t)) (inject_Z dt)
      && match Battery.derate_index
                 (Battery.DerateConfig (inject_Z dt) (Some step) None) t with
         | Ok i => (i =? -1)%Z
         | _ => false
         end).

End Invariants.
Import Invariants.

(** ** Properties of the numeric helpers *)

Lemma Qltb_lt (x y : Q) : Qltb x y = true <-> x < y.
Proof.
  unfold Qltb. rewrite negb_true_iff. split; intros H.
  - apply Qnot_le_lt. intros Hle. apply Qle_bool_iff in Hle. congruence.
  - destruct (Qle_bool y x) eqn:E; [|reflexivity].
    apply Qle_bool_iff in E. lra.
Qed.

Lemma Qltb_ge (x y : Q) : Qltb x y = false <-> y <= x.
Proof.
  unfold Qltb. rewrite negb_false_iff. apply Qle_bool_iff.
Qed.

Lemma Qle_bool_gt (x y : Q) : Qle_bool x y = false <-> y < x.
Proof.
  split; intros H.
  - apply Qnot_le_lt. intros Hle. apply Qle_bool_iff in Hle. congruence.
  - destruct (Qle_bool x y) eqn:E; [|reflexivity].
    apply Qle_bool_iff in E. lra.
Qed.

Lemma py_int_whole (x : Q) (n : Z) : x == inject_Z n -> py_int x = n.
Proof.
  intros Hx. unfold py_int.
  destruct (Qle_bool 0 x); rewrite Hx.
  - apply Qfloor_Z.
  - apply Qceiling_Z.
Qed.

Lemma py_int_nonneg (x : Q) : 0 <= x -> (0 <= py_int x)%Z.
Proof.
  intros Hx. unfold py_int. apply Qle_bool_iff in Hx as Hb. rewrite Hb.
  change 0%Z with (Qfloor 0). now apply Qfloor_resp_le.
Qed.

(** ** The wrapping loops *)

(** Integer constants met as [inject_Z] of a literal. *)
Ltac inj_consts :=
  change (Z.of_nat 0) with 0%Z in *;
  change (inject_Z 0) with 0 in *;
  change (inject_Z 1) with 1 in *;
  change (inject_Z (-1)) with (-1 # 1) in *.

Lemma add24_while_neg_spec (fuel : nat) (h : Q) :
  (h < 0 -> - h <= 24 * inject_Z (Z.of_nat fuel)) ->
  (0 <= h -> add24_while_neg fuel h = h)
  /\ (h < 0 -> 0 <= add24_while_neg fuel h < 24)
  /\ exists k : Z, add24_while_neg fuel h == h + 24 * inject_Z k.
Proof.
  revert h. induction fuel as [|fuel IH]; intros h Hfuel.
  - cbn [add24_while_neg]. split; [|split].
    + reflexivity.
    + intros Hneg. specialize (Hfuel Hneg). inj_consts. lra.
    + exists 0%Z. inj_consts. lra.
  - cbn [add24_while_neg]. destruct (Qltb h 0) eqn:E.
    + apply Qltb_lt in E.
      assert (Hstep : h + 24 < 0 -> - (h + 24) <= 24 * inject_Z (Z.of_nat fuel)).
      { intros _. specialize (Hfuel E).
        rewrite Nat2Z.inj_succ, <- Z.add_1_r, inject_Z_plus in Hfuel.
        inj_consts. lra. }
      destruct (IH _ Hstep) as (Hid & Hin & k & Hk).
      split; [|split].
      * intros Hpos. lra.
      * intros _. destruct (Qlt_le_dec (h + 24) 0) as [Hlt|Hge].
        -- apply Hin, Hlt.
        -- rewrite (Hid Hge). lra.
      * exists (k + 1)%Z. rewrite Hk, inject_Z_plus. inj_consts. lra.
    + apply Qltb_ge in E. split; [|split].
      * reflexivity.
      * intros Hneg. lra.
      * exists 0%Z. inj_consts. lra.
Qed.

Lemma sub24_while_ge_spec (fuel : nat) (h : Q) :
  0 <= h ->
  (24 <= h -> h <= 24 * inject_Z (Z.of_nat fuel)) ->
  (h < 24 -> sub24_while_ge fuel h = h)
  /\ 0 <= sub24_while_ge fuel h < 24
  /\ exists k : Z, sub24_while_ge fuel h == h + 24 * inject_Z k.
Proof.
  revert h. induction fuel as [|fuel IH]; intros h Hpos Hfuel.
  - cbn [sub24_while_ge]. split; [|split].
    + reflexivity.
    + destruct (Qlt_le_dec h 24) as [Hlt|Hge]; [lra|].
      specialize (Hfuel Hge). inj_consts. lra.
    + exists 0%Z. inj_consts. lra.
  - cbn [sub24_while_ge]. destruct (Qle_bool 24 h) eqn:E.
    + apply Qle_bool_iff in E.
      assert (Hpos' : 0 <= h - 24) by lra.
      assert (Hstep : 24 <= h - 24 -> h - 24 <= 24 * inject_Z (Z.of_nat fuel)).
      { intros _. specialize (Hfuel E).
        rewrite Nat2Z.inj_succ, <- Z.add_1_r, inject_Z_plus in Hfuel.
        inj_consts. lra. }
      destruct (IH _ Hpos' Hstep) as (Hid & Hin & k & Hk).
      split; [|split].
      * intros Hlt. lra.
      * exact Hin.
      * exists (k - 1)%Z. rewrite Hk. unfold Z.sub.
        rewrite inject_Z_plus, inject_Z_opp. inj_consts. lra.
    + apply Qle_bool_gt in E. split; [|split].
      * reflexivity.
      * lra.
      * exists 0%Z. inj_consts. lra.
Qed.

Lemma wrap_fuel_neg (h : Q) :
  h < 0 -> - h <= 24 * inject_Z (Z.of_nat (wrap_fuel h)).
Proof.
  intros Hneg. unfold wrap_fuel.
  rewrite Nat2Z.inj_succ, <- Z.add_1_r, Z2Nat.id by apply Z.abs_nonneg.
  pose proof (Qfloor_le (h / 24)) as Hfl.
  assert (Hdiv : h / 24 < 0).
  { apply Qlt_shift_div_r; lra. }
  assert (Hneg' : (Qfloor (h / 24) < 0)%Z).
  { rewrite Zlt_Qlt. inj_consts. lra. }
  rewrite Z.abs_neq by lia.
  rewrite inject_Z_plus, inject_Z_opp. inj_consts.
  assert (h == 24 * (h / 24)) by (field).
  lra.
Qed.

Lemma wrap_fuel_ge (h : Q) :
  24 <= h -> h <= 24 * inject_Z (Z.of_nat (wrap_fuel h)).
Proof.
  intros Hge. unfold wrap_fuel.
  rewrite Nat2Z.inj_succ, <- Z.add_1_r, Z2Nat.id by apply Z.abs_nonneg.
  pose proof (Qlt_floor (h / 24)) as Hfl.
  assert (Hdiv : 0 <= h / 24).
  { apply Qle_shift_div_l; lra. }
  assert (Hpos : (0 <= Qfloor (h / 24))%Z).
  { change 0%Z with (Qfloor 0). apply Qfloor_resp_le, Hdiv. }
  rewrite Z.abs_eq by lia.
  rewrite inject_Z_plus in *. inj_consts.
  assert (h == 24 * (h / 24)) by (field).
  lra.
Qed.

(** Both loops of [wrap24] leave through their guards: the result lies in
    [[0, 24)] and differs from [h] by a whole number of days. *)
Lemma wrap24_spec (h : Q) :
  0 <= wrap24 h < 24 /\ exists k : Z, wrap24 h == h + 24 * inject_Z k.
Proof.
  unfold wrap24.
  destruct (add24_while_neg_spec (wrap_fuel h) h (wrap_fuel_neg h))
    as (Hid & Hin & k1 & Hk1).
  set (h1 := add24_while_neg (wrap_fuel h) h) in *.
  assert (Hpos1 : 0 <= h1).
  { destruct (Qlt_le_dec h 0) as [Hlt|Hge].
    - apply Hin, Hlt.
    - rewrite (Hid Hge). exact Hge. }
  destruct (sub24_while_ge_spec (wrap_fuel h1) h1 Hpos1 (wrap_fuel_ge h1))
    as (_ & Hin2 & k2 & Hk2).
  split; [exact Hin2|].
  exists (k1 + k2)%Z. rewrite Hk2, Hk1, inject_Z_plus. lra.
Qed.

Lemma wrap24_id (h : Q) : 0 <= h < 24 -> wrap24 h = h.
Proof.
  intros [Hlo Hhi]. unfold wrap24.
  destruct (add24_while_neg_spec (wrap_fuel h) h (wrap_fuel_neg h))
    as (Hid & _ & _).
  rewrite (Hid Hlo).
  destruct (sub24_while_ge_spec (wrap_fuel h) h Hlo (wrap_fuel_ge h))
    as (Hid2 & _ & _).
  apply Hid2, Hhi.
Qed.

Lemma whole_days_zero (z : Z) :
  -24 < 24 * inject_Z z -> 24 * inject_Z z < 24 -> z = 0%Z.
Proof.
  intros Hlo Hhi.
  assert (H1 : inject_Z (-1) < inject_Z z) by (inj_consts; lra).
  assert (H2 : inject_Z z < inject_Z 1) by (inj_consts; lra).
  rewrite <- Zlt_Qlt in H1, H2. lia.
Qed.

(** Hours that differ by whole days wrap to the same hour of the day. *)
Lemma wrap24_days (h1 h2 : Q) (k : Z) :
  h1 == h2 + 24 * inject_Z k -> wrap24 h1 == wrap24 h2.
Proof.
  intros Hk.
  destruct (wrap24_spec h1) as (Hin1 & k1 & Hk1).
  destruct (wrap24_spec h2) as (Hin2 & k2 & Hk2).
  assert (Hz : (k + k1 - k2 = 0)%Z).
  { apply whole_days_zero; unfold Z.sub;
      rewrite !inject_Z_plus, inject_Z_opp; lra. }
  assert (Hq : inject_Z (k + k1 - k2) == 0) by (rewrite Hz; reflexivity).
  unfold Z.sub in Hq. rewrite !inject_Z_plus, inject_Z_opp in Hq. lra.
Qed.

#[global] Instance Qltb_comp : Proper (Qeq ==> Qeq ==> eq) Qltb.
Proof.
  intros x x' Hx y y' Hy. unfold Qltb. now rewrite Hx, Hy.
Qed.

(** [hour_in] only looks at the hour of the day. *)
Lemma hour_in_days (h1 h2 : Q) (k : Z) (p : option period) :
  h1 == h2 + 24 * inject_Z k -> hour_in h1 p = hour_in h2 p.
Proof.
  intros Hk. unfold hour_in.
  destruct p as [[[s|] [e|]]|]; cbn [p_start p_end]; try reflexivity.
  destruct (Qeq_bool s e); [reflexivity|].
  cbv zeta. pose proof (wrap24_days h1 h2 k Hk) as Hw.
  destruct (Qltb e s); now rewrite Hw.
Qed.

(** ** [hour_in]: containment and periodicity *)





(** C10.  [hour_in] is 24-periodic in its hour argument, and agrees with
    itself on the hour wrapped into [[0, 24)]. *)
Theorem hour_in_periodic (h : Q) (p : option period) :
  hour_in (h + 24) p = hour_in h p
  /\ hour_in h p = hour_in (wrap24 h) p.
Proof.
  split.
  - apply (hour_in_days _ _ 1). inj_consts. lra.
  - destruct (wrap24_spec h) as (_ & k & Hk).
    symmetry. apply (hour_in_days _ _ k), Hk.
Qed.

(** The hours [base_hour + i] that [charge_needed] passes to [hour_in]
    may be replaced by their hour of the day. *)
Corollary hour_in_horizon (base_hour i : Z) (p : option period) :
  hour_in (inject_Z (base_hour + i)) p
  = hour_in (wrap24 (inject_Z (base_hour + i))) p.
Proof.
  destruct (wrap24_spec (inject_Z (base_hour + i))) as (_ & k & Hk).
  symmetry. apply (hour_in_days _ _ k), Hk.
Qed.

(** ** [round_time] *)

(** After wrapping, rounding to the minute keeps the hour within
    [[0, 24]]. *)
Lemma round_time_range (h : Q) : 0 <= round_time h <= 24.
Proof.
  unfold round_time. destruct (wrap24_spec h) as ((Hlo & Hhi) & _).
  set (x := wrap24 h) in *.
  assert (Hint : py_int x = Qfloor x).
  { unfold py_int. apply Qle_bool_iff in Hlo. now rewrite Hlo. }
  rewrite Hint.
  pose proof (Qfloor_le x) as Hfl. pose proof (Qlt_floor x) as Hfu.
  rewrite inject_Z_plus in Hfu. inj_consts.
  set (m := 60 * (x - inject_Z (Qfloor x)) + (1 # 2)).
  assert (Hm : 0 <= m < 61) by (unfold m; lra).
  assert (Hmi : py_int m = Qfloor m).
  { unfold py_int. destruct Hm as [Hm _]. apply Qle_bool_iff in Hm.
    now rewrite Hm. }
  rewrite Hmi.
  pose proof (Qfloor_le m) as Hml.
  assert (Hm0 : (0 <= Qfloor m)%Z).
  { change 0%Z with (Qfloor 0). apply Qfloor_resp_le. lra. }
  assert (Hm60 : (Qfloor m <= 60)%Z).
  { assert (H : inject_Z (Qfloor m) < inject_Z 61)
      by (change (inject_Z 61) with 61; lra).
    rewrite <- Zlt_Qlt in H. lia. }
  assert (Hx23 : (Qfloor x <= 23)%Z).
  { assert (H : inject_Z (Qfloor x) < inject_Z 24)
      by (change (inject_Z 24) with 24; lra).
    rewrite <- Zlt_Qlt in H. lia. }
  assert (Hx0 : (0 <= Qfloor x)%Z).
  { change 0%Z with (Qfloor 0). now apply Qfloor_resp_le. }
  rewrite Zle_Qle in Hm0, Hm60, Hx23, Hx0.
  change (inject_Z 0) with 0 in *. change (inject_Z 60) with 60 in *.
  change (inject_Z 23) with 23 in *.
  assert (Hdiv : inject_Z (Qfloor m) / 60 == inject_Z (Qfloor m) * (1 # 60))
    by field.
  rewrite Hdiv. lra.
Qed.

(** C9.  [round_time] wraps before it rounds: an hour within half a
    minute of midnight is rounded up to 24, outside [[0, 24)]. *)
Theorem round_time_reaches_24 :
  round_time (4799 # 200) == 24
  /\ Binary64.round_time 0x1.7feb851eb851fp+4%float = Some 24%float.
Proof. split; vm_compute; reflexivity. Qed.

(** ** Time text *)

Lemma Qfloor_between (x : Q) (n : Z) :
  inject_Z n <= x -> x < inject_Z (n + 1) -> Qfloor x = n.
Proof.
  intros Hlo Hhi.
  pose proof (Qfloor_resp_le _ _ Hlo) as H1. rewrite Qfloor_Z in H1.
  pose proof (Qfloor_le x) as H2.
  assert (H3 : inject_Z (Qfloor x) < inject_Z (n + 1)) by lra.
  rewrite <- Zlt_Qlt in H3. lia.
Qed.

(** C8.  Over binary64, "01:40" is read as 1.6666666666666665 hours and
    printed as "01:39"; 24 of the 1440 texts from 00:00 to 23:59 lose a
    minute in this way. *)
Theorem hours_time_loses_a_minute :
  Binary64.time_hours (Binary64.TStr "01:40") Binary64.TNone
  = Ok (Some 0x1.aaaaaaaaaaaaap+0%float)
  /\ Binary64.hours_time 0x1.aaaaaaaaaaaaap+0%float false false true
     = Some "01:39"%string
  /\ Binary64.roundtrip "01:40" = Some "01:39"%string
  /\ length (filter (fun s => negb (Binary64.survives s)) Binary64.all_hhmm)
     = 24%nat.
Proof. repeat split; vm_compute; reflexivity. Qed.

(** ** The span of the price window *)

Lemma py_round_near (x : Q) :
  x - (1 # 2) <= inject_Z (py_round x) <= x + (1 # 2).
Proof.
  unfold py_round.
  pose proof (Qfloor_le x) as Hlo. pose proof (Qlt_floor x) as Hhi.
  rewrite inject_Z_plus in Hhi. inj_consts.
  destruct (Qcompare_spec (x - inject_Z (Qfloor x)) (1 # 2)) as [He|Hl|Hg].
  - destruct (Z.even (Qfloor x)); [|rewrite inject_Z_plus; inj_consts]; lra.
  - lra.
  - rewrite inject_Z_plus. inj_consts. lra.
Qed.

Lemma clamp_duration_range (d : option Q) : 1 <= Agile.clamp_duration d <= 6.
Proof.
  unfold Agile.clamp_duration. destruct d as [d|]; [|lra].
  destruct (Qltb 6 d) eqn:E6; [lra|]. apply Qltb_ge in E6.
  destruct (Qltb d 1) eqn:E1; [lra|]. apply Qltb_ge in E1. lra.
Qed.

Lemma span_of_round (d : option Q) :
  Agile.span_of d = py_round (Agile.clamp_duration d * 2 + (49 # 100)).
Proof.
  unfold Agile.span_of, Agile.round_duration. apply py_int_whole. field.
Qed.

Lemma span_of_near (d : option Q) :
  2 * Agile.clamp_duration d - (1 # 100) <= inject_Z (Agile.span_of d)
  <= 2 * Agile.clamp_duration d + (99 # 100).
Proof.
  rewrite span_of_round.
  pose proof (py_round_near (Agile.clamp_duration d * 2 + (49 # 100))). lra.
Qed.

Lemma span_of_range (d : option Q) : (2 <= Agile.span_of d <= 12)%Z.
Proof.
  pose proof (clamp_duration_range d) as Hc.
  pose proof (span_of_near d) as Hs.
  assert (H1 : inject_Z 1 < inject_Z (Agile.span_of d)) by (inj_consts; lra).
  assert (H2 : inject_Z (Agile.span_of d) < inject_Z 13)
    by (change (inject_Z 13) with 13; lra).
  rewrite <- Zlt_Qlt in H1, H2. lia.
Qed.

(** C5 (as the code has it).  The span is the whole number of half-hour
    slots within [2d - 0.01, 2d + 0.99] of the duration [d] clamped to
    [[1, 6]] hours: between 2 and 12 slots, and never more than
    [2 * ceil(d)]. *)
Theorem span_rounds_up_to_half_hours (d : option Q) :
  let c := Agile.clamp_duration d in
  let s := Agile.span_of d in
  (2 <= s <= 12)%Z
  /\ 2 * c - (1 # 100) <= inject_Z s <= 2 * c + (99 # 100)
  /\ (s <= 2 * Qceiling c)%Z.
Proof.
  cbv zeta. pose proof (span_of_near d) as Hs.
  split; [apply span_of_range|]. split; [exact Hs|].
  pose proof (Qle_ceiling (Agile.clamp_duration d)) as Hceil.
  assert (H1 : inject_Z (Agile.span_of d)
               < inject_Z (2 * Qceiling (Agile.clamp_duration d) + 1)).
  { rewrite inject_Z_plus, inject_Z_mult. inj_consts.
    change (inject_Z 2) with 2. lra. }
  rewrite <- Zlt_Qlt in H1. lia.
Qed.

(** C5 as stated fails for a charge of an hour and a half: three slots,
    not [2 * ceil(1.5) = 4], and not an even number. *)
Lemma span_of_90_minutes_is_odd :
  Agile.span_of (Some (3 # 2)) = 3%Z
  /\ (2 * Qceiling (Agile.clamp_duration (Some (3 # 2))))%Z = 4%Z
  /\ Z.even (Agile.span_of (Some (3 # 2))) = false.
Proof. repeat split. Qed.

(** ** Rotating a daily profile *)

Lemma py_int_hour (hour_now : Q) :
  0 <= hour_now < 24 -> (0 <= py_int hour_now <= 23)%Z.
Proof.
  intros [Hlo Hhi]. unfold py_int.
  apply Qle_bool_iff in Hlo as Hb. rewrite Hb.
  split.
  - change 0%Z with (Qfloor 0). now apply Qfloor_resp_le.
  - pose proof (Qfloor_le hour_now) as Hfl.
    assert (H : inject_Z (Qfloor hour_now) < inject_Z 24).
    { change (inject_Z 24) with 24. lra. }
    rewrite <- Zlt_Qlt in H. lia.
Qed.

(** For a 24-value profile the rotated list stops at 48 entries. *)
Lemma timed_list_length {A} (data : list A) (hour_now : Q) (run_time : Z) :
  length data = 24%nat -> 0 <= hour_now < 24 -> (0 <= run_time)%Z ->
  length (Timeline.timed_list data hour_now (Some run_time))
  = Z.to_nat (Z.min run_time 48).
Proof.
  intros Hlen Hh Hr. pose proof (py_int_hour hour_now Hh) as Hi.
  unfold Timeline.timed_list, py_from, py_upto, py_clip.
  rewrite !length_app, length_drop, length_take, Hlen.
  destruct (Z.ltb_spec (py_int hour_now) 0); [lia|].
  destruct (Z.ltb_spec run_time 0); [lia|].
  rewrite length_take, !length_app, length_drop, length_take, Hlen. lia.
Qed.

(** X29.  Entry [k] of the list that [timed_list] makes of a 24-hour
    profile is the profile value at hour [int(hour_now) + k] of the
    day. *)
Lemma timed_list_aligned {A} (data : list A) (hour_now : Q) (run_time : Z)
    (k : nat) :
  length data = 24%nat -> 0 <= hour_now < 24 ->
  (Z.of_nat k < Z.min run_time 48)%Z ->
  Timeline.timed_list data hour_now (Some run_time) !! k
  = data !! ((Z.to_nat (py_int hour_now) + k) mod 24)%nat.
Proof.
  intros Hlen Hh Hk. pose proof (py_int_hour hour_now Hh) as Hi.
  unfold Timeline.timed_list, py_from, py_upto, py_clip.
  rewrite !length_app, length_drop, length_take, Hlen.
  destruct (Z.ltb_spec (py_int hour_now) 0); [lia|].
  destruct (Z.ltb_spec run_time 0); [lia|].
  set (n := Z.to_nat (py_int hour_now)).
  replace (Z.to_nat (Z.min (py_int hour_now) (Z.of_nat 24))) with n by lia.
  rewrite lookup_take_lt by lia.
  assert (Hn : (n <= 23)%nat) by lia.
  assert (Hrot : forall j, (j < 24)%nat ->
            (drop n data ++ take n data) !! j = data !! ((n + j) mod 24)%nat).
  { intros j Hj. destruct (Nat.lt_ge_cases j (24 - n)) as [Hlt|Hge].
    - rewrite lookup_app_l by (rewrite length_drop; lia).
      rewrite lookup_drop. f_equal. rewrite Nat.mod_small; lia.
    - rewrite lookup_app_r by (rewrite length_drop; lia).
      rewrite length_drop, Hlen, lookup_take_lt by lia. f_equal.
      replace (n + j)%nat with ((j - (24 - n)) + 1 * 24)%nat by lia.
      rewrite Nat.Div0.mod_add, Nat.mod_small; lia. }
  destruct (Nat.lt_ge_cases k 24) as [Hlt|Hge].
  - rewrite lookup_app_l by (rewrite length_app, length_drop, length_take; lia).
    now apply Hrot.
  - rewrite lookup_app_r by (rewrite length_app, length_drop, length_take; lia).
    rewrite length_app, length_drop, length_take, Hlen.
    replace (24 - n + n `min` 24)%nat with 24%nat by lia.
    rewrite Hrot by lia. f_equal.
    replace (n + k)%nat with ((n + (k - 24)) + 1 * 24)%nat by lia.
    now rewrite Nat.Div0.mod_add.
Qed.

(** C6.  Under the Intelligent Octopus tariff, in the hour after
    midnight, [run_time] is 49 while the rotated consumption profile has
    48 entries, and the loop over [range(0, run_time)] that follows runs
    off its end. *)
Theorem timed_list_shorter_than_run_time :
  let S := Examples.intelligent_after_midnight in
  let run_time := Timeline.run_time (Solver.sched S) in
  run_time = 49%Z
  /\ length (Timeline.timed_list Timeline.medium_profile (Solver.hour_now S)
                                 (Some run_time)) = 48%nat
  /\ length (ok_or [] (Solver.consumption_timed S)) = 48%nat
  /\ Solver.timelines S = IndexError.
Proof. repeat split; vm_compute; reflexivity. Qed.

(** ** The residual timeline *)

Lemma py_range_length (a b : Z) : length (py_range a b) = Z.to_nat (b - a).
Proof. unfold py_range. now rewrite length_map, length_seq. Qed.

Lemma py_range_lookup (a b : Z) (k : nat) (x : Z) :
  py_range a b !! k = Some x <-> (x = a + Z.of_nat k /\ Z.of_nat k < b - a)%Z.
Proof.
  unfold py_range. rewrite list_lookup_fmap. split.
  - intros H. destruct (seq 0 (Z.to_nat (b - a)) !! k) as [j|] eqn:E;
      [|discriminate].
    apply lookup_seq in E as [-> Hlt]. cbn in H. injection H as <-. lia.
  - intros [-> Hlt].
    assert (E : seq 0 (Z.to_nat (b - a)) !! k = Some k)
      by (apply lookup_seq; lia).
    now rewrite E.
Qed.

Lemma py_index_nonneg {A} (l : list A) (i : Z) :
  (0 <= i)%Z ->
  py_index l i = match l !! Z.to_nat i with
                 | Some x => Ok x
                 | None => IndexError
                 end.
Proof.
  intros Hi. unfold py_index.
  destruct (Z.ltb_spec i 0); [lia|].
  destruct (Z.ltb_spec i 0); [lia|]. reflexivity.
Qed.

Lemma py_index_in_range {A} (l : list A) (i : Z) :
  (0 <= i < Z.of_nat (length l))%Z ->
  exists x, py_index l i = Ok x /\ l !! Z.to_nat i = Some x.
Proof.
  intros Hi. rewrite py_index_nonneg by lia.
  destruct (l !! Z.to_nat i) as [x|] eqn:E; [eauto|].
  apply lookup_ge_None in E. lia.
Qed.

Section Trace.

Variable S : Solver.scenario.
Hypothesis reserve_nonneg : 0 <= Solver.reserve S.
Hypothesis capacity_nonneg : 0 <= Solver.capacity S.

Lemma six_percent_nonneg : 0 <= Solver.capacity S * 6 / 100.
Proof.
  assert (H : Solver.capacity S * 6 / 100 == Solver.capacity S * (6 # 100))
    by field.
  rewrite H. lra.
Qed.

Lemma settle_baseline_appends (i : Z) (s : Solver.sim) :
  exists v, Solver.bat_timed (Solver.settle_baseline S i s)
            = Solver.bat_timed s ++ [v]
            /\ baseline_value S i v.
Proof.
  unfold Solver.settle_baseline, baseline_value.
  pose proof six_percent_nonneg as H6.
  destruct (Qle_bool (Solver.kwh_current s) (Solver.reserve S)) eqn:Ek;
    [destruct (Z.leb_spec i (Timeline.time_to_next (Solver.sched S)))|];
    cbn [andb];
    repeat match goal with
      | |- context [Qltb ?a ?b] =>
          let E := fresh "E" in
          destruct (Qltb a b) eqn:E;
          [apply Qltb_lt in E | apply Qltb_ge in E]
      end;
    cbn [Solver.bat_timed]; eexists; (split; [reflexivity|]);
    try apply Qle_bool_iff in Ek; try apply Qle_bool_gt in Ek;
    split; intros; try lia; lra.
Qed.

Lemma settle_charged_appends (i : Z) (s : Solver.sim) :
  exists v, Solver.bat_timed (Solver.settle_charged S i s)
            = Solver.bat_timed s ++ [v]
            /\ charged_value S i v.
Proof.
  unfold Solver.settle_charged, charged_value.
  pose proof six_percent_nonneg as H6.
  destruct (Qle_bool (Solver.kwh_current s) (Solver.reserve S)) eqn:Ek;
    repeat match goal with
      | |- context [Qltb ?a ?b] =>
          let E := fresh "E" in
          destruct (Qltb a b) eqn:E;
          [apply Qltb_lt in E | apply Qltb_ge in E]
      end;
    cbn [Solver.bat_timed]; eexists; (split; [reflexivity|]);
    try apply Qle_bool_iff in Ek; try apply Qle_bool_gt in Ek;
    split; lra.
Qed.

(** A loop whose body appends one value per hour appends, in order, one
    value for each hour it reaches. *)
Lemma run_hours_trace (settle : Z -> Solver.sim -> Solver.sim)
    (P : Z -> Q -> Prop) (kwh_timed : list Q) :
  (forall i s, exists v, Solver.bat_timed (settle i s)
                         = Solver.bat_timed s ++ [v] /\ P i v) ->
  forall hours s,
  exists tr,
    Solver.bat_timed (Solver.run_hours settle kwh_timed hours s).1
    = Solver.bat_timed s ++ tr
    /\ Forall2 P (take (length tr) hours) tr
    /\ ((Solver.run_hours settle kwh_timed hours s).2 = true ->
        length tr = length hours).
Proof.
  intros Hsettle hours. induction hours as [|i hours IH]; intros s.
  - exists []. cbn. rewrite app_nil_r. repeat split. constructor.
  - cbn [Solver.run_hours].
    destruct (Hsettle i s) as (v & Hv & HP).
    destruct (py_index kwh_timed i) as [d| | | | |] eqn:Ed;
      try (exists [v]; cbn; repeat split;
           [exact Hv | repeat constructor; exact HP | discriminate]).
    destruct (IH (Solver.advance d (settle i s))) as (tr & Htr & HF & Hlen).
    exists (v :: tr). cbn [Solver.advance Solver.bat_timed] in Htr.
    rewrite Htr, Hv, <- app_assoc. repeat split.
    + cbn. constructor; assumption.
    + intros Hdone. cbn. f_equal. apply Hlen, Hdone.
Qed.

End Trace.

(** The loop runs to its end, and appends [run_time] values, when
    [kwh_timed] covers the run time. *)
Lemma run_hours_completes (settle : Z -> Solver.sim -> Solver.sim)
    (kwh_timed : list Q) (n : nat) (a : Z) (s : Solver.sim) :
  (0 <= a)%Z -> (a + Z.of_nat n <= Z.of_nat (length kwh_timed))%Z ->
  (Solver.run_hours settle kwh_timed (py_range a (a + Z.of_nat n)) s).2 = true.
Proof.
  revert a s. induction n as [|n IH]; intros a s Ha Hlen.
  - unfold py_range. replace (a + Z.of_nat 0 - a)%Z with 0%Z by lia.
    reflexivity.
  - unfold py_range.
    replace (Z.to_nat (a + Z.of_nat (Datatypes.S n) - a)) with (Datatypes.S n) by lia.
    cbn [seq map Solver.run_hours].
    replace (a + Z.of_nat 0)%Z with a by lia.
    rewrite py_index_nonneg by lia.
    destruct (kwh_timed !! Z.to_nat a) as [d|] eqn:E.
    + rewrite <- seq_shift, map_map.
      specialize (IH (a + 1)%Z (Solver.advance d (settle a s))).
      unfold py_range in IH.
      replace (Z.to_nat (a + 1 + Z.of_nat n - (a + 1))) with n in IH by lia.
      erewrite map_ext; [apply IH; lia|].
      intros k. cbn. lia.
    + apply lookup_ge_None in E. lia.
Qed.

(** C1 (as the code has it).  With a non-negative reserve and capacity,
    every value appended to the residual timeline is at most the
    capacity; it is also at least 0 in the pass with the charge added, and
    in the baseline pass for the hours up to [time_to_next]. *)
Theorem residual_timeline_bounds (S : Solver.scenario) (kwh_timed : list Q)
    (k : Q) (n : nat) (v : Q) :
  0 <= Solver.reserve S -> 0 <= Solver.capacity S ->
  let hours := py_range 0 (Timeline.run_time (Solver.sched S)) in
  let before :=
    Solver.bat_timed (Solver.run_hours (Solver.settle_baseline S) kwh_timed
                                       hours (Solver.sim_init S k)).1 in
  let after :=
    Solver.bat_timed (Solver.run_hours (Solver.settle_charged S) kwh_timed
                                       hours (Solver.sim_init S k)).1 in
  (before !! n = Some v ->
   v <= Solver.capacity S
   /\ ((Z.of_nat n <= Timeline.time_to_next (Solver.sched S))%Z -> 0 <= v))
  /\ (after !! n = Some v -> 0 <= v <= Solver.capacity S).
Proof.
  intros Hres Hcap hours before after.
  assert (Hat : forall (P : Z -> Q -> Prop) tr,
             Forall2 P (take (length tr) hours) tr ->
             tr !! n = Some v -> P (Z.of_nat n) v).
  { intros P tr HF Hn.
    destruct (Forall2_lookup_r _ _ _ _ _ HF Hn) as (i & Hi & HP).
    apply lookup_take_Some in Hi as [Hi _].
    apply py_range_lookup in Hi as [-> _]. exact HP. }
  split; intros Hn.
  - destruct (run_hours_trace (Solver.settle_baseline S) (baseline_value S)
                kwh_timed (settle_baseline_appends S Hres Hcap)
                hours (Solver.sim_init S k)) as (tr & Htr & HF & _).
    subst before. rewrite Htr in Hn. exact (Hat _ _ HF Hn).
  - destruct (run_hours_trace (Solver.settle_charged S) (charged_value S)
                kwh_timed (settle_charged_appends S Hres Hcap)
                hours (Solver.sim_init S k)) as (tr & Htr & HF & _).
    subst after. rewrite Htr in Hn. exact (Hat _ _ HF Hn).
Qed.

(** C1 as stated fails in the baseline pass: from 8 kWh at 21:00 the
    residual is carried below zero by the following evening. *)
Lemma baseline_residual_below_zero :
  exists tl b v,
    Solver.timelines Examples.flux_low = Ok tl
    /\ Solver.baseline Examples.flux_low tl = Ok b
    /\ 0 <= Solver.residual Examples.flux_low
       <= Solver.capacity Examples.flux_low
    /\ Solver.bat_timed b !! 29%nat = Some v
    /\ v < 0.
Proof.
  do 3 eexists.
  split; [vm_compute; reflexivity|]. split; [vm_compute; reflexivity|].
  split; [split; discriminate|].
  split; [vm_compute; reflexivity|]. reflexivity.
Qed.

Lemma residual_timeline_bounds_witness :
  exists v,
    Solver.bat_timed
      (Solver.run_hours (Solver.settle_charged Examples.flux_low)
         Examples.steady_drain
         (py_range 0 (Timeline.run_time (Solver.sched Examples.flux_low)))
         (Solver.sim_init Examples.flux_low 8)).1 !! 29%nat = Some v
    /\ 0 <= v <= Solver.capacity Examples.flux_low.
Proof.
  eexists. split; [vm_compute; reflexivity|].
  refine (proj2 (residual_timeline_bounds Examples.flux_low
                   Examples.steady_drain 8 29 _ _ _) _);
    vm_compute; first [reflexivity | discriminate].
Defined.

(** ** The price window *)

Lemma start_index_nonneg (cfg : Agile.tariff_config) :
  (0 <= Agile.start_index cfg)%Z.
Proof.
  unfold Agile.start_index. apply py_int_nonneg.
  pose proof (round_time_range (default 23 (Agile.start_at cfg) - 23)). lra.
Qed.

Lemma start_le_end_index (cfg : Agile.tariff_config) :
  (Agile.start_index cfg <= Agile.end_index cfg)%Z.
Proof.
  unfold Agile.end_index.
  match goal with |- context [(?a <? ?b)%Z] => destruct (Z.ltb_spec a b) end;
    lia.
Qed.

(** ** The order of binary64 values *)

Ltac compare_cases :=
  repeat match goal with
    | H : context [Z.compare ?a ?b] |- _ =>
        destruct (Z.compare_spec a b); try discriminate H
    | |- context [Z.compare ?a ?b] => destruct (Z.compare_spec a b)
    | H : context [Pos.compare_cont Eq ?a ?b] |- _ =>
        change (Pos.compare_cont Eq a b) with (Pos.compare a b) in H;
        destruct (Pos.compare_spec a b); try discriminate H
    | |- context [Pos.compare_cont Eq ?a ?b] =>
        change (Pos.compare_cont Eq a b) with (Pos.compare a b);
        destruct (Pos.compare_spec a b)
    end.

Ltac spec_float_order :=
  unfold SFltb, SFleb, SFcompare;
  repeat match goal with
    | x : spec_float |- _ => destruct x as [[|]|[|]| |[|] ? ?]
    end;
  try discriminate; try reflexivity; try congruence;
  intros; cbn [CompOpp] in *; compare_cases;
  subst; cbn [CompOpp] in *; try discriminate; try reflexivity;
  try congruence; lia.

Lemma SFleb_ltb_trans (a b c : spec_float) :
  SFleb a b = true -> SFltb b c = true -> SFltb a c = true.
Proof. revert a b c. intros a b c. spec_float_order. Qed.

Lemma SFltb_leb (a b : spec_float) : SFltb a b = true -> SFleb a b = true.
Proof. spec_float_order. Qed.

Lemma SFltb_not_leb (a b : spec_float) :
  SFltb a b = true -> SFleb b a = false.
Proof. spec_float_order. Qed.

Lemma SFltb_irrefl (a : spec_float) : SFltb a a = false.
Proof. spec_float_order. Qed.

Lemma SFleb_total (a b : spec_float) :
  a <> S754_nan -> b <> S754_nan -> SFltb b a = false -> SFleb a b = true.
Proof. spec_float_order. Qed.

Lemma SFltb_total (a b : spec_float) :
  a <> S754_nan -> b <> S754_nan -> SFleb b a = false -> SFltb a b = true.
Proof. spec_float_order. Qed.

Lemma is_nan_spec (x : float) : is_nan x = false -> Prim2SF x <> S754_nan.
Proof.
  unfold is_nan. rewrite FloatAxioms.eqb_spec. intros H E.
  rewrite E in H. discriminate.
Qed.

(** [a <= b < c] gives [a < c]. *)
Lemma f_le_lt_trans (a b c : float) :
  (a <=? b)%float = true -> (b <? c)%float = true -> (a <? c)%float = true.
Proof.
  rewrite FloatAxioms.leb_spec, !FloatAxioms.ltb_spec.
  apply SFleb_ltb_trans.
Qed.

Lemma f_lt_le (a b : float) :
  (a <? b)%float = true -> (a <=? b)%float = true.
Proof.
  rewrite FloatAxioms.leb_spec, FloatAxioms.ltb_spec. apply SFltb_leb.
Qed.

Lemma f_lt_not_le (a b : float) :
  (a <? b)%float = true -> (b <=? a)%float = false.
Proof.
  rewrite FloatAxioms.leb_spec, FloatAxioms.ltb_spec. apply SFltb_not_leb.
Qed.

Lemma f_lt_irrefl (a : float) : (a <? a)%float = false.
Proof. rewrite FloatAxioms.ltb_spec. apply SFltb_irrefl. Qed.

(** Two numbers are comparable. *)
Lemma f_le_total (a b : float) :
  is_nan a = false -> is_nan b = false ->
  (b <? a)%float = false -> (a <=? b)%float = true.
Proof.
  rewrite FloatAxioms.leb_spec, FloatAxioms.ltb_spec. intros Ha Hb.
  apply SFleb_total; now apply is_nan_spec.
Qed.

Lemma f_lt_total (a b : float) :
  is_nan a = false -> is_nan b = false ->
  (b <=? a)%float = false -> (a <? b)%float = true.
Proof.
  rewrite FloatAxioms.leb_spec, FloatAxioms.ltb_spec. intros Ha Hb.
  apply SFltb_total; now apply is_nan_spec.
Qed.

(** Nothing that is at or below [a] is above something not below it. *)
Lemma f_not_le_below (a b c : float) :
  (a <? b)%float = true -> (c <? b)%float = false ->
  (c <=? a)%float = false.
Proof.
  intros Hab Hcb. destruct (c <=? a)%float eqn:E; [|reflexivity].
  rewrite (f_le_lt_trans c a b E Hab) in Hcb. discriminate.
Qed.

Lemma f_not_lt (a b : float) :
  (a <=? b)%float = false -> (a <? b)%float = false.
Proof.
  intros H. destruct (a <? b)%float eqn:E; [|reflexivity].
  rewrite (f_lt_le a b E) in H. discriminate.
Qed.

(** ** The price window *)

Section Scan.

Variable sum : list float -> float.
Variables (times : list string) (prices weights : list float) (span : Z).
Hypothesis weights_nonzero : (sum weights =? 0)%float = false.

Local Abbreviation w := (AgileWindow.rounded_avg sum prices weights span).

Lemma scan_step_best (seen : list Z) (st : option (Z * float)) (i : Z) :
  best_of w seen st ->
  (0 <= i < Z.of_nat (length times))%Z ->
  exists st', AgileWindow.scan_step sum times prices weights span st i = Ok st'
              /\ best_of w (seen ++ [i]) st'.
Proof.
  intros Hbest Hi. unfold AgileWindow.scan_step.
  destruct (py_index_in_range times i Hi) as (t & -> & _).
  unfold AgileWindow.wavg. rewrite weights_nonzero. cbn [mbind result_bind].
  destruct st as [[m v]|].
  - destruct Hbest as (Hv & l1 & l2 & -> & H1 & H2).
    destruct (w i <? v)%float eqn:E.
    + eexists. split; [reflexivity|].
      split; [reflexivity|].
      exists (l1 ++ m :: l2), []. split; [reflexivity|]. split.
      * intros j Hj. apply elem_of_app in Hj as [Hj|Hj].
        -- apply (f_not_le_below _ v); [exact E|].
           apply f_not_lt, H1, Hj.
        -- apply elem_of_cons in Hj as [->|Hj].
           ++ rewrite <- Hv. apply f_lt_not_le, E.
           ++ apply (f_not_le_below _ v); [exact E|]. apply H2, Hj.
      * intros j Hj. inversion Hj.
    + eexists. split; [reflexivity|].
      split; [exact Hv|].
      exists l1, (l2 ++ [i]). split; [now rewrite <- app_assoc|]. split.
      * exact H1.
      * intros j Hj. apply elem_of_app in Hj as [Hj|Hj].
        -- apply H2, Hj.
        -- apply list_elem_of_singleton in Hj as ->. exact E.
  - cbn in Hbest. subst seen. eexists. split; [reflexivity|].
    split; [reflexivity|].
    exists [], []. split; [reflexivity|]. split; intros j Hj; inversion Hj.
Qed.

Lemma scan_best (slots seen : list Z) (st : option (Z * float)) :
  best_of w seen st ->
  (forall i, i ∈ slots -> (0 <= i < Z.of_nat (length times))%Z) ->
  exists st',
    for_each (AgileWindow.scan_step sum times prices weights span) slots st
    = Ok st'
    /\ best_of w (seen ++ slots) st'.
Proof.
  revert seen st. induction slots as [|i slots IH]; intros seen st Hbest Hin.
  - exists st. rewrite app_nil_r. split; [reflexivity|exact Hbest].
  - destruct (scan_step_best seen st i Hbest) as (st1 & Hst1 & Hbest1).
    { apply Hin. left. }
    destruct (IH (seen ++ [i]) st1 Hbest1) as (st' & Hst' & Hbest').
    { intros j Hj. apply Hin. now right. }
    exists st'. cbn [for_each]. rewrite Hst1. cbn [mbind result_bind].
    split; [exact Hst'|]. now rewrite <- app_assoc in Hbest'.
Qed.

(** Over a range of slots the loop ends on a slot that none is below, and
    that none before it is as low as. *)
Lemma scan_range_best (a b : Z) :
  (0 <= a <= b)%Z -> (b < Z.of_nat (length times))%Z ->
  exists min_i,
    for_each (AgileWindow.scan_step sum times prices weights span)
             (py_range a (b + 1)) None = Ok (Some (min_i, w min_i))
    /\ (a <= min_i <= b)%Z
    /\ (forall j, (a <= j <= b)%Z -> (w j <? w min_i)%float = false)
    /\ (forall j, (a <= j < min_i)%Z -> (w j <=? w min_i)%float = false).
Proof.
  intros Hab Hb.
  assert (Hmem : forall j, j ∈ py_range a (b + 1) <-> (a <= j <= b)%Z).
  { intros j. rewrite list_elem_of_lookup. split.
    - intros (k & Hk). apply py_range_lookup in Hk. lia.
    - intros Hj. exists (Z.to_nat (j - a)). apply py_range_lookup. lia. }
  destruct (scan_best (py_range a (b + 1)) [] None eq_refl)
    as (st & Hst & Hbest).
  { intros i Hi. apply Hmem in Hi. lia. }
  cbn [app] in Hbest. destruct st as [[m v]|].
  - destruct Hbest as (-> & l1 & l2 & Hsplit & H1 & H2).
    exists m. split; [exact Hst|].
    assert (Hm : py_range a (b + 1) !! length l1 = Some m).
    { rewrite Hsplit. now apply list_lookup_middle. }
    apply py_range_lookup in Hm as Hm'.
    split; [lia|]. split.
    + intros j Hj. apply Hmem in Hj. rewrite Hsplit in Hj.
      apply elem_of_app in Hj as [Hj|Hj].
      * apply f_not_lt, H1, Hj.
      * apply elem_of_cons in Hj as [->|Hj]; [apply f_lt_irrefl|].
        apply H2, Hj.
    + intros j Hj. apply H1.
      assert (Hk : py_range a (b + 1) !! Z.to_nat (j - a) = Some j)
        by (apply py_range_lookup; lia).
      rewrite Hsplit, lookup_app_l in Hk by lia.
      apply list_elem_of_lookup. eauto.
  - cbn in Hbest. exfalso.
    assert (Ha : a ∈ py_range a (b + 1)) by (apply Hmem; lia).
    rewrite Hbest in Ha. inversion Ha.
Qed.

End Scan.

(** X30.  With no weighting configured the weights of the search are
    [span] ones, from two to twelve of them, and they add up to [span]
    whichever way [sum] adds them: the division by [sum(weights)] does
    not raise. *)
Theorem uniform_weights_sum (cfg : Agile.tariff_config) :
  Agile.weighting cfg = None ->
  let span := Agile.span_of (Agile.duration cfg) in
  AgileWindow.weights cfg = replicate (Z.to_nat span) 1%float
  /\ Binary64.sum_left (AgileWindow.weights cfg) = Binary64.of_Z span
  /\ Binary64.sum_compensated (AgileWindow.weights cfg) = Binary64.of_Z span
  /\ (Binary64.of_Z span =? 0)%float = false.
Proof.
  intros Hw span. unfold AgileWindow.weights, Agile.weights_of. rewrite Hw.
  pose proof (span_of_range (Agile.duration cfg)) as Hspan.
  fold span in Hspan |- *. clearbody span.
  assert (Hn : exists n : nat, (n <= 10)%nat /\ span = (Z.of_nat n + 2)%Z)
    by (exists (Z.to_nat (span - 2)); lia).
  destruct Hn as (n & Hn & ->).
  do 11 (destruct n as [|n]; [vm_compute; repeat split|]).
  lia.
Qed.

Lemma uniform_weights_sum_witness :
  (Binary64.sum_left (AgileWindow.weights Examples.agile_three_hours) =? 0)%float
  = false.
Proof.
  destruct (uniform_weights_sum Examples.agile_three_hours eq_refl)
    as (_ & -> & _ & H).
  exact H.
Defined.

(** C2 (as the code has it).  With uniform weights, whose sum is not
    zero, and prices beyond the last candidate window, the search returns
    a window whose start slot lies within the bounds: no candidate has a
    weighted average that, rounded to two decimals, is below that of the
    window returned, and no earlier candidate has one as low.  When the
    rounded averages are numbers, that of the window returned is at most
    that of every candidate and less than that of every earlier one. *)
Theorem agile_window_least_rounded_average (sum : list float -> float)
    (cfg : Agile.tariff_config) (results : list (string * float)) :
  Agile.weighting cfg = None ->
  (sum (AgileWindow.weights cfg) =? 0)%float = false ->
  (Agile.end_index cfg + Agile.span_of (Agile.duration cfg)
   < Z.of_nat (length results))%Z ->
  let span := Agile.span_of (Agile.duration cfg) in
  let w := AgileWindow.rounded_avg sum results.*2 (AgileWindow.weights cfg)
                                   span in
  exists min_i p,
    AgileWindow.get_agile_period sum cfg results = Ok (Some p)
    /\ (Agile.start_index cfg <= min_i <= Agile.end_index cfg)%Z
    /\ results.*1 !! Z.to_nat min_i = Some (AgileWindow.ap_start p)
    /\ results.*1 !! Z.to_nat (min_i + span) = Some (AgileWindow.ap_end p)
    /\ AgileWindow.ap_span p = span
    /\ AgileWindow.ap_price p = w min_i
    /\ (forall j, (Agile.start_index cfg <= j <= Agile.end_index cfg)%Z ->
                  (w j <? w min_i)%float = false
                  /\ (is_nan (w min_i) = false -> is_nan (w j) = false ->
                      (w min_i <=? w j)%float = true))
    /\ (forall j, (Agile.start_index cfg <= j < min_i)%Z ->
                  (w j <=? w min_i)%float = false
                  /\ (is_nan (w min_i) = false -> is_nan (w j) = false ->
                      (w min_i <? w j)%float = true)).
Proof.
  intros Hw Hsum Hlen span w.
  pose proof (start_index_nonneg cfg) as Hs0.
  pose proof (start_le_end_index cfg) as Hse.
  pose proof (span_of_range (Agile.duration cfg)) as Hspan.
  fold span in Hspan.
  assert (Hlt : length results.*1 = length results) by apply length_fmap.
  destruct (scan_range_best sum results.*1 results.*2
              (AgileWindow.weights cfg) span Hsum
              (Agile.start_index cfg) (Agile.end_index cfg))
    as (min_i & Hscan & Hin & Hle & Hfirst); [lia | lia |].
  destruct (py_index_in_range results.*1 min_i) as (t1 & Ht1 & Hl1); [lia|].
  destruct (py_index_in_range results.*1 (min_i + span))
    as (t2 & Ht2 & Hl2); [lia|].
  exists min_i. eexists. split.
  - unfold AgileWindow.get_agile_period, AgileWindow.best_slot. fold span.
    destruct (Z.ltb_spec (Z.of_nat (length results))
                         (Agile.end_index cfg + span)); [lia|].
    rewrite Hscan. cbn [mbind result_bind].
    rewrite Ht1, Ht2. cbn [mbind result_bind]. reflexivity.
  - cbn [AgileWindow.ap_start AgileWindow.ap_end AgileWindow.ap_span
         AgileWindow.ap_price].
    split; [exact Hin|]. split; [exact Hl1|]. split; [exact Hl2|].
    split; [reflexivity|]. split; [reflexivity|]. split.
    + intros j Hj. split; [apply Hle, Hj|].
      intros Hn1 Hn2. apply f_le_total; [exact Hn1 | exact Hn2|].
      apply Hle, Hj.
    + intros j Hj. split; [apply Hfirst, Hj|].
      intros Hn1 Hn2. apply f_lt_total; [exact Hn1 | exact Hn2|].
      apply Hfirst, Hj.
Qed.

Lemma agile_window_least_rounded_average_witness :
  exists min_i p,
    AgileWindow.get_agile_period Binary64.sum_left Examples.agile_one_hour
                                 Examples.agile_prices
    = Ok (Some p)
    /\ (0 <= min_i <= 2)%Z
    /\ AgileWindow.ap_price p
       = AgileWindow.rounded_avg Binary64.sum_left Examples.agile_prices.*2
                                 [1%float; 1%float] 2 min_i.
Proof.
  destruct (agile_window_least_rounded_average Binary64.sum_left
              Examples.agile_one_hour Examples.agile_prices)
    as (min_i & p & Hp & Hin & _ & _ & _ & Hprice & _).
  - reflexivity.
  - vm_compute. reflexivity.
  - vm_compute. reflexivity.
  - exists min_i, p. split; [exact Hp|]. split; [exact Hin|exact Hprice].
Defined.

(** C2 as stated fails: five prices, a one-hour charge between 23:00 and
    01:00.  The search returns the window at 23:00, whose weighted
    average 10.004 is above the average 10.0 of the window at 00:00;
    both round to 10.0. *)
Lemma agile_window_not_least_average :
  let span := Agile.span_of (Agile.duration Examples.agile_one_hour) in
  let avg := AgileWindow.weighted_avg Binary64.sum_left
               Examples.agile_prices.*2
               (AgileWindow.weights Examples.agile_one_hour) span in
  exists p,
    AgileWindow.get_agile_period Binary64.sum_left Examples.agile_one_hour
                                 Examples.agile_prices
    = Ok (Some p)
    /\ AgileWindow.best_slot Binary64.sum_left Examples.agile_one_hour
                             Examples.agile_prices
       = Ok (Some (0%Z, AgileWindow.ap_price p))
    /\ AgileWindow.ap_start p = "23:00"%string
    /\ (Agile.start_index Examples.agile_one_hour <= 2
        <= Agile.end_index Examples.agile_one_hour)%Z
    /\ (avg 2%Z <? avg 0%Z)%float = true
    /\ AgileWindow.get_agile_period Binary64.sum_compensated
                                    Examples.agile_one_hour
                                    Examples.agile_prices
       = Ok (Some p).
Proof.
  cbv zeta. eexists. split; [vm_compute; reflexivity|].
  repeat split; vm_compute; congruence.
Qed.

(** Rounding is that of binary64: with 2.67p in every slot but for 2.68p
    at 23:30, the averages [5.35 / 2] of the first two windows are just
    below 2.675 and round to 2.67, and the window at 23:00 is returned. *)
Example agile_window_rounds_in_binary :
  exists p,
    AgileWindow.get_agile_period Binary64.sum_left Examples.agile_one_hour
                                 Examples.agile_prices_267
    = Ok (Some p)
    /\ AgileWindow.ap_start p = "23:00"%string
    /\ AgileWindow.ap_price p = Binary64.of_Q (267 # 100)
    /\ AgileWindow.get_agile_period Binary64.sum_compensated
                                    Examples.agile_one_hour
                                    Examples.agile_prices_267
       = Ok (Some p).
Proof.
  eexists. split; [vm_compute; reflexivity|].
  repeat split; vm_compute; reflexivity.
Qed.

(** With exactly [end_i + span] prices the search passes the "prices not
    available" test, and [times[min_i + span]] is out of range when the
    last candidate wins. *)
Example agile_window_end_out_of_range :
  AgileWindow.get_agile_period Binary64.sum_left Examples.agile_one_hour
                               Examples.agile_prices_short
  = IndexError.
Proof. vm_compute. reflexivity. Qed.

(** Six slots at 10p from 23:00 and 5p from 02:00: the three-hour window
    starts at 02:00 at 5p. *)
Example agile_window_from_2am :
  exists p,
    AgileWindow.get_agile_period Binary64.sum_left Examples.agile_three_hours
                                 Examples.agile_cheap_after_2am = Ok (Some p)
    /\ AgileWindow.ap_span p = 6%Z
    /\ AgileWindow.ap_start p = "02:00"%string
    /\ AgileWindow.ap_end p = "05:00"%string
    /\ AgileWindow.ap_price p = 5%float.
Proof. eexists. split; [vm_compute; reflexivity|]. repeat split. Qed.

(** ** The charge decision *)

(** [interpolate] never raises. *)
Lemma interpolate_total (f : Q) (v : list Q) :
  exists r, Solver.interpolate f v = Ok r.
Proof.
  unfold Solver.interpolate. destruct v as [|v0 v]; [eauto|].
  destruct (Qltb f 0) eqn:E0; [eauto|]. apply Qltb_ge in E0.
  set (l := v0 :: v).
  assert (Hlen : (1 <= Z.of_nat (length l))%Z)
    by (unfold l; cbn [length]; lia).
  clearbody l.
  destruct (Qle_bool _ f) eqn:E1.
  - unfold py_index. cbn [Z.ltb Z.compare].
    destruct (Z.ltb_spec (Z.of_nat (length l) + -1) 0) as [H|H]; [lia|].
    destruct (l !! Z.to_nat (Z.of_nat (length l) + -1)) as [x|] eqn:E.
    + cbn. eauto.
    + apply lookup_ge_None in E. lia.
  - apply Qle_bool_gt in E1.
    pose proof (py_int_nonneg f E0) as Hi0.
    assert (Hi1 : (py_int f + 1 < Z.of_nat (length l))%Z).
    { unfold py_int. apply Qle_bool_iff in E0. rewrite E0.
      pose proof (Qfloor_le f) as Hfl.
      assert (H : inject_Z (Qfloor f) < inject_Z (Z.of_nat (length l) - 1))
        by lra.
      rewrite <- Zlt_Qlt in H. lia. }
    destruct (py_index_in_range l (py_int f)) as (a & -> & _); [lia|].
    destruct (py_index_in_range l (py_int f + 1)) as (b & -> & _); [lia|].
    cbn. eauto.
Qed.

(** The two ways [decide] produces a plan. *)
Lemma decide_cases (S : Solver.scenario) (c : Q) (tl : list Q * list Q)
    (b : Solver.sim) (p : Solver.plan) :
  Solver.decide S c tl b = Ok p ->
  Solver.before p = b
  /\ ((Solver.no_charge_guard S c b = true
       /\ Solver.message p = Solver.no_charge_needed
       /\ Solver.kwh_needed p = 0 /\ Solver.hours p = 0
       /\ Solver.full_charge_used p = false)
      \/ (Solver.no_charge_guard S c b = false
          /\ exists sr d,
               Solver.interpolate (Timeline.time_to_start (Solver.sched S))
                                  (Solver.bat_timed b) = Ok (Some sr)
               /\ Solver.charge_amount S
                    (default (Solver.kwh_shortfall S c b)
                             (Solver.test_charge S)) sr d
                  = Ok (Solver.kwh_needed p, Solver.hours p,
                        Solver.full_charge_used p))).
Proof.
  unfold Solver.decide.
  destruct (interpolate_total (Timeline.time_to_start (Solver.sched S))
              (Solver.bat_timed b)) as (sr0 & Hsr).
  rewrite Hsr. cbn [mbind result_bind].
  destruct (Solver.no_charge_guard S c b) eqn:Eg.
  - intros [= <-]. cbn. split; [reflexivity|]. left. repeat split.
  - destruct sr0 as [sr|]; cbn [mbind result_bind]; [|discriminate].
    destruct (py_index tl.2 _) as [d| | | | |]; cbn [mbind result_bind];
      try discriminate.
    destruct (Solver.charge_amount S _ sr d) as [[[kn hrs] full]| | | | |] eqn:Ea;
      cbn [mbind result_bind]; try discriminate.
    cbn [fst snd].
    repeat match goal with
      | |- match ?r with Ok _ => _ | _ => _ end = Ok _ -> _ =>
          destruct r; cbn [mbind result_bind]; try discriminate
      | |- match ?r with Some _ => _ | None => _ end = Ok _ -> _ =>
          destruct r; cbn [mbind result_bind]; try discriminate
      | |- mbind _ ?r = Ok _ -> _ =>
          destruct r; cbn [mbind result_bind]; try discriminate
      end.
    intros [= <-]. cbn. split; [reflexivity|]. right.
    split; [reflexivity|]. exists sr, d. split; [reflexivity|exact Ea].
Qed.

Lemma charge_needed_stages (S : Solver.scenario) (c : Q) (p : Solver.plan) :
  Solver.charge_needed S c = Ok p ->
  exists tl b, Solver.timelines S = Ok tl /\ Solver.baseline S tl = Ok b
               /\ Solver.decide S c tl b = Ok p.
Proof.
  unfold Solver.charge_needed.
  destruct (Solver.timelines S) as [tl| | | | |]; cbn [mbind result_bind];
    try discriminate.
  destruct (Solver.baseline S tl) as [b| | | | |] eqn:Eb;
    cbn [mbind result_bind]; try discriminate.
  intros Hd. exists tl, b. repeat split; assumption.
Qed.

(** What [charge_amount] returns under either value of its flag. *)
Lemma charge_amount_cases (S : Solver.scenario) (kn sr d kn' hrs : Q)
    (full : bool) :
  Solver.charge_amount S kn sr d = Ok (kn', hrs, full) ->
  if full then kn' = Solver.capacity S - sr else kn' = kn.
Proof.
  unfold Solver.charge_amount.
  destruct (py_div kn _) as [q| | | | |]; cbn [mbind result_bind];
    try discriminate.
  repeat match goal with
    | |- (if ?b then _ else _) = Ok _ -> _ => destruct b
    end; intros [= <- <- <-]; reflexivity.
Qed.

(** C3 (as the code has it).  When the lowest residual of the baseline
    stays above the reserve, [kwh_needed] is below [min_kwh], and neither
    a full charge nor a test charge is asked for, the plan is "no charge
    needed" with no charge time. *)
Theorem no_charge_needed_when_guarded (S : Solver.scenario) (c : Q)
    (tl : list Q * list Q) (b : Solver.sim) :
  Solver.timelines S = Ok tl ->
  Solver.baseline S tl = Ok b ->
  Solver.reserve S < Solver.kwh_min b ->
  Solver.kwh_shortfall S c b < Solver.min_kwh S ->
  Solver.full_charge_due S = false ->
  Solver.test_charge S = None ->
  exists p, Solver.charge_needed S c = Ok p
            /\ Solver.message p = Solver.no_charge_needed
            /\ Solver.hours p = 0
            /\ Solver.kwh_needed p = 0.
Proof.
  intros Htl Hb Hmin Hshort Hfull Htest.
  unfold Solver.charge_needed. rewrite Htl. cbn [mbind result_bind].
  rewrite Hb. cbn [mbind result_bind]. unfold Solver.decide.
  destruct (interpolate_total (Timeline.time_to_start (Solver.sched S))
              (Solver.bat_timed b)) as (sr0 & ->).
  cbn [mbind result_bind].
  assert (Hg : Solver.no_charge_guard S c b = true).
  { unfold Solver.no_charge_guard. rewrite Hfull, Htest.
    apply Qltb_lt in Hmin, Hshort. now rewrite Hmin, Hshort. }
  rewrite Hg. eexists. split; [reflexivity|]. repeat split.
Qed.

(** With 0.2 kWh needed against a threshold of 0.5 kWh and the lowest
    residual above the reserve. *)
Lemma no_charge_needed_when_guarded_witness :
  Solver.kwh_shortfall Examples.cosy_above_reserve 20
                       Examples.cosy_above_baseline == 1 # 5
  /\ Solver.min_kwh Examples.cosy_above_reserve == 1 # 2
  /\ exists p, Solver.charge_needed Examples.cosy_above_reserve 20 = Ok p
               /\ Solver.message p = Solver.no_charge_needed
               /\ Solver.hours p = 0
               /\ Solver.kwh_needed p = 0.
Proof.
  split; [vm_compute; reflexivity|]. split; [reflexivity|].
  apply (no_charge_needed_when_guarded Examples.cosy_above_reserve 20
           Examples.cosy_above_timelines Examples.cosy_above_baseline);
    vm_compute; reflexivity.
Defined.

(** C3 as stated fails: with the battery exactly at its reserve at noon,
    0.2 kWh is needed against a threshold of 0.5 kWh and no full charge is
    due, yet the plan adds charge for a quarter of an hour. *)
Lemma charge_added_below_min_kwh :
  exists tl b p,
    Solver.timelines Examples.cosy_at_reserve = Ok tl
    /\ Solver.baseline Examples.cosy_at_reserve tl = Ok b
    /\ Solver.kwh_shortfall Examples.cosy_at_reserve 20 b == 1 # 5
    /\ Solver.min_kwh Examples.cosy_at_reserve == 1 # 2
    /\ Solver.full_charge_due Examples.cosy_at_reserve = false
    /\ Solver.test_charge Examples.cosy_at_reserve = None
    /\ Solver.derate_full Examples.cosy_at_reserve = false
    /\ Solver.charge_needed Examples.cosy_at_reserve 20 = Ok p
    /\ Solver.message p = Solver.with_charge_added
    /\ Solver.full_charge_used p = false
    /\ Solver.hours p == 1 # 4.
Proof.
  do 3 eexists.
  split; [vm_compute; reflexivity|].
  split; [vm_compute; reflexivity|].
  split; [vm_compute; reflexivity|].
  split; [reflexivity|]. split; [reflexivity|]. split; [reflexivity|].
  split; [reflexivity|].
  split; [vm_compute; reflexivity|].
  repeat split.
Qed.

(** [kwh_needed = reserve + kwh_contingency - kwh_min] does not decrease
    with the contingency percentage. *)
Lemma kwh_shortfall_monotone (S : Solver.scenario) (c1 c2 : Q)
    (b : Solver.sim) :
  0 <= Solver.consumption S -> c1 <= c2 ->
  Solver.kwh_shortfall S c1 b <= Solver.kwh_shortfall S c2 b.
Proof.
  intros Hcons Hc. unfold Solver.kwh_shortfall, Solver.contingency_of.
  destruct (Solver.special_day S && negb _); [lra|].
  pose proof (Qmult_le_compat_r c1 c2 (Solver.consumption S) Hc Hcons) as H.
  assert (E1 : Solver.consumption S * c1 / 100
               == c1 * Solver.consumption S * (1 # 100)) by field.
  assert (E2 : Solver.consumption S * c2 / 100
               == c2 * Solver.consumption S * (1 # 100)) by field.
  rewrite E1, E2. lra.
Qed.

(** A 10 kWh battery with a 10% minimum, 5 kWh of consumption, a
    contingency of 20% and a lowest residual of 1 kWh: 1 kWh is needed. *)
Example kwh_shortfall_one_kwh (S : Solver.scenario) (b : Solver.sim) :
  Solver.capacity S == 10 -> Solver.min_soc S == 10 ->
  Solver.consumption S == 5 -> Solver.special_day S = false ->
  Solver.kwh_min b == 1 ->
  Solver.kwh_shortfall S 20 b == 1.
Proof.
  intros Hcap Hsoc Hcons Hday Hmin.
  unfold Solver.kwh_shortfall, Solver.contingency_of, Solver.reserve.
  rewrite Hday, Hcap, Hsoc, Hcons, Hmin. reflexivity.
Qed.

Lemma no_charge_guard_true (S : Solver.scenario) (c : Q) (b : Solver.sim) :
  Solver.no_charge_guard S c b = true ->
  Solver.reserve S < Solver.kwh_min b
  /\ Solver.kwh_shortfall S c b < Solver.min_kwh S
  /\ Solver.full_charge_due S = false
  /\ Solver.test_charge S = None.
Proof.
  unfold Solver.no_charge_guard. rewrite !andb_true_iff, !Qltb_lt.
  intros [[[H1 H2] H3] H4]. repeat split; try assumption.
  - now apply negb_true_iff in H3.
  - now destruct (Solver.test_charge S).
Qed.

(** C4 (as the code has it).  With non-negative consumption and
    [min_kwh], a larger contingency percentage never decreases
    [kwh_needed = reserve + kwh_contingency - kwh_min]; nor does it
    decrease the [kwh_needed] of the plan when the two plans agree on
    whether "Full charge time used" applied. *)
Theorem kwh_needed_monotone_in_contingency (S : Solver.scenario)
    (c1 c2 : Q) (p1 p2 : Solver.plan) :
  0 <= Solver.consumption S -> 0 <= Solver.min_kwh S -> c1 <= c2 ->
  Solver.charge_needed S c1 = Ok p1 ->
  Solver.charge_needed S c2 = Ok p2 ->
  Solver.full_charge_used p1 = Solver.full_charge_used p2 ->
  Solver.kwh_shortfall S c1 (Solver.before p1)
  <= Solver.kwh_shortfall S c2 (Solver.before p2)
  /\ Solver.kwh_needed p1 <= Solver.kwh_needed p2.
Proof.
  intros Hcons Hmin Hc H1 H2 Hflag.
  apply charge_needed_stages in H1 as (tl & b & Htl & Hb & Hd1).
  apply charge_needed_stages in H2 as (tl' & b' & Htl' & Hb' & Hd2).
  rewrite Htl in Htl'. injection Htl' as <-.
  rewrite Hb in Hb'. injection Hb' as <-.
  apply decide_cases in Hd1 as (Hb1 & Hcase1).
  apply decide_cases in Hd2 as (Hb2 & Hcase2).
  rewrite Hb1, Hb2.
  pose proof (kwh_shortfall_monotone S c1 c2 b Hcons Hc) as Hmono.
  split; [exact Hmono|].
  destruct Hcase1 as [(Hg1 & _ & Hk1 & _ & Hf1)|(Hg1 & sr1 & d1 & Hsr1 & Ha1)];
    destruct Hcase2 as [(Hg2 & _ & Hk2 & _ & Hf2)|(Hg2 & sr2 & d2 & Hsr2 & Ha2)].
  - rewrite Hk1, Hk2. lra.
  - apply no_charge_guard_true in Hg1 as (Hres & Hshort & Hfull & Htest).
    rewrite Hk1. rewrite Hf1 in Hflag.
    apply charge_amount_cases in Ha2. rewrite <- Hflag in Ha2.
    rewrite Ha2, Htest. cbn [default].
    unfold Solver.no_charge_guard in Hg2. rewrite Hfull, Htest in Hg2.
    apply Qltb_lt in Hres. rewrite Hres in Hg2. cbn in Hg2.
    rewrite !andb_true_r in Hg2. apply Qltb_ge in Hg2. lra.
  - apply no_charge_guard_true in Hg2 as (Hres & Hshort & Hfull & Htest).
    exfalso. unfold Solver.no_charge_guard in Hg1.
    rewrite Hfull, Htest in Hg1.
    apply Qltb_lt in Hres. rewrite Hres in Hg1. cbn in Hg1.
    rewrite !andb_true_r in Hg1. apply Qltb_ge in Hg1. lra.
  - rewrite Hsr1 in Hsr2. injection Hsr2 as <-.
    apply charge_amount_cases in Ha1, Ha2. rewrite <- Hflag in Ha2.
    destruct (Solver.full_charge_used p1).
    + rewrite Ha1, Ha2. lra.
    + rewrite Ha1, Ha2. destruct (Solver.test_charge S); cbn [default]; lra.
Qed.

Lemma kwh_needed_monotone_in_contingency_witness :
  exists p1 p2,
    Solver.charge_needed Examples.cosy_above_reserve 20 = Ok p1
    /\ Solver.charge_needed Examples.cosy_above_reserve 40 = Ok p2
    /\ Solver.kwh_needed p1 <= Solver.kwh_needed p2.
Proof.
  do 2 eexists.
  split; [vm_compute; reflexivity|]. split; [vm_compute; reflexivity|].
  refine (proj2 (kwh_needed_monotone_in_contingency
                   Examples.cosy_above_reserve 20 40 _ _ _ _ _ _ _ _));
    vm_compute; first [reflexivity | discriminate].
Defined.

(** C4 as stated fails: with a full 20 kWh battery at 21:00 and a winter
    day ahead, a contingency of 20% gives a charge of about 2.9 kWh, and
    a contingency of 25% gives the full charge, of about 2.3 kWh. *)
Lemma larger_contingency_smaller_kwh_needed :
  exists p1 p2,
    Solver.charge_needed Examples.flux_full 20 = Ok p1
    /\ Solver.charge_needed Examples.flux_full 25 = Ok p2
    /\ Solver.full_charge_used p1 = false
    /\ Solver.full_charge_used p2 = true
    /\ Solver.kwh_needed p2 < Solver.kwh_needed p1.
Proof.
  do 2 eexists.
  split; [vm_compute; reflexivity|]. split; [vm_compute; reflexivity|].
  repeat split.
Qed.

(** ** Rounding to the minute, and hour and minute fields *)

Lemma py_int_floor (x : Q) : 0 <= x -> py_int x = Qfloor x.
Proof.
  intros Hx. unfold py_int. apply Qle_bool_iff in Hx. now rewrite Hx.
Qed.

Lemma py_int_proper (x y : Q) : x == y -> py_int x = py_int y.
Proof.
  intros Hxy. unfold py_int. rewrite Hxy.
  destruct (Qle_bool 0 y); now rewrite Hxy.
Qed.

Lemma inject_Z_range (a z b : Z) :
  (a <= z <= b)%Z -> inject_Z a <= inject_Z z <= inject_Z b.
Proof. intros [H1 H2]. split; rewrite <- Zle_Qle; assumption. Qed.

(** The hour and minute that [round_time] adds up, for an hour [x] of the
    day. *)
Lemma minute_fields (x : Q) :
  0 <= x < 24 ->
  let hh := py_int x in
  let mi := py_int (60 * (x - inject_Z hh) + (1 # 2)) in
  (0 <= hh <= 23)%Z /\ (0 <= mi <= 60)%Z
  /\ inject_Z hh <= x < inject_Z hh + 1
  /\ inject_Z mi <= 60 * (x - inject_Z hh) + (1 # 2) < inject_Z mi + 1.
Proof.
  intros Hx hh mi.
  pose proof (py_int_hour x Hx) as Hhh. fold hh in Hhh.
  assert (Eh : hh = Qfloor x) by (apply py_int_floor; lra).
  pose proof (Qfloor_le x) as H1. pose proof (Qlt_floor x) as H2.
  rewrite inject_Z_plus in H2. rewrite <- Eh in H1, H2. inj_consts.
  set (m := 60 * (x - inject_Z hh) + (1 # 2)) in *.
  assert (Hm : 0 <= m < 61) by (unfold m; lra).
  assert (Em : mi = Qfloor m) by (apply py_int_floor; lra).
  pose proof (Qfloor_le m) as H3. pose proof (Qlt_floor m) as H4.
  rewrite inject_Z_plus in H4. rewrite <- Em in H3, H4. inj_consts.
  assert (Hmi : (0 <= mi <= 60)%Z).
  { assert (Ha : inject_Z (-1) < inject_Z mi) by (inj_consts; lra).
    assert (Hb : inject_Z mi < inject_Z 61)
      by (change (inject_Z 61) with 61; lra).
    rewrite <- Zlt_Qlt in Ha, Hb. lia. }
  repeat split; try lia; lra.
Qed.

(** [round_time] as a count of minutes. *)
Lemma round_time_minutes (h : Q) :
  exists m : Z, (0 <= m <= 1440)%Z /\ round_time h == inject_Z m / 60.
Proof.
  destruct (wrap24_spec h) as (Hx & _). unfold round_time.
  destruct (minute_fields (wrap24 h) Hx) as (Hhh & Hmi & _). cbv zeta in *.
  set (hh := py_int (wrap24 h)) in *.
  set (mi := py_int (60 * (wrap24 h - inject_Z hh) + (1 # 2))) in *.
  exists (60 * hh + mi)%Z. split; [lia|].
  rewrite inject_Z_plus, inject_Z_mult. change (inject_Z 60) with 60. field.
Qed.

(** X1.  [round_time] returns a whole number of minutes between 00:00 and
    24:00, within half a minute of the hour of the day of its argument. *)
Theorem round_time_nearest_minute (h : Q) :
  exists m : Z,
    (0 <= m <= 1440)%Z
    /\ round_time h == inject_Z m / 60
    /\ wrap24 h - (1 # 120) < round_time h <= wrap24 h + (1 # 120).
Proof.
  destruct (wrap24_spec h) as (Hx & _). unfold round_time.
  set (x := wrap24 h) in *.
  destruct (minute_fields x Hx) as (Hhh & Hmi & Hh & Hm). cbv zeta in *.
  set (hh := py_int x) in *.
  set (mi := py_int (60 * (x - inject_Z hh) + (1 # 2))) in *.
  exists (60 * hh + mi)%Z. split; [lia|].
  assert (Hdiv : inject_Z mi / 60 == inject_Z mi * (1 # 60)) by field.
  split.
  - rewrite inject_Z_plus, inject_Z_mult. change (inject_Z 60) with 60. field.
  - rewrite Hdiv. lra.
Qed.

Lemma wrap24_proper (x y : Q) : x == y -> wrap24 x == wrap24 y.
Proof.
  intros Hxy. apply (wrap24_days x y 0). rewrite Hxy. inj_consts. lra.
Qed.

(** [round_time] in terms of any hour of the day equal to the wrapped
    argument. *)
Lemma round_time_fields (h x : Q) :
  wrap24 h == x ->
  round_time h
  = inject_Z (py_int x)
    + inject_Z (py_int (60 * (x - inject_Z (py_int x)) + (1 # 2))) / 60.
Proof.
  intros Hx. unfold round_time.
  rewrite (py_int_proper _ _ Hx).
  assert (E : 60 * (wrap24 h - inject_Z (py_int x)) + (1 # 2)
              == 60 * (x - inject_Z (py_int x)) + (1 # 2)) by (rewrite Hx; reflexivity).
  now rewrite (py_int_proper _ _ E).
Qed.

Lemma wrap24_unique (h x : Q) (k : Z) :
  0 <= x < 24 -> h == x + 24 * inject_Z k -> wrap24 h == x.
Proof.
  intros Hx Hk. rewrite (wrap24_days h x k Hk). now rewrite wrap24_id.
Qed.

Lemma whole_minutes_fields (hh mi : Z) :
  (0 <= hh)%Z -> (0 <= mi < 60)%Z ->
  let x := inject_Z hh + inject_Z mi / 60 in
  py_int x = hh /\ py_int (60 * (x - inject_Z (py_int x)) + (1 # 2)) = mi.
Proof.
  intros Hhh Hmi x.
  assert (Hdiv : inject_Z mi / 60 == inject_Z mi * (1 # 60)) by field.
  pose proof (inject_Z_range 0 mi 59 ltac:(lia)) as Hq.
  pose proof (inject_Z_range 0 hh hh ltac:(lia)) as Hq'.
  change (inject_Z 0) with 0 in *. change (inject_Z 59) with 59 in *.
  assert (E1 : py_int x = hh).
  { rewrite py_int_floor by (unfold x; rewrite Hdiv; lra).
    apply Qfloor_between; unfold x; rewrite ?inject_Z_plus, Hdiv;
      inj_consts; lra. }
  split; [exact E1|]. rewrite E1.
  rewrite py_int_floor by (unfold x; rewrite Hdiv; lra).
  apply Qfloor_between; unfold x; rewrite ?inject_Z_plus, Hdiv;
    inj_consts; lra.
Qed.

(** X2.  A whole number of minutes of the day is left as it is, on any
    day: [round_time] of [hh:mi] moved by [k] days is [hh:mi]. *)
Theorem round_time_keeps_whole_minutes (hh mi k : Z) :
  (0 <= hh < 24)%Z -> (0 <= mi < 60)%Z ->
  round_time (inject_Z hh + inject_Z mi / 60 + 24 * inject_Z k)
  == inject_Z hh + inject_Z mi / 60.
Proof.
  intros Hhh Hmi.
  set (x := inject_Z hh + inject_Z mi / 60).
  assert (Hdiv : inject_Z mi / 60 == inject_Z mi * (1 # 60)) by field.
  pose proof (inject_Z_range 0 mi 59 ltac:(lia)) as Hq.
  pose proof (inject_Z_range 0 hh 23 ltac:(lia)) as Hq'.
  change (inject_Z 0) with 0 in *. change (inject_Z 59) with 59 in *.
  change (inject_Z 23) with 23 in *.
  assert (Hx : 0 <= x < 24) by (unfold x; rewrite Hdiv; lra).
  rewrite (round_time_fields _ x) by (apply (wrap24_unique _ x k Hx); reflexivity).
  destruct (whole_minutes_fields hh mi) as (E1 & E2); [lia | lia |].
  cbv zeta in E1, E2. fold x in E1, E2. rewrite E2, E1. reflexivity.
Qed.

Lemma round_time_keeps_whole_minutes_witness :
  round_time (inject_Z 4 + inject_Z 30 / 60 + 24 * inject_Z (-1))
  == inject_Z 4 + inject_Z 30 / 60.
Proof.
  apply (round_time_keeps_whole_minutes 4 30 (-1)); lia.
Defined.

(** The fields that [set_charge] writes for a whole number [m] of
    minutes. *)
Lemma clock_fields_minutes (st : Q) (m : Z) :
  (0 <= m)%Z -> st == inject_Z m / 60 ->
  Fields.clock_fields st = Fields.TimeOfDay (m / 60) (m mod 60).
Proof.
  intros Hm Hst.
  pose proof (Z.mod_pos_bound m 60 ltac:(lia)) as Hmod.
  pose proof (Z.div_pos m 60 Hm ltac:(lia)) as Hdiv.
  destruct (whole_minutes_fields (m / 60) (m mod 60) Hdiv Hmod) as (E1 & E2).
  cbv zeta in E1, E2.
  assert (E : st == inject_Z (m / 60) + inject_Z (m mod 60) / 60).
  { rewrite Hst. rewrite (Z.div_mod m 60) at 1 by lia.
    rewrite inject_Z_plus, inject_Z_mult. change (inject_Z 60) with 60. field. }
  unfold Fields.clock_fields.
  rewrite (py_int_proper _ _ E), E1.
  assert (E' : 60 * (st - inject_Z (m / 60)) + (1 # 2)
               == 60 * (inject_Z (m / 60) + inject_Z (m mod 60) / 60
                        - inject_Z (m / 60)) + (1 # 2))
    by (rewrite E; reflexivity).
  rewrite (py_int_proper _ _ E'). rewrite E1 in E2. now rewrite E2.
Qed.

(** X5.  [set_charge] disables a period whose start and end are equal and
    sets it to 00:00 - 00:00; otherwise it writes a minute from 0 to 59
    and an hour from 0 to 24, which add up to the start and end times
    after adjustment and rounding to the minute. *)
Theorem set_charge_period_fields (ch : bool) (st en adjust : Q) :
  let p := Fields.configure_period ch st en adjust in
  let ok (t : Fields.time_of_day) (h : Q) :=
    (0 <= Fields.hour t <= 24)%Z /\ (0 <= Fields.minute t <= 59)%Z
    /\ inject_Z (Fields.hour t) + inject_Z (Fields.minute t) / 60
       == round_time (h + adjust) in
  if Qeq_bool st en
  then p = Fields.ChargePeriod false (Fields.TimeOfDay 0 0) (Fields.TimeOfDay 0 0)
  else Fields.enable p = ch
       /\ ok (Fields.startTime p) st /\ ok (Fields.endTime p) en.
Proof.
  cbv zeta. unfold Fields.configure_period.
  destruct (Qeq_bool st en); [reflexivity|].
  cbn [Fields.enable Fields.startTime Fields.endTime].
  assert (H : forall h,
            let t := Fields.clock_fields (round_time h) in
            (0 <= Fields.hour t <= 24)%Z /\ (0 <= Fields.minute t <= 59)%Z
            /\ inject_Z (Fields.hour t) + inject_Z (Fields.minute t) / 60
               == round_time h).
  { intros h. cbv zeta.
    destruct (round_time_minutes h) as (m & Hm & Hr).
    rewrite (clock_fields_minutes _ m ltac:(lia) Hr).
    cbn [Fields.hour Fields.minute].
    pose proof (Z.mod_pos_bound m 60 ltac:(lia)) as Hmod.
    assert (Hd : (0 <= m / 60 <= 24)%Z).
    { split; [apply Z.div_pos; lia|].
      apply Z.div_le_upper_bound; lia. }
    split; [exact Hd|]. split; [lia|].
    rewrite Hr. rewrite (Z.div_mod m 60) at 3 by lia.
    rewrite inject_Z_plus, inject_Z_mult. change (inject_Z 60) with 60. field. }
  split; [reflexivity|]. split; apply H.
Qed.

(** The hour written is 24 for a time that is rounded up to midnight. *)
Example set_charge_hour_24 :
  Fields.startTime (Fields.configure_period true (4799 # 200) 5 0)
  = Fields.TimeOfDay 24 0.
Proof. vm_compute. reflexivity. Qed.

(** ** Interpolation *)

(** The three ways [interpolate] reads a non-empty list. *)
Lemma interpolate_cases (f : Q) (v : list Q) (r : Q) :
  Solver.interpolate f v = Ok (Some r) ->
  (exists a, a ∈ v /\ r = a)
  \/ (exists a b x, a ∈ v /\ b ∈ v /\ 0 <= x < 1 /\ r = a * (1 - x) + b * x).
Proof.
  unfold Solver.interpolate. destruct v as [|v0 v]; [discriminate|].
  destruct (Qltb f 0) eqn:E0.
  { intros [= <-]. left. exists v0. split; [left|reflexivity]. }
  apply Qltb_ge in E0.
  destruct (Qle_bool _ f) eqn:E1.
  - unfold py_index. cbn [Z.ltb Z.compare].
    destruct (_ <? 0)%Z; [discriminate|].
    destruct ((v0 :: v) !! _) as [x|] eqn:E; [|discriminate].
    cbn. intros [= <-]. left. exists x. split; [|reflexivity].
    eapply list_elem_of_lookup_2, E.
  - pose proof (py_int_nonneg f E0) as Hi.
    rewrite !py_index_nonneg by lia.
    destruct ((v0 :: v) !! Z.to_nat (py_int f)) as [a|] eqn:Ea; [|discriminate].
    destruct ((v0 :: v) !! Z.to_nat (py_int f + 1)) as [b|] eqn:Eb;
      [|discriminate].
    cbn. intros [= <-]. right. exists a, b, (f - inject_Z (py_int f)).
    split; [eapply list_elem_of_lookup_2, Ea|].
    split; [eapply list_elem_of_lookup_2, Eb|].
    split; [|reflexivity].
    rewrite py_int_floor by assumption.
    pose proof (Qfloor_le f). pose proof (Qlt_floor f) as H2.
    rewrite inject_Z_plus in H2. inj_consts. lra.
Qed.

(** X6.  [interpolate] returns [None] for the empty list only, and for a
    non-empty list a value that lies between any two bounds of the
    list's values: it never extrapolates. *)
Theorem interpolate_within_bounds (f : Q) (v : list Q) (lo hi : Q) :
  v <> [] ->
  (forall y, y ∈ v -> lo <= y <= hi) ->
  exists r, Solver.interpolate f v = Ok (Some r) /\ lo <= r <= hi.
Proof.
  intros Hne Hb.
  destruct (interpolate_total f v) as ([r|] & Hr).
  - exists r. split; [exact Hr|].
    destruct (interpolate_cases f v r Hr) as [(a & Ha & ->)|(a & b & x & Ha & Hb' & Hx & ->)].
    + apply Hb, Ha.
    + pose proof (Hb a Ha) as H1. pose proof (Hb b Hb') as H2. nra.
  - exfalso. unfold Solver.interpolate in Hr.
    destruct v as [|v0 v]; [congruence|].
    repeat match type of Hr with
      | (if ?c then _ else _) = _ => destruct c
      | mbind _ ?r = _ => destruct r; cbn [mbind result_bind] in Hr
      end; discriminate.
Qed.

Lemma interpolate_within_bounds_witness :
  exists r, Solver.interpolate (5 # 2) [1; 3; 2; 4] = Ok (Some r)
            /\ 1 <= r <= 4.
Proof.
  apply (interpolate_within_bounds (5 # 2) [1; 3; 2; 4] 1 4).
  - discriminate.
  - intros y Hy. repeat (apply elem_of_cons in Hy as [->|Hy]);
      [split; discriminate ..|inversion Hy].
Defined.

(** X7.  At a whole position [k] of the list, [interpolate] returns the
    value held there. *)
Theorem interpolate_at_position (v : list Q) (k : nat) (a : Q) :
  v !! k = Some a ->
  exists r, Solver.interpolate (inject_Z (Z.of_nat k)) v = Ok (Some r)
            /\ r == a.
Proof.
  intros Hk. apply lookup_lt_Some in Hk as Hlen.
  unfold Solver.interpolate. destruct v as [|v0 v]; [cbn in Hlen; lia|].
  set (l := v0 :: v) in *. clearbody l.
  assert (H0 : Qltb (inject_Z (Z.of_nat k)) 0 = false).
  { apply Qltb_ge. change 0 with (inject_Z 0). rewrite <- Zle_Qle. lia. }
  rewrite H0.
  destruct (Qle_bool _ _) eqn:E1.
  - apply Qle_bool_iff in E1. rewrite <- Zle_Qle in E1.
    assert (Ek : k = (length l - 1)%nat) by lia.
    unfold py_index. cbn [Z.ltb Z.compare].
    destruct (Z.ltb_spec (Z.of_nat (length l) + -1) 0); [lia|].
    replace (Z.to_nat (Z.of_nat (length l) + -1)) with k by lia.
    rewrite Hk. cbn. eexists. split; reflexivity.
  - apply Qle_bool_gt in E1. rewrite <- Zlt_Qlt in E1.
    assert (Ei : py_int (inject_Z (Z.of_nat k)) = Z.of_nat k)
      by (apply py_int_whole; reflexivity).
    rewrite Ei, !py_index_nonneg by lia.
    rewrite Nat2Z.id, Hk.
    destruct (l !! Z.to_nat (Z.of_nat k + 1)) as [b|] eqn:Eb.
    + cbn. eexists. split; [reflexivity|]. ring.
    + apply lookup_ge_None in Eb. lia.
Qed.

Lemma interpolate_at_position_witness :
  exists r, Solver.interpolate (inject_Z (Z.of_nat 2)) [1; 3; 2; 4]
            = Ok (Some r) /\ r == 2.
Proof.
  apply (interpolate_at_position [1; 3; 2; 4] 2 2). reflexivity.
Defined.

(** ** Reworking the timelines for the charge *)

Ltac split_tests :=
  repeat match goal with
    | |- context [Qltb ?a ?b] =>
        let E := fresh "E" in
        destruct (Qltb a b) eqn:E;
        [apply Qltb_lt in E | apply Qltb_ge in E]
    | |- context [Qle_bool ?a ?b] =>
        let E := fresh "E" in
        destruct (Qle_bool a b) eqn:E;
        [apply Qle_bool_iff in E | apply Qle_bool_gt in E]
    end.

(** X8.  For a charge from [start_timed] to [end_timed], the part of the
    hour from [i] to [i + 1] that is counted as charging is the length of
    what the hour and the charge have in common. *)
Theorem charge_fraction_overlap (start_timed end_timed : Q) (i : Z) :
  start_timed <= end_timed ->
  Solver.charge_fraction start_timed end_timed i
  == Qmax 0 (Qmin end_timed (inject_Z i + 1) - Qmax start_timed (inject_Z i)).
Proof.
  intros Hse. unfold Solver.charge_fraction. cbv zeta.
  rewrite inject_Z_plus. inj_consts.
  set (a := inject_Z i).
  destruct (Q.min_spec end_timed (a + 1)) as [[H1 ->]|[H1 ->]];
    destruct (Q.max_spec start_timed a) as [[H2 ->]|[H2 ->]];
    match goal with
    | |- _ == Qmax 0 ?d =>
        destruct (Q.max_spec 0 d) as [[H3 ->]|[H3 ->]]
    end;
    split_tests; cbn [andb]; lra.
Qed.

Lemma charge_fraction_overlap_witness :
  Solver.charge_fraction (1 # 2) (9 # 4) 2
  == Qmax 0 (Qmin (9 # 4) (inject_Z 2 + 1) - Qmax (1 # 2) (inject_Z 2)).
Proof.
  apply (charge_fraction_overlap (1 # 2) (9 # 4) 2). discriminate.
Defined.

Lemma charge_fraction_range (start_timed end_timed : Q) (i : Z) :
  start_timed <= end_timed ->
  0 <= Solver.charge_fraction start_timed end_timed i <= 1.
Proof.
  intros Hse. unfold Solver.charge_fraction. cbv zeta.
  rewrite inject_Z_plus. inj_consts.
  split_tests; cbn [andb]; lra.
Qed.

(** An hour wholly within the charge counts in full. *)
Lemma charge_fraction_whole_hour (start_timed end_timed : Q) (i : Z) :
  start_timed <= inject_Z i -> inject_Z i + 1 <= end_timed ->
  Solver.charge_fraction start_timed end_timed i == 1.
Proof.
  intros H1 H2. unfold Solver.charge_fraction. cbv zeta.
  rewrite inject_Z_plus. inj_consts.
  split_tests; cbn [andb]; lra.
Qed.

Lemma py_store_in_range {A} (l : list A) (i : Z) (x : A) :
  (0 <= i < Z.of_nat (length l))%Z ->
  py_store l i x = Ok (<[Z.to_nat i := x]> l).
Proof.
  intros Hi. unfold py_store.
  destruct (Z.ltb_spec i 0); [lia|].
  destruct (Z.ltb_spec i 0); [lia|].
  destruct (Z.ltb_spec i (Z.of_nat (length l))); [reflexivity|lia].
Qed.

(** One hour of the rework, within both timelines. *)
Lemma rework_step_in_range (S : Solver.scenario) (st en : Q)
    (ct dt : list Q) (i : nat) (c d : Q) :
  ct !! i = Some c -> dt !! i = Some d ->
  let t := Solver.charge_fraction st en (Z.of_nat i) in
  Solver.rework_step S st en (ct, dt) (Z.of_nat i)
  = Ok (<[i := if Qltb (c + Solver.charge_limit S * t) (Solver.charge_limit S)
               then c + Solver.charge_limit S * t
               else Solver.charge_limit S]> ct,
        <[i := d * (1 - t)]> dt).
Proof.
  intros Hc Hd t. unfold Solver.rework_step. cbn [fst snd].
  apply lookup_lt_Some in Hc as Hlc. apply lookup_lt_Some in Hd as Hld.
  rewrite !py_index_nonneg by lia. rewrite Nat2Z.id, Hc, Hd.
  cbn [mbind result_bind].
  rewrite py_store_in_range by lia. cbn [mbind result_bind].
  rewrite py_store_in_range by lia. cbn [mbind result_bind].
  now rewrite Nat2Z.id.
Qed.

(** The rework loop over hours that are all different and within both
    timelines: it changes those hours only, each of them once. *)
Lemma rework_loop (S : Solver.scenario) (st en : Q) (hours : list nat) :
  NoDup hours ->
  forall ct dt,
  (forall i, i ∈ hours -> (i < length ct)%nat /\ (i < length dt)%nat) ->
  exists ct' dt',
    for_each (Solver.rework_step S st en) (map Z.of_nat hours) (ct, dt)
    = Ok (ct', dt')
    /\ length ct' = length ct /\ length dt' = length dt
    /\ forall j,
         (j ∉ hours -> ct' !! j = ct !! j /\ dt' !! j = dt !! j)
         /\ (j ∈ hours ->
             exists c d,
               ct !! j = Some c /\ dt !! j = Some d
               /\ let t := Solver.charge_fraction st en (Z.of_nat j) in
                  ct' !! j
                  = Some (if Qltb (c + Solver.charge_limit S * t)
                                  (Solver.charge_limit S)
                          then c + Solver.charge_limit S * t
                          else Solver.charge_limit S)
                  /\ dt' !! j = Some (d * (1 - t))).
Proof.
  induction 1 as [|i hours Hi Hnd IH]; intros ct dt Hin.
  - exists ct, dt. cbn. repeat split; try reflexivity.
    intros Hj. inversion Hj.
  - destruct (Hin i) as (Hlc & Hld); [left|].
    destruct (lookup_lt_is_Some_2 ct i Hlc) as (c & Hc).
    destruct (lookup_lt_is_Some_2 dt i Hld) as (d & Hd).
    cbn [map for_each].
    rewrite (rework_step_in_range S st en ct dt i c d Hc Hd).
    cbn [mbind result_bind].
    match goal with
    | |- context [for_each _ _ (?a, ?b)] => set (ct1 := a); set (dt1 := b)
    end.
    destruct (IH ct1 dt1) as (ct' & dt' & Hrun & Hl1 & Hl2 & Hall).
    { intros j Hj. unfold ct1, dt1. rewrite !length_insert.
      apply Hin. now right. }
    exists ct', dt'. split; [exact Hrun|].
    unfold ct1, dt1 in Hl1, Hl2. rewrite length_insert in Hl1, Hl2.
    split; [exact Hl1|]. split; [exact Hl2|].
    intros j. destruct (Hall j) as (Hout & Hins). split.
    + intros Hj. apply not_elem_of_cons in Hj as [Hne Hj].
      destruct (Hout Hj) as (-> & ->). unfold ct1, dt1.
      rewrite !list_lookup_insert_ne by congruence. split; reflexivity.
    + intros Hj. apply elem_of_cons in Hj as [->|Hj].
      * exists c, d. split; [exact Hc|]. split; [exact Hd|].
        destruct (Hout Hi) as (-> & ->). unfold ct1, dt1. cbv zeta.
        rewrite !list_lookup_insert_eq by assumption. split; reflexivity.
      * assert (Hne : i <> j) by (intros ->; contradiction).
        destruct (Hins Hj) as (c' & d' & Hc' & Hd' & Hres).
        unfold ct1, dt1 in Hc', Hd'.
        rewrite list_lookup_insert_ne in Hc', Hd' by assumption.
        exists c', d'. split; [exact Hc'|]. split; [exact Hd'|]. exact Hres.
Qed.

Lemma py_range_nat (a b : nat) :
  py_range (Z.of_nat a) (Z.of_nat b) = map Z.of_nat (seq a (b - a)).
Proof.
  unfold py_range. replace (Z.to_nat (Z.of_nat b - Z.of_nat a)) with (b - a)%nat by lia.
  replace (seq a (b - a)) with (seq (a + 0) (b - a)) by (f_equal; lia).
  rewrite <- fmap_add_seq, <- list_fmap_compose.
  apply map_ext. intros k. cbn. lia.
Qed.

(** X9.  "rework charge and discharge" over the hours from [a] to [b],
    all within the two timelines, for a charge from [start_timed] to
    [end_timed]: the loop does not raise and keeps the lengths; hours
    outside the range are left as they were; within the range, the charge
    of an hour never exceeds [charge_limit], an hour wholly within the
    charge is set to charge at [charge_limit] with nothing discharged, and
    the discharge of any hour is scaled down, never up. *)
Theorem rework_charge_window (S : Solver.scenario)
    (start_timed end_timed : Q) (a b : nat) (ct dt : list Q) :
  start_timed <= end_timed ->
  0 <= Solver.charge_limit S ->
  (b <= length ct)%nat -> (b <= length dt)%nat ->
  exists ct' dt',
    for_each (Solver.rework_step S start_timed end_timed)
             (py_range (Z.of_nat a) (Z.of_nat b)) (ct, dt) = Ok (ct', dt')
    /\ length ct' = length ct /\ length dt' = length dt
    /\ forall j c d, ct !! j = Some c -> dt !! j = Some d ->
       exists c' d',
         ct' !! j = Some c' /\ dt' !! j = Some d'
         /\ ((j < a)%nat \/ (b <= j)%nat -> c' = c /\ d' = d)
         /\ ((a <= j < b)%nat ->
             c' <= Solver.charge_limit S
             /\ (c <= Solver.charge_limit S -> c <= c')
             /\ (0 <= d -> 0 <= d' <= d)
             /\ (start_timed <= inject_Z (Z.of_nat j)
                 /\ inject_Z (Z.of_nat j) + 1 <= end_timed ->
                 0 <= c -> c' == Solver.charge_limit S /\ d' == 0)).
Proof.
  intros Hse HL Hb1 Hb2. rewrite py_range_nat.
  destruct (rework_loop S start_timed end_timed (seq a (b - a))
              (NoDup_seq a (b - a)) ct dt)
    as (ct' & dt' & Hrun & Hl1 & Hl2 & Hall).
  { intros i Hi. apply elem_of_seq in Hi. lia. }
  exists ct', dt'. split; [exact Hrun|]. split; [exact Hl1|].
  split; [exact Hl2|].
  intros j c d Hc Hd. destruct (Hall j) as (Hout & Hins).
  destruct (decide (a <= j < b)%nat) as [Hj|Hj].
  - destruct Hins as (c0 & d0 & Hc0 & Hd0 & Hc' & Hd');
      [apply elem_of_seq; lia|].
    rewrite Hc in Hc0. injection Hc0 as <-.
    rewrite Hd in Hd0. injection Hd0 as <-.
    cbv zeta in Hc', Hd'.
    pose proof (charge_fraction_range start_timed end_timed (Z.of_nat j) Hse)
      as Ht.
    set (t := Solver.charge_fraction start_timed end_timed (Z.of_nat j)) in *.
    eexists _, _. split; [exact Hc'|]. split; [exact Hd'|].
    split; [intros; lia|]. intros _.
    set (L := Solver.charge_limit S) in *.
    split; [|split; [|split]].
    + destruct (Qltb (c + L * t) L) eqn:E;
        [apply Qltb_lt in E | apply Qltb_ge in E]; lra.
    + intros HcL. destruct (Qltb (c + L * t) L) eqn:E;
        [apply Qltb_lt in E | apply Qltb_ge in E]; nra.
    + intros Hd0. nra.
    + intros [H1 H2] Hc0.
      assert (Et : t == 1) by (apply charge_fraction_whole_hour; assumption).
      split.
      * destruct (Qltb (c + L * t) L) eqn:E;
          [apply Qltb_lt in E | apply Qltb_ge in E]; [|reflexivity].
        rewrite Et in E. lra.
      * rewrite Et. ring.
  - destruct Hout as (Hc' & Hd'); [rewrite elem_of_seq; lia|].
    exists c, d. rewrite Hc', Hd'. split; [exact Hc|]. split; [exact Hd|].
    split; [intros _; split; reflexivity|]. intros; lia.
Qed.

Lemma rework_charge_window_witness :
  exists ct' dt',
    for_each (Solver.rework_step Examples.cosy_at_reserve 1 (5 # 2))
             (py_range (Z.of_nat 1) (Z.of_nat 4))
             ([0; 1; 0; 2; 0], [1; 1; 1; 1; 1]) = Ok (ct', dt')
    /\ length ct' = 5%nat /\ length dt' = 5%nat.
Proof.
  destruct (rework_charge_window Examples.cosy_at_reserve 1 (5 # 2) 1 4
              [0; 1; 0; 2; 0] [1; 1; 1; 1; 1])
    as (ct' & dt' & H1 & H2 & H3 & _).
  - discriminate.
  - discriminate.
  - cbn. lia.
  - cbn. lia.
  - exists ct', dt'. split; [exact H1|]. split; [exact H2|exact H3].
Defined.

(** ** The lowest residual of the baseline *)

Lemma settle_baseline_lowest (S : Solver.scenario) (k0 : Q) (base i : Z)
    (d : Q) (s : Solver.sim) :
  lowest_so_far k0 base s ->
  lowest_so_far k0 base (Solver.advance d (Solver.settle_baseline S i s)).
Proof.
  intros (Hh & Hmin & Hfirst). unfold Solver.settle_baseline.
  match goal with
  | |- context [let '(kc, rd) := ?p in _] => destruct p as [kc0 rd]
  end.
  set (kc := if Qltb (Solver.capacity S) kc0 then Solver.capacity S else kc0).
  destruct (Qltb kc (Solver.kwh_min s)) eqn:E;
    [apply Qltb_lt in E | apply Qltb_ge in E];
    unfold lowest_so_far, Solver.advance;
    cbn [Solver.h Solver.bat_timed Solver.kwh_min Solver.min_hour];
    rewrite length_app; cbn [length].
  - split; [lia|]. split.
    + intros v Hv. apply elem_of_app in Hv as [Hv|Hv].
      * specialize (Hmin v Hv). lra.
      * apply list_elem_of_singleton in Hv as ->. lra.
    + right. split.
      * destruct Hfirst as [(Heq & _)|(Hlt & _)]; [rewrite <- Heq|]; lra.
      * exists (length (Solver.bat_timed s)). split; [exact Hh|]. split.
        -- now rewrite lookup_app_r, Nat.sub_diag by lia.
        -- intros j v Hj Hv. rewrite lookup_app_l in Hv by lia.
           apply list_elem_of_lookup_2 in Hv. specialize (Hmin v Hv). lra.
  - split; [lia|]. split.
    + intros v Hv. apply elem_of_app in Hv as [Hv|Hv].
      * apply Hmin, Hv.
      * apply list_elem_of_singleton in Hv as ->. exact E.
    + destruct Hfirst as [Hfirst|(Hlt & n & Hn & Hat & Hbefore)];
        [left; exact Hfirst|].
      right. split; [exact Hlt|]. exists n. split; [exact Hn|].
      apply lookup_lt_Some in Hat as Hlen. split.
      * now rewrite lookup_app_l by lia.
      * intros j v Hj Hv. rewrite lookup_app_l in Hv by lia.
        eapply Hbefore; eassumption.
Qed.

Lemma run_hours_lowest (S : Solver.scenario) (k0 : Q) (base : Z)
    (kwh_timed : list Q) (hours : list Z) (s : Solver.sim) :
  lowest_so_far k0 base s ->
  (Solver.run_hours (Solver.settle_baseline S) kwh_timed hours s).2 = true ->
  lowest_so_far k0 base
    (Solver.run_hours (Solver.settle_baseline S) kwh_timed hours s).1.
Proof.
  revert s. induction hours as [|i hours IH]; intros s Hs Hdone.
  - exact Hs.
  - cbn [Solver.run_hours] in *.
    destruct (py_index kwh_timed i) as [d| | | | |]; try discriminate.
    apply IH; [|exact Hdone]. now apply settle_baseline_lowest.
Qed.

(** X10.  When the baseline loop completes, the residual timeline has one
    value for each hour of the run time, [kwh_min] is the least of the
    starting residual and the values of the timeline, and [min_hour] is
    the hour of the first value that is as low, or [base_hour] when no
    value is below the starting residual. *)
Theorem baseline_lowest_residual (S : Solver.scenario)
    (tl : list Q * list Q) (b : Solver.sim) :
  Solver.baseline S tl = Ok b ->
  exists k0,
    Solver.kwh_start S (Solver.kwh_timed_of S tl) = Ok k0
    /\ length (Solver.bat_timed b)
       = Z.to_nat (Timeline.run_time (Solver.sched S))
    /\ Solver.kwh_min b <= k0
    /\ (forall v, v ∈ Solver.bat_timed b -> Solver.kwh_min b <= v)
    /\ ((Solver.kwh_min b = k0 /\ Solver.min_hour b = Solver.base_hour S)
        \/ exists n : nat,
             Solver.min_hour b = (Solver.base_hour S + Z.of_nat n)%Z
             /\ Solver.bat_timed b !! n = Some (Solver.kwh_min b)
             /\ forall j v, (j < n)%nat -> Solver.bat_timed b !! j = Some v ->
                            Solver.kwh_min b < v).
Proof.
  unfold Solver.baseline.
  destruct (Solver.kwh_start S _) as [k0| | | | |];
    cbn [mbind result_bind]; try discriminate.
  unfold Solver.completed.
  destruct (Solver.run_hours _ _ _ _) as [s flag] eqn:Erun. cbn [fst snd].
  destruct flag; [|discriminate]. intros [= ->].
  exists k0. split; [reflexivity|].
  pose proof (run_hours_lowest S k0 (Solver.base_hour S)
                (Solver.kwh_timed_of S tl)
                (py_range 0 (Timeline.run_time (Solver.sched S)))
                (Solver.sim_init S k0)) as Hlow.
  rewrite Erun in Hlow. cbn [fst snd] in Hlow.
  destruct Hlow as (Hh & Hmin & Hfirst); [|reflexivity|].
  { unfold lowest_so_far, Solver.sim_init.
    cbn [Solver.h Solver.bat_timed Solver.kwh_min Solver.min_hour length].
    split; [lia|]. split; [intros v Hv; inversion Hv|]. left. split; reflexivity. }
  destruct (run_hours_trace (Solver.settle_baseline S) (fun _ _ => True)
              (Solver.kwh_timed_of S tl)) with
    (hours := py_range 0 (Timeline.run_time (Solver.sched S)))
    (s := Solver.sim_init S k0) as (tr & Htr & _ & Hlen).
  { intros i s. unfold Solver.settle_baseline.
    match goal with
    | |- context [let '(kc, rd) := ?p in _] => destruct p as [kc0 rd]
    end.
    match goal with
    | |- context [if ?c then Solver.Sim _ _ _ _ _ _ else _] => destruct c
    end; cbn [Solver.bat_timed]; eexists; split; reflexivity || exact I. }
  rewrite Erun in Htr, Hlen. cbn [fst snd Solver.sim_init Solver.bat_timed] in Htr, Hlen.
  cbn [app] in Htr.
  split.
  { rewrite Htr, (Hlen eq_refl), py_range_length. f_equal. lia. }
  split.
  { destruct Hfirst as [(Heq & _)|(Hlt & _)]; [rewrite Heq|]; lra. }
  split; [exact Hmin|].
  destruct Hfirst as [Hfirst|(_ & Hn)]; [left; exact Hfirst|right; exact Hn].
Qed.

Lemma baseline_lowest_residual_witness :
  exists k0,
    Solver.kwh_start Examples.cosy_above_reserve
      (Solver.kwh_timed_of Examples.cosy_above_reserve
                           Examples.cosy_above_timelines) = Ok k0
    /\ length (Solver.bat_timed Examples.cosy_above_baseline)
       = Z.to_nat (Timeline.run_time (Solver.sched Examples.cosy_above_reserve))
    /\ Solver.kwh_min Examples.cosy_above_baseline <= k0.
Proof.
  destruct (baseline_lowest_residual Examples.cosy_above_reserve
              Examples.cosy_above_timelines Examples.cosy_above_baseline)
    as (k0 & H1 & H2 & H3 & _).
  - vm_compute. reflexivity.
  - exists k0. split; [exact H1|]. split; [exact H2|exact H3].
Defined.

(** ** The horizon and the timelines *)

Lemma py_int_below (x : Q) :
  0 <= x -> inject_Z (py_int x) <= x < inject_Z (py_int x) + 1.
Proof.
  intros Hx. rewrite py_int_floor by assumption.
  pose proof (Qfloor_le x). pose proof (Qlt_floor x) as H2.
  rewrite inject_Z_plus in H2. inj_consts. lra.
Qed.

Lemma py_int_bounds (x : Q) (a b : Z) :
  inject_Z a <= x -> x < inject_Z b + 1 -> 0 <= x -> (a <= py_int x <= b)%Z.
Proof.
  intros Ha Hb Hx. destruct (py_int_below x Hx) as [H1 H2].
  assert (H3 : inject_Z a < inject_Z (py_int x + 1))
    by (rewrite inject_Z_plus; inj_consts; lra).
  assert (H4 : inject_Z (py_int x) < inject_Z (b + 1))
    by (rewrite inject_Z_plus; inj_consts; lra).
  rewrite <- Zlt_Qlt in H3, H4. lia.
Qed.

(** X11.  The next charge starts within 24 hours and before the end of
    the run time, which (clock changes apart) is between 1 and 49 hours;
    it is 49 hours when there is one charge period a day and its next
    start is more than 23.01 hours away. *)
Theorem next_charge_run_time (t : option Timeline.tariff)
    (base_hour hour_adjustment change_hour force_charge : Z) :
  let sc := Timeline.next_charge t base_hour hour_adjustment change_hour
                                 force_charge in
  let hours := (Timeline.run_time sc - hour_adjustment)%Z in
  0 <= Timeline.time_to_start sc <= 24
  /\ Timeline.time_to_start sc < inject_Z hours
  /\ (1 <= hours <= 49)%Z
  /\ (Timeline.time_to_pm sc = None ->
      (25 <= hours)%Z
      /\ (2301 # 100 <= Timeline.time_to_am sc -> hours = 49%Z)).
Proof.
  cbv zeta. unfold Timeline.next_charge.
  cbn [Timeline.time_to_start Timeline.run_time Timeline.time_to_pm
       Timeline.time_to_am].
  set (start_am := match t with Some t => _ | None => 2 end).
  set (start_pm := match t with Some t => _ | None => 0 end).
  pose proof (round_time_range (start_am - inject_Z base_hour)) as Ham.
  pose proof (round_time_range (start_pm - inject_Z base_hour)) as Hpm.
  set (am := round_time (start_am - inject_Z base_hour)) in *.
  set (pm := round_time (start_pm - inject_Z base_hour)) in *.
  destruct (Qltb 0 start_pm).
  - destruct (Qltb pm am) eqn:E; [apply Qltb_lt in E | apply Qltb_ge in E];
      cbn [default]; unfold id.
    + pose proof (py_int_below (am + (99 # 100)) ltac:(lra)) as Hi.
      pose proof (py_int_bounds (am + (99 # 100)) 0 24) as Hb.
      change (inject_Z 0) with 0 in Hb. change (inject_Z 24) with 24 in Hb.
      specialize (Hb ltac:(lra) ltac:(lra) ltac:(lra)).
      set (n := py_int (am + (99 # 100))) in *.
      replace (n + 1 + hour_adjustment - hour_adjustment)%Z with (n + 1)%Z by lia.
      rewrite inject_Z_plus. inj_consts.
      split; [lra|]. split; [lra|]. split; [lia|]. discriminate.
    + pose proof (py_int_below (pm + (99 # 100)) ltac:(lra)) as Hi.
      pose proof (py_int_bounds (pm + (99 # 100)) 0 24) as Hb.
      change (inject_Z 0) with 0 in Hb. change (inject_Z 24) with 24 in Hb.
      specialize (Hb ltac:(lra) ltac:(lra) ltac:(lra)).
      set (n := py_int (pm + (99 # 100))) in *.
      replace (n + 1 + hour_adjustment - hour_adjustment)%Z with (n + 1)%Z by lia.
      rewrite inject_Z_plus. inj_consts.
      split; [lra|]. split; [lra|]. split; [lia|]. discriminate.
  - cbn [default].
    pose proof (py_int_below (am + 24 + (99 # 100)) ltac:(lra)) as Hi.
    pose proof (py_int_bounds (am + 24 + (99 # 100)) 24 48) as Hb.
    change (inject_Z 48) with 48 in Hb. change (inject_Z 24) with 24 in Hb.
    specialize (Hb ltac:(lra) ltac:(lra) ltac:(lra)).
    set (n := py_int (am + 24 + (99 # 100))) in *.
    replace (n + 1 + hour_adjustment - hour_adjustment)%Z with (n + 1)%Z by lia.
    rewrite inject_Z_plus. inj_consts.
    split; [lra|]. split; [lra|]. split; [lia|].
    intros _. split; [lia|].
    intros H23.
    assert (H : inject_Z 48 < inject_Z (n + 1)).
    { rewrite inject_Z_plus. inj_consts. change (inject_Z 48) with 48. lra. }
    rewrite <- Zlt_Qlt in H. lia.
Qed.

Lemma next_charge_run_time_witness :
  (Timeline.run_time
     (Timeline.next_charge (Some Timeline.octopus_go) 1 0 0 1) - 0)%Z = 49%Z.
Proof.
  pose proof (next_charge_run_time (Some Timeline.octopus_go) 1 0 0 1) as H.
  cbv zeta in H. destruct H as (_ & _ & _ & H).
  destruct (H eq_refl) as (_ & H49). apply H49. vm_compute. discriminate.
Defined.

Lemma mapM_ok {A B} (f : A -> result B) (g : A -> B) (l : list A) :
  (forall x, x ∈ l -> f x = Ok (g x)) -> mapM f l = Ok (map g l).
Proof.
  induction l as [|x l IH]; intros Hf; [reflexivity|].
  cbn [mapM map]. rewrite (Hf x) by left. cbn [mbind result_bind].
  rewrite IH by (intros y Hy; apply Hf; now right). reflexivity.
Qed.

Lemma py_div_ok (a b : Q) : ~ b == 0 -> py_div a b = Ok (a / b).
Proof.
  intros Hb. unfold py_div. destruct (Qeq_bool b 0) eqn:E; [|reflexivity].
  apply Qeq_bool_iff in E. contradiction.
Qed.

(** The timelines before the adjustment, when neither division is by
    zero. *)
Lemma initial_timelines_ok (S : Solver.scenario) :
  ~ py_sum (Solver.consumption_by_hour S) == 0 ->
  ~ Solver.discharge_loss S == 0 ->
  exists ct dt,
    Solver.initial_timelines S = Ok (ct, dt)
    /\ length ct = length (Solver.generation_timed S)
    /\ length dt
       = length (Timeline.timed_list (Solver.consumption_by_hour S)
                   (Solver.hour_now S)
                   (Some (Timeline.run_time (Solver.sched S)))).
Proof.
  intros Hsum Hloss. unfold Solver.initial_timelines, Solver.consumption_timed.
  rewrite (mapM_ok _ (fun x => Solver.consumption S * x
                               / py_sum (Solver.consumption_by_hour S)))
    by (intros x _; now apply py_div_ok).
  cbn [mbind result_bind].
  rewrite (mapM_ok _ (fun x => x / Solver.discharge_loss S
                               + Solver.bms_power S / 1000)).
  2:{ intros x _. rewrite py_div_ok by assumption. reflexivity. }
  cbn [mbind result_bind]. eexists _, _. split; [reflexivity|].
  rewrite !length_map. split; [reflexivity|].
  unfold Timeline.timed_list, py_from, py_upto.
  rewrite !length_take, !length_app, !length_drop, !length_take, !length_map.
  reflexivity.
Qed.

Lemma adjust_step_in_range (S : Solver.scenario) (ct dt : list Q) (i : nat) :
  (i < length ct)%nat -> (i < length dt)%nat ->
  exists ct' dt',
    Solver.adjust_step S (ct, dt) (Z.of_nat i) = Ok (ct', dt')
    /\ length ct' = length ct /\ length dt' = length dt.
Proof.
  intros Hc Hd. unfold Solver.adjust_step. cbn [fst snd].
  destruct (lookup_lt_is_Some_2 ct i Hc) as (c & Ec).
  destruct (lookup_lt_is_Some_2 dt i Hd) as (d & Ed).
  rewrite !py_index_nonneg by lia. rewrite Nat2Z.id, Ec, Ed.
  cbn [mbind result_bind].
  repeat (rewrite py_store_in_range by (rewrite ?length_insert; lia);
          cbn [mbind result_bind]).
  repeat match goal with
    | |- context [if ?b then Ok _ else Ok _] => destruct b
    | |- context [if ?b then Ok _ else if _ then _ else _] => destruct b
    end;
    eexists _, _; (split; [reflexivity|]);
    rewrite ?length_insert; split; reflexivity.
Qed.

Lemma adjust_step_off_end (S : Solver.scenario) (ct dt : list Q) (i : nat) :
  (length ct <= i)%nat \/ (length dt <= i)%nat ->
  Solver.adjust_step S (ct, dt) (Z.of_nat i) = IndexError.
Proof.
  intros Hi. unfold Solver.adjust_step. cbn [fst snd].
  rewrite !py_index_nonneg by lia. rewrite Nat2Z.id.
  destruct (ct !! i) as [c|] eqn:Ec; [|reflexivity].
  apply lookup_lt_Some in Ec as Hc. cbn [mbind result_bind].
  rewrite py_store_in_range by lia. cbn [mbind result_bind].
  destruct (dt !! i) as [d|] eqn:Ed; [|reflexivity].
  apply lookup_lt_Some in Ed. lia.
Qed.

(** The adjustment loop over the hours from [a]: it completes, keeping
    the lengths, when both timelines reach the last hour, and raises
    [IndexError] otherwise. *)
Lemma adjust_loop (S : Solver.scenario) (k a : nat) (ct dt : list Q) :
  (a <= length ct)%nat -> (a <= length dt)%nat ->
  let r := for_each (Solver.adjust_step S) (map Z.of_nat (seq a k)) (ct, dt) in
  if decide (a + k <= length ct /\ a + k <= length dt)%nat
  then exists ct' dt', r = Ok (ct', dt')
                       /\ length ct' = length ct /\ length dt' = length dt
  else r = IndexError.
Proof.
  revert a ct dt. induction k as [|k IH]; intros a ct dt Hc Hd; cbv zeta.
  - destruct (decide _) as [_|Hn]; [|lia]. exists ct, dt. repeat split.
  - cbn [seq map for_each].
    destruct (decide (a < length ct /\ a < length dt)%nat) as [[H1 H2]|Hn].
    + destruct (adjust_step_in_range S ct dt a H1 H2)
        as (ct1 & dt1 & -> & Hl1 & Hl2).
      cbn [mbind result_bind].
      specialize (IH (Datatypes.S a) ct1 dt1 ltac:(lia) ltac:(lia)).
      cbv zeta in IH. rewrite Hl1, Hl2 in IH.
      destruct (decide (Datatypes.S a + k <= length ct
                        /\ Datatypes.S a + k <= length dt)%nat) as [Hy|Hy];
        destruct (decide (a + Datatypes.S k <= length ct
                          /\ a + Datatypes.S k <= length dt)%nat) as [Hy'|Hy'];
        try lia; exact IH.
    + rewrite adjust_step_off_end by lia.
      destruct (decide _) as [Hy|_]; [lia|reflexivity].
Qed.

Lemma py_range_from_0 (n : Z) : py_range 0 n = map Z.of_nat (seq 0 (Z.to_nat n)).
Proof.
  unfold py_range. rewrite Z.sub_0_r. apply map_ext. intros k. lia.
Qed.

(** X12.  With a consumption profile of 24 hours, the timelines are
    produced when the run time is at most 48 hours and the generation
    forecast reaches its end: charge and discharge then cover the run
    time. *)
Theorem timelines_cover_run_time (S : Solver.scenario) :
  length (Solver.consumption_by_hour S) = 24%nat ->
  0 <= Solver.hour_now S < 24 ->
  ~ py_sum (Solver.consumption_by_hour S) == 0 ->
  ~ Solver.discharge_loss S == 0 ->
  (0 <= Timeline.run_time (Solver.sched S) <= 48)%Z ->
  (Timeline.run_time (Solver.sched S)
   <= Z.of_nat (length (Solver.generation_timed S)))%Z ->
  exists ct dt,
    Solver.timelines S = Ok (ct, dt)
    /\ length ct = length (Solver.generation_timed S)
    /\ Z.of_nat (length dt) = Timeline.run_time (Solver.sched S).
Proof.
  intros Hlen Hh Hsum Hloss Hrun Hgen.
  destruct (initial_timelines_ok S Hsum Hloss) as (ct & dt & Hinit & Hl1 & Hl2).
  rewrite (timed_list_length _ _ _ Hlen Hh) in Hl2 by lia.
  unfold Solver.timelines. rewrite Hinit. cbn [mbind result_bind].
  rewrite py_range_from_0.
  pose proof (adjust_loop S (Z.to_nat (Timeline.run_time (Solver.sched S)))
                0 ct dt ltac:(lia) ltac:(lia)) as Hloop.
  cbv zeta in Hloop. destruct (decide _) as [_|Hn]; [|lia].
  destruct Hloop as (ct' & dt' & -> & Hl1' & Hl2').
  exists ct', dt'. split; [reflexivity|]. split; lia.
Qed.

Lemma timelines_cover_run_time_witness :
  exists ct dt,
    Solver.timelines Examples.cosy_above_reserve = Ok (ct, dt)
    /\ length ct = length (Solver.generation_timed Examples.cosy_above_reserve)
    /\ Z.of_nat (length dt)
       = Timeline.run_time (Solver.sched Examples.cosy_above_reserve).
Proof.
  apply (timelines_cover_run_time Examples.cosy_above_reserve).
  - reflexivity.
  - split; [discriminate|reflexivity].
  - vm_compute. discriminate.
  - vm_compute. discriminate.
  - vm_compute. split; discriminate.
  - vm_compute. discriminate.
Defined.

(** X13.  With a consumption profile of 24 hours, [charge_needed] raises
    [IndexError] in its adjustment loop whenever the run time is more
    than 48 hours, or more than the hours of the generation forecast. *)
Theorem timelines_run_off_the_end (S : Solver.scenario) (c : Q) :
  length (Solver.consumption_by_hour S) = 24%nat ->
  0 <= Solver.hour_now S < 24 ->
  ~ py_sum (Solver.consumption_by_hour S) == 0 ->
  ~ Solver.discharge_loss S == 0 ->
  (48 < Timeline.run_time (Solver.sched S))%Z
  \/ (Z.of_nat (length (Solver.generation_timed S))
      < Timeline.run_time (Solver.sched S))%Z ->
  Solver.timelines S = IndexError /\ Solver.charge_needed S c = IndexError.
Proof.
  intros Hlen Hh Hsum Hloss Hrun.
  destruct (initial_timelines_ok S Hsum Hloss) as (ct & dt & Hinit & Hl1 & Hl2).
  rewrite (timed_list_length _ _ _ Hlen Hh) in Hl2 by lia.
  assert (Ht : Solver.timelines S = IndexError).
  { unfold Solver.timelines. rewrite Hinit. cbn [mbind result_bind].
    rewrite py_range_from_0.
    pose proof (adjust_loop S (Z.to_nat (Timeline.run_time (Solver.sched S)))
                  0 ct dt ltac:(lia) ltac:(lia)) as Hloop.
    cbv zeta in Hloop. destruct (decide _) as [Hy|_]; [lia|exact Hloop]. }
  split; [exact Ht|]. unfold Solver.charge_needed. now rewrite Ht.
Qed.

Lemma timelines_run_off_the_end_witness :
  Solver.timelines Examples.go_after_1am = IndexError
  /\ Solver.charge_needed Examples.go_after_1am 20 = IndexError.
Proof.
  apply (timelines_run_off_the_end Examples.go_after_1am 20).
  - reflexivity.
  - split; [discriminate|reflexivity].
  - vm_compute. discriminate.
  - vm_compute. discriminate.
  - left. vm_compute. reflexivity.
Defined.

(** ** Sums over a day *)

Lemma fold_left_Qplus (l : list Q) (acc : Q) :
  fold_left Qplus l acc == acc + py_sum l.
Proof.
  unfold py_sum. revert acc. induction l as [|x l IH]; intros acc.
  - cbn. ring.
  - cbn [fold_left]. rewrite IH, (IH (0 + x)). ring.
Qed.

Lemma py_sum_cons (x : Q) (l : list Q) : py_sum (x :: l) == x + py_sum l.
Proof. unfold py_sum at 1. cbn [fold_left]. rewrite fold_left_Qplus. ring. Qed.

Lemma py_sum_app (l1 l2 : list Q) :
  py_sum (l1 ++ l2) == py_sum l1 + py_sum l2.
Proof.
  induction l1 as [|x l1 IH].
  - cbn [app]. unfold py_sum at 2. cbn. ring.
  - cbn [app]. rewrite !py_sum_cons, IH. ring.
Qed.

Lemma py_sum_scaled (c d : Q) (l : list Q) :
  ~ d == 0 -> py_sum (map (fun x => c * x / d) l) == c * py_sum l / d.
Proof.
  intros Hd. induction l as [|x l IH].
  - cbn [map]. unfold py_sum. cbn. field. exact Hd.
  - cbn [map]. rewrite !py_sum_cons, IH. field. exact Hd.
Qed.

(** Rotating a list does not change its sum. *)
Lemma py_sum_rotate (l : list Q) (n : nat) :
  py_sum (drop n l ++ take n l) == py_sum l.
Proof.
  rewrite py_sum_app. rewrite <- (take_drop n l) at 3.
  rewrite py_sum_app. ring.
Qed.

(** X14.  Each day of the consumption timeline adds up to the daily
    consumption: when the run time covers the hourly profile, the first
    values of [consumption_timed], as many as the profile has, sum to
    [consumption]. *)
Theorem consumption_timed_daily_total (S : Solver.scenario) :
  ~ py_sum (Solver.consumption_by_hour S) == 0 ->
  (Z.of_nat (length (Solver.consumption_by_hour S))
   <= Timeline.run_time (Solver.sched S))%Z ->
  exists l,
    Solver.consumption_timed S = Ok l
    /\ py_sum (take (length (Solver.consumption_by_hour S)) l)
       == Solver.consumption S.
Proof.
  intros Hsum Hrun. unfold Solver.consumption_timed.
  rewrite (mapM_ok _ (fun x => Solver.consumption S * x
                               / py_sum (Solver.consumption_by_hour S)))
    by (intros x _; now apply py_div_ok).
  cbn [mbind result_bind]. eexists. split; [reflexivity|].
  set (l := map _ (Solver.consumption_by_hour S)).
  assert (Hl : length l = length (Solver.consumption_by_hour S))
    by apply length_map.
  rewrite <- Hl. unfold Timeline.timed_list, py_from, py_upto.
  set (n := py_clip (length l) (py_int (Solver.hour_now S))).
  set (rot := drop n l ++ take n l).
  assert (Hrot : length rot = length l).
  { unfold rot. rewrite length_app, length_drop, length_take.
    unfold n, py_clip. destruct (_ <? 0)%Z; lia. }
  assert (Hclip : (length l <= py_clip (length (rot ++ rot))
                                       (Timeline.run_time (Solver.sched S)))%nat).
  { unfold py_clip. rewrite length_app, Hrot.
    destruct (Z.ltb_spec (Timeline.run_time (Solver.sched S)) 0); lia. }
  rewrite take_take, Nat.min_l by exact Hclip.
  rewrite take_app_le, take_ge by lia.
  unfold rot. rewrite py_sum_rotate. unfold l.
  rewrite py_sum_scaled by exact Hsum. field. exact Hsum.
Qed.

Lemma consumption_timed_daily_total_witness :
  exists l,
    Solver.consumption_timed Examples.flux_low = Ok l
    /\ py_sum (take (length (Solver.consumption_by_hour Examples.flux_low)) l)
       == Solver.consumption Examples.flux_low.
Proof.
  apply (consumption_timed_daily_total Examples.flux_low).
  - vm_compute. discriminate.
  - vm_compute. discriminate.
Defined.

(** ** The battery model *)

(** Derating leaves [force_charge] alone or sets it to 2. *)
Lemma derate_force_charge (cfg : Battery.derate_config)
    (temperature charge_current : Q) (force_charge : Z) (c : Q) (f : Z) :
  Battery.derate cfg temperature charge_current force_charge = Ok (c, f) ->
  f = force_charge \/ f = 2%Z.
Proof.
  unfold Battery.derate.
  repeat match goal with
    | |- (if ?b then _ else _) = _ -> _ => destruct b
    | |- match ?o with Some _ => _ | None => _ end = _ -> _ => destruct o
    | |- mbind _ ?r = _ -> _ =>
        destruct r; cbn [mbind result_bind]; try discriminate
    end; intros [= <- <-]; auto.
Qed.

(** X15.  Derating by temperature never raises the charge current, and a
    lower current is always a value of the derating table; [force_charge]
    is left alone or set to 2, and above 36 degrees nothing is changed. *)
Theorem derate_only_lowers (cfg : Battery.derate_config)
    (temperature charge_current : Q) (force_charge : Z) (c : Q) (f : Z) :
  Battery.derate cfg temperature charge_current force_charge = Ok (c, f) ->
  c <= charge_current
  /\ (c = charge_current
      \/ exists table, Battery.derating cfg = Some table /\ c ∈ table)
  /\ (f = force_charge \/ (f = 2%Z /\ c = charge_current))
  /\ (36 < temperature -> c = charge_current /\ f = force_charge).
Proof.
  unfold Battery.derate.
  destruct (Qltb 36 temperature) eqn:E36.
  { intros [= <- <-]. split; [lra|]. repeat split; auto. }
  apply Qltb_ge in E36.
  assert (H36 : 36 < temperature -> c = charge_current /\ f = force_charge)
    by (intros H; lra).
  assert (Hsame : forall f0 : Z,
            f0 = force_charge \/ f0 = 2%Z ->
            Ok (charge_current, f0) = Ok (c, f) ->
            c <= charge_current
            /\ (c = charge_current
                \/ exists table, Battery.derating cfg = Some table /\ c ∈ table)
            /\ (f = force_charge \/ (f = 2%Z /\ c = charge_current))
            /\ (36 < temperature -> c = charge_current /\ f = force_charge)).
  { intros f0 Hf0 [= <- <-]. split; [lra|]. split; [now left|].
    split; [|exact H36]. destruct Hf0; auto. }
  destruct (Qle_bool _ (Battery.derate_temp cfg)); [|apply Hsame; auto].
  destruct (Battery.derate_index cfg temperature) as [i| | | | |];
    cbn [mbind result_bind]; try discriminate.
  destruct (Battery.derating cfg) as [table|]; [|apply Hsame; auto].
  destruct (_ <? _)%Z; [|apply Hsame; auto].
  destruct (py_index table i) as [x| | | | |] eqn:Ex;
    cbn [mbind result_bind]; try discriminate.
  assert (Hx : x ∈ table).
  { unfold py_index in Ex. destruct (_ <? 0)%Z; [discriminate|].
    destruct (table !! _) as [y|] eqn:Ey; [|discriminate].
    injection Ex as <-. eapply list_elem_of_lookup_2, Ey. }
  destruct (Qltb x charge_current) eqn:E;
    [apply Qltb_lt in E | apply Qltb_ge in E]; intros [= <- <-].
  - split; [lra|]. split; [right; eauto|]. split; [left; reflexivity|exact H36].
  - split; [lra|]. split; [now left|]. split; [now left|exact H36].
Qed.

Lemma derate_only_lowers_witness :
  (15 : Q) <= 26
  /\ exists table,
       Battery.derating Examples.default_derating = Some table
       /\ (15 : Q) ∈ table.
Proof.
  destruct (derate_only_lowers Examples.default_derating 17 26 1 15 1)
    as (H1 & [H2|H2] & _).
  - reflexivity.
  - discriminate H2.
  - split; [exact H1|exact H2].
Defined.

Lemma every_pair (P : Z -> Z -> bool) (a b : nat) :
  forallb (fun x => forallb (P x) (map Z.of_nat (seq 0 b)))
          (map Z.of_nat (seq 0 a)) = true ->
  forall x y, (0 <= x < Z.of_nat a)%Z -> (0 <= y < Z.of_nat b)%Z ->
              P x y = true.
Proof.
  intros Hall x y Hx Hy.
  rewrite forallb_forall in Hall.
  assert (Hin : forall n z, (0 <= z < Z.of_nat n)%Z ->
                            In z (map Z.of_nat (seq 0 n))).
  { intros n z Hz. apply in_map_iff. exists (Z.to_nat z).
    split; [lia|]. apply in_seq. lia. }
  specialize (Hall x (Hin a x Hx)).
  rewrite forallb_forall in Hall. apply Hall, Hin, Hy.
Qed.

(** X16.  With a whole [derate_temp] from 0 to 35 degrees and a
    [derate_step] of a quarter of a degree (or an eighth, down to 1/64),
    a temperature one step above [derate_temp] still rounds down to it
    and reads the derating table at position -1: the current for the
    coldest battery is applied to the warmest one that is derated.  A
    step of 0.4 degrees at 22.4 degrees gives the quotient
    -0.9999999999999964 and reads position 0. *)
Theorem derate_reads_last_entry (cfg : Battery.derate_config) (dt n : Z)
    (charge_current : Q) (force_charge : Z) (table : list Q) (coldest : Q) :
  (0 <= dt <= 35)%Z -> (2 <= n <= 6)%Z ->
  Battery.derate_temp cfg = inject_Z dt ->
  Battery.derate_step cfg = Some (1 # Z.to_pos (2 ^ n)) ->
  Battery.derating cfg = Some (table ++ [coldest]) ->
  Battery.derate cfg (inject_Z dt + (1 # Z.to_pos (2 ^ n)))
                 charge_current force_charge
  = Ok (if Qltb coldest charge_current then coldest else charge_current,
        force_charge)
  /\ Battery.derate_index Examples.decimal_derating (112 # 5) = Ok 0%Z
  /\ Battery.derate Examples.decimal_derating (112 # 5) 26 force_charge
     = Ok (24, force_charge).
Proof.
  intros Hdt Hn Htemp Hstep Htable.
  assert (E0 : Battery.derate_index Examples.decimal_derating (112 # 5)
               = Ok 0%Z) by (vm_compute; reflexivity).
  split; [|split; [exact E0|]].
  2: { unfold Battery.derate. rewrite E0. reflexivity. }
  assert (Hall : forallb (fun dt => forallb (derated_at_index_minus_1 dt)
                                            (map Z.of_nat (seq 0 7)))
                         (map Z.of_nat (seq 0 36)) = true)
    by (vm_compute; reflexivity).
  pose proof (every_pair _ 36 7 Hall dt n ltac:(lia) ltac:(lia)) as H.
  unfold derated_at_index_minus_1 in H. cbv zeta in H.
  destruct (Z.ltb_spec n 2); [lia|]. cbn [orb] in H.
  apply andb_true_iff in H as [H Hi]. apply andb_true_iff in H as [H36 Hr].
  apply negb_true_iff in H36.
  unfold Battery.derate. rewrite H36, Htemp, Hr.
  assert (Ei : Battery.derate_index
                 cfg (inject_Z dt + (1 # Z.to_pos (2 ^ n))) = Ok (-1)%Z).
  { clear E0 Hall.
    destruct (Battery.derate_index _ _) as [i| | | | |] eqn:E in Hi;
      try discriminate.
    apply Z.eqb_eq in Hi. subst i. rewrite <- E.
    unfold Battery.derate_index. rewrite Htemp, Hstep.
    cbn [Battery.derate_temp Battery.derate_step]. reflexivity. }
  rewrite Ei, Htable. cbn [mbind result_bind].
  rewrite length_app. cbn [length].
  destruct (Z.ltb_spec (-1) (Z.of_nat (length table + 1))); [|lia].
  unfold py_index. cbn [Z.ltb Z.compare]. rewrite length_app. cbn [length].
  destruct (Z.ltb_spec (Z.of_nat (length table + 1) + -1) 0); [lia|].
  replace (Z.to_nat (Z.of_nat (length table + 1) + -1)) with (length table)
    by lia.
  rewrite lookup_app_r, Nat.sub_diag by lia. reflexivity.
Qed.

Lemma derate_reads_last_entry_witness :
  Battery.derate Examples.quarter_derating (inject_Z 22 + (1 # Z.to_pos (2 ^ 2)))
                 26 1
  = Ok (if Qltb 2 26 then 2 else 26, 1%Z).
Proof.
  refine (proj1 (derate_reads_last_entry Examples.quarter_derating 22 2
                   26 1 [24; 15; 10] 2 _ _ _ _ _)).
  - lia.
  - lia.
  - reflexivity.
  - reflexivity.
  - reflexivity.
Defined.

Lemma py_div_inv (a b q : Q) : py_div a b = Ok q -> ~ b == 0 /\ q = a / b.
Proof.
  unfold py_div. destruct (Qeq_bool b 0) eqn:E; [discriminate|].
  intros [= <-]. split; [|reflexivity].
  intros Hz. apply Qeq_bool_iff in Hz. congruence.
Qed.

Ltac ok_binds H :=
  repeat match type of H with
    | mbind _ ?r = Ok _ =>
        let E := fresh "E" in
        destruct r eqn:E; cbn [mbind result_bind] in H; try discriminate
    | (let '(_, _) := ?p in _) = Ok _ => destruct p
    end.

(** X17.  The limits handed to the charge calculation are within the
    power of the device: [charge_limit] is at most the device power after
    grid losses, and is only lower when the charge current allows at
    least 0.1 kW; [discharge_limit] is at most the device power; and the
    charge current is the configured or device current unless derated. *)
Theorem device_limits_within_device_power (cfg : Battery.settings)
    (b : Battery.readings) (force_charge : Z) (L : Battery.limits) :
  Battery.device_limits cfg b force_charge = Ok L ->
  Battery.l_charge_limit L
  <= Battery.l_device_power L * Battery.grid_loss cfg
  /\ (Battery.l_charge_limit L
      < Battery.l_device_power L * Battery.grid_loss cfg ->
      1 # 10 <= Battery.l_charge_limit L)
  /\ Battery.l_discharge_limit L <= Battery.l_device_power L
  /\ (Battery.l_force_charge L = force_charge
      \/ Battery.l_force_charge L = 2%Z)
  /\ ~ Battery.discharge_loss cfg == 0
  /\ Battery.l_export_limit L * Battery.discharge_loss cfg
     == default (Battery.l_device_power L) (Battery.export_limit cfg).
Proof.
  unfold Battery.device_limits. intros H.
  ok_binds H.
  match goal with
  | Ed : Battery.derate _ _ _ _ = Ok ?d |- _ =>
      destruct d as [c1 f1]; apply derate_force_charge in Ed as Hf
  end.
  match goal with
  | Ee : py_div _ (Battery.discharge_loss cfg) = Ok _ |- _ =>
      apply py_div_inv in Ee as (Hloss & ->)
  end.
  injection H as <-.
  cbn [Battery.l_charge_limit Battery.l_device_power Battery.l_discharge_limit
       Battery.l_force_charge Battery.l_export_limit fst snd].
  split; [|split; [|split; [|split; [|split]]]].
  - split_tests; lra.
  - split_tests; lra.
  - split_tests; lra.
  - destruct Hf as [->| ->]; auto.
  - exact Hloss.
  - field. exact Hloss.
Qed.

Lemma device_limits_within_device_power_witness :
  Battery.l_charge_limit Examples.default_limits
  <= Battery.l_device_power Examples.default_limits
     * Battery.grid_loss Examples.default_settings
  /\ Battery.l_discharge_limit Examples.default_limits
     <= Battery.l_device_power Examples.default_limits.
Proof.
  destruct (device_limits_within_device_power Examples.default_settings
              Examples.cool_battery 1 Examples.default_limits)
    as (H1 & _ & H2 & _).
  - vm_compute. reflexivity.
  - split; [exact H1|exact H2].
Defined.

(** ** Energy by tariff period *)

(** What a sample adds to the totals. *)
Lemma add_sample_totals (tariff : option History.tou) (sample_time : Q)
    (acc : History.energy) (y : Q * Q) :
  let e := y.2 * sample_time / 60 in
  let acc' := History.add_sample tariff sample_time acc y in
  History.kwh acc' - History.kwh_neg acc'
  == History.kwh acc - History.kwh_neg acc + e
  /\ History.kwh acc <= History.kwh acc'
  /\ History.kwh_neg acc <= History.kwh_neg acc'
  /\ History.kwh_off acc <= History.kwh_off acc'
  /\ History.kwh_peak acc <= History.kwh_peak acc'
  /\ History.kwh acc' - History.kwh_off acc' - History.kwh_peak acc'
     >= History.kwh acc - History.kwh_off acc - History.kwh_peak acc.
Proof.
  cbv zeta. unfold History.add_sample.
  set (e := y.2 * sample_time / 60).
  destruct (Qltb 0 e) eqn:E; [apply Qltb_lt in E | apply Qltb_ge in E].
  - destruct tariff as [t|];
      repeat match goal with
        | |- context [if hour_in ?h ?p then _ else _] => destruct (hour_in h p)
        end;
      cbn [History.kwh History.kwh_off History.kwh_peak History.kwh_neg];
      repeat split; lra.
  - cbn [History.kwh History.kwh_off History.kwh_peak History.kwh_neg].
    repeat split; lra.
Qed.

Lemma energy_summary_from (tariff : option History.tou) (sample_time : Q)
    (data : list (Q * Q)) (acc : History.energy) :
  let r := fold_left (History.add_sample tariff sample_time) data acc in
  History.kwh r - History.kwh_neg r
  == History.kwh acc - History.kwh_neg acc
     + py_sum (map (fun y => y.2 * sample_time / 60) data)
  /\ History.kwh acc <= History.kwh r
  /\ History.kwh_neg acc <= History.kwh_neg r
  /\ History.kwh_off acc <= History.kwh_off r
  /\ History.kwh_peak acc <= History.kwh_peak r
  /\ History.kwh r - History.kwh_off r - History.kwh_peak r
     >= History.kwh acc - History.kwh_off acc - History.kwh_peak acc.
Proof.
  revert acc. induction data as [|y data IH]; intros acc; cbv zeta.
  - cbn [fold_left map]. unfold py_sum. cbn [fold_left].
    repeat split; lra.
  - cbn [fold_left map]. rewrite py_sum_cons.
    pose proof (add_sample_totals tariff sample_time acc y) as Hs.
    cbv zeta in Hs.
    specialize (IH (History.add_sample tariff sample_time acc y)).
    cbv zeta in IH.
    destruct Hs as (H1 & H2 & H3 & H4 & H5 & H6).
    destruct IH as (I1 & I2 & I3 & I4 & I5 & I6).
    repeat split; lra.
Qed.

(** X18.  In the energy summary of a series of power samples, the totals
    of energy in and out are not negative and differ by the sum of every
    sample's energy; off-peak and peak energy are not negative, and
    together they are at most the energy in. *)
Theorem energy_summary_totals (tariff : option History.tou) (sample_time : Q)
    (data : list (Q * Q)) :
  let r := History.energy_summary tariff sample_time data in
  History.kwh r - History.kwh_neg r
  == py_sum (map (fun y => y.2 * sample_time / 60) data)
  /\ 0 <= History.kwh r /\ 0 <= History.kwh_neg r
  /\ 0 <= History.kwh_off r /\ 0 <= History.kwh_peak r
  /\ History.kwh_off r + History.kwh_peak r <= History.kwh r.
Proof.
  cbv zeta. unfold History.energy_summary.
  pose proof (energy_summary_from tariff sample_time data
                (History.Energy 0 0 0 0)) as H.
  cbv zeta in H.
  cbn [History.kwh History.kwh_off History.kwh_peak History.kwh_neg] in H.
  destruct H as (H1 & H2 & H3 & H4 & H5 & H6).
  repeat split; lra.
Qed.

(** ** Daylight saving *)

(** X19.  For a 31st that falls on day [w] of the week (Monday 0 to
    Sunday 6), the date found for the change of clocks is a Sunday in the
    last seven days of the month; British Summer Time is reported from
    01:00 on that Sunday in March until 01:00 on that Sunday in October,
    and at no other time; and the change in daylight saving between two
    times is -1, 0 or 1 hour. *)
Theorem british_summer_time_period (mar31 oct31 : Z) (dat : Calendar.date)
    (hour : Z) (dat' : Calendar.date) (hour' : Z) :
  (0 <= mar31 <= 6)%Z -> (0 <= oct31 <= 6)%Z ->
  let sunday (w : Z) (d : Calendar.date) :=
    (25 <= Calendar.day d <= 31
     /\ (w - (31 - Calendar.day d)) mod 7 = 6)%Z in
  let at_or_after (d : Calendar.date) :=
    Calendar.date_ltb d dat
    || (Calendar.date_eqb dat d && (1 <=? hour)%Z) in
  (-1 <= Calendar.daylight_changes mar31 oct31 dat hour dat' hour' <= 1)%Z
  /\ sunday mar31 (Calendar.last_sunday 3 mar31)
  /\ sunday oct31 (Calendar.last_sunday 10 oct31)
  /\ (Calendar.british_summer_time mar31 oct31 dat hour = 1%Z
      \/ Calendar.british_summer_time mar31 oct31 dat hour = 0%Z)
  /\ (Calendar.british_summer_time mar31 oct31 dat hour = 1%Z
      <-> at_or_after (Calendar.last_sunday 3 mar31) = true
          /\ at_or_after (Calendar.last_sunday 10 oct31) = false).
Proof.
  intros Hm Ho. cbv zeta.
  assert (Hbit : forall d h,
            Calendar.british_summer_time mar31 oct31 d h = 1%Z
            \/ Calendar.british_summer_time mar31 oct31 d h = 0%Z).
  { intros d h. unfold Calendar.british_summer_time.
    repeat match goal with
      | |- context [if ?b then _ else _] => destruct b
      end; auto. }
  split.
  { unfold Calendar.daylight_changes.
    destruct (Hbit dat hour) as [-> | ->];
      destruct (Hbit dat' hour') as [-> | ->]; lia. }
  clear Hbit.
  assert (Hs : forall w, (0 <= w <= 6)%Z ->
            (25 <= 31 - (w + 1) mod 7 <= 31
             /\ (w - (31 - (31 - (w + 1) mod 7))) mod 7 = 6)%Z).
  { intros w Hw.
    assert (Hc : (w = 0 \/ w = 1 \/ w = 2 \/ w = 3 \/ w = 4 \/ w = 5
                  \/ w = 6)%Z) by lia.
    destruct Hc as [H|[H|[H|[H|[H|[H|H]]]]]]; subst w;
      (split; [split; apply Z.leb_le; reflexivity | reflexivity]). }
  pose proof (Hs mar31 Hm) as Hmar. pose proof (Hs oct31 Ho) as Hoct.
  unfold Calendar.british_summer_time, Calendar.date_eqb, Calendar.date_ltb,
    Calendar.last_sunday.
  cbn [Calendar.month Calendar.day].
  destruct dat as [m d]. cbn [Calendar.month Calendar.day].
  split; [exact Hmar|]. split; [exact Hoct|]. clear Hs Hmar Hoct.
  set (ms := (31 - (mar31 + 1) mod 7)%Z).
  set (os := (31 - (oct31 + 1) mod 7)%Z).
  clearbody ms os.
  destruct ((m =? 3)%Z && (d =? ms)%Z && (hour <? 1)%Z) eqn:E1;
    [split; [now right|]; split; [discriminate|lia]|].
  destruct ((m =? 10)%Z && (d =? os)%Z && (hour <? 1)%Z) eqn:E2;
    [split; [now left|]; split; [lia|reflexivity]|].
  destruct (negb ((m <? 3)%Z || (m =? 3)%Z && (d <? ms)%Z)
            && ((m <? 10)%Z || (m =? 10)%Z && (d <? os)%Z)) eqn:E3.
  - split; [now left|]. split; [lia|reflexivity].
  - split; [now right|]. split; [discriminate|lia].
Qed.

Lemma british_summer_time_period_witness :
  Calendar.british_summer_time 0 4 (Calendar.Date 3 30) 1 = 1%Z.
Proof.
  pose proof (british_summer_time_period 0 4 (Calendar.Date 3 30) 1
                (Calendar.Date 3 30) 0) as H.
  cbv zeta in H. destruct H as (_ & _ & _ & _ & H); [lia | lia |].
  apply H. split; reflexivity.
Defined.

(** ** Forecast timelines *)

Lemma round_time_whole_hour (z : Z) :
  py_int (round_time (inject_Z z)) = (z mod 24)%Z.
Proof.
  pose proof (Z.mod_pos_bound z 24 ltac:(lia)) as Hm.
  pose proof (inject_Z_range 0 (z mod 24) 23 ltac:(lia)) as Hq.
  change (inject_Z 0) with 0 in Hq. change (inject_Z 23) with 23 in Hq.
  assert (Hw : wrap24 (inject_Z z) == inject_Z (z mod 24)).
  { apply (wrap24_unique _ _ (z / 24)); [lra|].
    rewrite (Z.div_mod z 24) at 1 by lia.
    rewrite inject_Z_plus, inject_Z_mult. change (inject_Z 24) with 24. ring. }
  rewrite (round_time_fields _ _ Hw).
  rewrite (py_int_whole (inject_Z (z mod 24)) (z mod 24)) by reflexivity.
  assert (E : 60 * (inject_Z (z mod 24) - inject_Z (z mod 24)) + (1 # 2)
              == 1 # 2) by ring.
  rewrite (py_int_proper _ _ E).
  apply py_int_whole. change (inject_Z (py_int (1 # 2))) with 0. field.
Qed.

Lemma py_range_length_to (a b : Z) :
  (a <= b)%Z -> Z.of_nat (length (py_range a b)) = (b - a)%Z.
Proof. intros Hab. rewrite py_range_length. lia. Qed.

Lemma py_range_at (a b : Z) (k : nat) (f : Z -> Q) :
  (Z.of_nat k < b - a)%Z ->
  map f (py_range a b) !! k = Some (f (a + Z.of_nat k)%Z).
Proof.
  intros Hk. rewrite list_lookup_fmap.
  assert (E : py_range a b !! k = Some (a + Z.of_nat k)%Z)
    by (apply py_range_lookup; lia).
  now rewrite E.
Qed.

(** X20.  The forecast timeline starts at the current hour and covers the
    rest of today and two copies of tomorrow, so it has [run_time] values
    when [run_time] is at most [72 - int(hour_now)].  The value for the
    hour [h] of the day is read at key [(h - time_offset) mod 24] of the
    same day: with an offset of one hour, the first hour of a day reads
    key 23 of that day, not of the day before. *)
Theorem forecast_value_timed_hours (today tomorrow : gmap Z Q)
    (kwh hour_now : Q) (run_time time_offset : Z) (k : nat) :
  0 <= hour_now < 24 -> (0 <= run_time)%Z ->
  let h := (py_int hour_now + Z.of_nat k)%Z in
  (Forecast.forecast_value_timed today tomorrow kwh hour_now run_time
                                 time_offset).2 !! k
  = if decide (Z.of_nat k < Z.min run_time (72 - py_int hour_now))%Z
    then Some (Forecast.c_float
                 ((if (h <? 24)%Z then today else tomorrow)
                  !! ((h - time_offset) mod 24)%Z))
    else None.
Proof.
  intros Hh Hr h. pose proof (py_int_hour hour_now Hh) as Hi.
  unfold Forecast.forecast_value_timed. cbn [snd].
  set (h0 := py_int hour_now) in *.
  set (f := fun d : gmap Z Q =>
              fun h : Z => Forecast.c_float (d !! Forecast.hour_key time_offset h)).
  change (map (fun h => Forecast.c_float (tomorrow !! Forecast.hour_key time_offset h))
              (py_range 0 24)) with (map (f tomorrow) (py_range 0 24)).
  change (map (fun h => Forecast.c_float (today !! Forecast.hour_key time_offset h))
              (py_range h0 24)) with (map (f today) (py_range h0 24)).
  set (timed := map (f today) (py_range h0 24)).
  set (profile := map (f tomorrow) (py_range 0 24)).
  assert (Lt : length timed = Z.to_nat (24 - h0))
    by (unfold timed; now rewrite length_map, py_range_length).
  assert (Lp : length profile = 24%nat)
    by (unfold profile; now rewrite length_map, py_range_length).
  assert (Hkey : forall z, Forecast.hour_key time_offset z
                           = ((z - time_offset) mod 24)%Z)
    by (intros z; apply round_time_whole_hour).
  assert (Hday : forall z, ((z - 24 - time_offset) mod 24
                            = (z - time_offset) mod 24)%Z).
  { intros z. replace (z - 24 - time_offset)%Z
      with (z - time_offset + (-1) * 24)%Z by lia.
    apply Z.mod_add. lia. }
  unfold py_upto, py_clip. rewrite !length_app, Lt, Lp.
  destruct (Z.ltb_spec run_time 0); [lia|].
  destruct (decide _) as [Hk|Hk].
  - rewrite lookup_take_lt by lia.
    destruct (Z.ltb_spec h 24) as [Hlt|Hge].
    + rewrite lookup_app_l by lia. unfold timed.
      rewrite py_range_at by lia. unfold f. now rewrite Hkey.
    + rewrite lookup_app_r by lia. rewrite Lt.
      destruct (decide (h < 48)%Z) as [H48|H48].
      * rewrite lookup_app_l by lia. unfold profile.
        rewrite py_range_at by lia. unfold f. rewrite Hkey.
        replace (0 + Z.of_nat (k - Z.to_nat (24 - h0)))%Z with (h - 24)%Z
          by (unfold h; lia).
        now rewrite Hday.
      * rewrite lookup_app_r by lia. rewrite Lp. unfold profile.
        rewrite py_range_at by lia. unfold f. rewrite Hkey.
        replace (0 + Z.of_nat (k - Z.to_nat (24 - h0) - 24))%Z
          with (h - 24 - 24)%Z by (unfold h; lia).
        now rewrite !Hday.
  - apply lookup_ge_None. rewrite length_take, !length_app, Lt, Lp. lia.
Qed.

Lemma forecast_value_timed_hours_witness :
  (Forecast.forecast_value_timed ∅ (<[23%Z := 1]> ∅) 9 (47 # 2) 30 1).2
    !! 1%nat
  = Some (Forecast.c_float ((<[23%Z := 1]> ∅ : gmap Z Q) !! 23%Z)).
Proof.
  pose proof (forecast_value_timed_hours ∅ (<[23%Z := 1]> ∅) 9 (47 # 2) 30 1
                1) as H.
  cbv zeta in H. apply H.
  - split; [discriminate|reflexivity].
  - lia.
Defined.

(** ** Timed work mode *)

(** The loop over the work modes ends on the last mode whose period
    holds the hour, or where it started. *)
Lemma select_last (t : list (string * WorkMode.mode_window)) (hour_now : Q)
    (modes : list string) (st : string * Q) :
  let r := fold_left (WorkMode.select_step t hour_now) modes st in
  (r = st /\ forall w, w ∈ modes -> WorkMode.mode_applies t hour_now w = false)
  \/ exists l1 w l2 mw,
       modes = l1 ++ w :: l2
       /\ WorkMode.tariff_get t w = Some mw
       /\ hour_in hour_now (Some (WorkMode.window mw)) = true
       /\ (forall w', w' ∈ l2 -> WorkMode.mode_applies t hour_now w' = false)
       /\ r = (w, default 0 (WorkMode.min_soc mw)).
Proof.
  cbv zeta. induction modes as [|w modes IH] using rev_ind.
  - left. split; [reflexivity|]. intros w Hw. inversion Hw.
  - rewrite fold_left_app. cbn [fold_left].
    assert (Hstep : forall st0,
              WorkMode.select_step t hour_now st0 w
              = match WorkMode.tariff_get t w with
                | Some mw =>
                    if hour_in hour_now (Some (WorkMode.window mw))
                    then (w, default 0 (WorkMode.min_soc mw)) else st0
                | None => st0
                end) by reflexivity.
    rewrite Hstep. clear Hstep.
    destruct (WorkMode.tariff_get t w) as [mw|] eqn:Eg.
    + destruct (hour_in hour_now (Some (WorkMode.window mw))) eqn:Eh.
      * right. exists modes, w, [], mw.
        split; [reflexivity|]. split; [exact Eg|]. split; [exact Eh|].
        split; [|reflexivity]. intros w' Hw'. inversion Hw'.
      * assert (Hw : WorkMode.mode_applies t hour_now w = false)
          by (unfold WorkMode.mode_applies; now rewrite Eg).
        destruct IH as [(-> & Hnone)|(l1 & w0 & l2 & mw0 & -> & H1 & H2 & H3 & ->)].
        -- left. split; [reflexivity|]. intros w' Hw'.
           apply elem_of_app in Hw' as [Hw'|Hw']; [now apply Hnone|].
           apply list_elem_of_singleton in Hw' as ->. exact Hw.
        -- right. exists l1, w0, (l2 ++ [w]), mw0.
           split; [now rewrite <- app_assoc|]. split; [exact H1|].
           split; [exact H2|]. split; [|reflexivity]. intros w' Hw'.
           apply elem_of_app in Hw' as [Hw'|Hw']; [now apply H3|].
           apply list_elem_of_singleton in Hw' as ->. exact Hw.
    + assert (Hw : WorkMode.mode_applies t hour_now w = false)
        by (unfold WorkMode.mode_applies; now rewrite Eg).
      destruct IH as [(-> & Hnone)|(l1 & w0 & l2 & mw0 & -> & H1 & H2 & H3 & ->)].
      * left. split; [reflexivity|]. intros w' Hw'.
        apply elem_of_app in Hw' as [Hw'|Hw']; [now apply Hnone|].
        apply list_elem_of_singleton in Hw' as ->. exact Hw.
      * right. exists l1, w0, (l2 ++ [w]), mw0.
        split; [now rewrite <- app_assoc|]. split; [exact H1|].
        split; [exact H2|]. split; [|reflexivity]. intros w' Hw'.
        apply elem_of_app in Hw' as [Hw'|Hw']; [now apply H3|].
        apply list_elem_of_singleton in Hw' as ->. exact Hw.
Qed.

(** X21.  The work mode is changed only when [update_settings] is 2 or 3,
    to a mode other than the current one, and with the battery at or
    above the state of charge that the mode requires.  The mode is the
    last of [work_modes] whose period in the tariff holds the hour, with
    its [min_soc] (or 0) as the requirement, and the default mode of the
    tariff, with no requirement, when no period does. *)
Theorem work_mode_change_target (t : list (string * WorkMode.mode_window))
    (default_mode : option string) (update_settings : Z)
    (current_mode : option string) (current_soc hour_now : Q) (m : string) :
  WorkMode.work_mode_change t default_mode update_settings current_mode
                            current_soc hour_now = Some m ->
  (update_settings = 2 \/ update_settings = 3)%Z
  /\ current_mode <> Some m /\ current_mode <> None
  /\ ((default_mode = Some m /\ 0 <= current_soc
       /\ forall w, w ∈ Fields.work_modes ->
                    WorkMode.mode_applies t hour_now w = false)
      \/ exists l1 l2 mw,
           Fields.work_modes = l1 ++ m :: l2
           /\ WorkMode.tariff_get t m = Some mw
           /\ hour_in hour_now (Some (WorkMode.window mw)) = true
           /\ (forall w, w ∈ l2 -> WorkMode.mode_applies t hour_now w = false)
           /\ default 0 (WorkMode.min_soc mw) <= current_soc).
Proof.
  unfold WorkMode.work_mode_change.
  destruct default_mode as [dm|]; [|discriminate].
  destruct ((update_settings =? 0)%Z || (update_settings =? 1)%Z);
    [discriminate|].
  destruct current_mode as [cur|]; [|discriminate].
  destruct ((update_settings =? 2)%Z || (update_settings =? 3)%Z) eqn:Eu;
    cbn [andb]; [|discriminate].
  destruct (String.eqb cur _) eqn:Ec; cbn [negb]; [discriminate|].
  destruct (Qle_bool _ current_soc) eqn:Es; [|discriminate].
  intros [= <-]. apply Qle_bool_iff in Es. apply String.eqb_neq in Ec.
  split; [lia|]. split; [congruence|]. split; [discriminate|].
  unfold WorkMode.target_work_mode in *.
  destruct (select_last t hour_now Fields.work_modes (dm, 0))
    as [(Hr & Hnone)|(l1 & w & l2 & mw & Hsplit & H1 & H2 & H3 & Hr)];
    cbv zeta in Hr; rewrite Hr in Es |- *; cbn [fst snd] in *.
  - left. repeat split; assumption.
  - right. exists l1, l2, mw. repeat split; assumption.
Qed.

Lemma work_mode_change_target_witness :
  exists l1 l2 mw,
    Fields.work_modes = l1 ++ "Feedin"%string :: l2
    /\ WorkMode.tariff_get Examples.evening_feedin "Feedin" = Some mw
    /\ default 0 (WorkMode.min_soc mw) <= 80.
Proof.
  destruct (work_mode_change_target Examples.evening_feedin
              (Some "SelfUse"%string) 3 (Some "SelfUse"%string) 80 17
              "Feedin"%string)
    as (_ & _ & _ & [(Hd & _)|(l1 & l2 & mw & H1 & H2 & _ & _ & H3)]).
  - vm_compute. reflexivity.
  - discriminate Hd.
  - exists l1, l2, mw. split; [exact H1|]. split; [exact H2|exact H3].
Defined.

(** ** The weights of the price window *)

(** X23.  The weights used for a window of [span] slots are exactly
    [span] values: ones when no weighting is configured, and otherwise
    the configured weights, cut after [span] values or continued with
    zeros. *)
Theorem weights_of_span (w : option (list Q)) (span : Z) (k : nat) :
  (0 <= span)%Z ->
  length (Agile.weights_of w span) = Z.to_nat span
  /\ ((Z.of_nat k < span)%Z ->
      Agile.weights_of w span !! k
      = Some (match w with
              | None => 1
              | Some w => default 0 (w !! k)
              end)).
Proof.
  intros Hs. unfold Agile.weights_of. destruct w as [w|].
  - unfold py_upto, py_clip. rewrite length_take, length_app, length_replicate.
    destruct (Z.ltb_spec span 0); [lia|]. split; [lia|].
    intros Hk. rewrite lookup_take_lt by lia.
    destruct (w !! k) as [x|] eqn:E; cbn [default from_option]; unfold id.
    + apply lookup_lt_Some in E as Hl. now rewrite lookup_app_l.
    + apply lookup_ge_None in E. rewrite lookup_app_r by lia.
      apply lookup_replicate_2. lia.
  - rewrite length_replicate. split; [reflexivity|].
    intros Hk. apply lookup_replicate_2. lia.
Qed.

Lemma weights_of_span_witness :
  length (Agile.weights_of (Some [3; 2]) 4) = Z.to_nat 4
  /\ Agile.weights_of (Some [3; 2]) 4 !! 3%nat = Some 0.
Proof.
  destruct (weights_of_span (Some [3; 2]) 4 3) as (H1 & H2); [lia|].
  split; [exact H1|]. apply H2. lia.
Defined.

(** ** The charge time of a plan *)

Lemma charge_amount_hours (S : Solver.scenario) (kn sr d kn' hrs : Q)
    (full : bool) :
  Solver.charge_amount S kn sr d = Ok (kn', hrs, full) ->
  0 <= Solver.min_hours S ->
  0 <= hrs
  /\ (if full then hrs = Timeline.charge_time (Solver.sched S)
      else Solver.min_hours S <= hrs
           /\ (hrs <= Timeline.charge_time (Solver.sched S)
               \/ hrs = Solver.min_hours S)).
Proof.
  unfold Solver.charge_amount.
  destruct (py_div kn _) as [q| | | | |]; cbn [mbind result_bind];
    try discriminate.
  intros H Hmin.
  assert (Hct : 0 <= Timeline.charge_time (Solver.sched S)).
  { unfold Solver.sched, Timeline.next_charge.
    cbn [Timeline.charge_time]. apply round_time_range. }
  set (taper := if Qle_bool _ _ then _ else _) in H.
  pose proof (round_time_range (q + taper)) as Hr.
  set (hours := round_time (q + taper)) in *.
  destruct (Solver.full_charge_due S); cbn [orb] in H.
  { injection H as <- <- <-. split; [exact Hct|reflexivity]. }
  destruct (_ =? 2)%Z; cbn [orb] in H.
  { injection H as <- <- <-. split; [exact Hct|reflexivity]. }
  destruct (Qltb (Timeline.charge_time (Solver.sched S)) hours) eqn:E1;
    cbn [orb] in H.
  { injection H as <- <- <-. split; [exact Hct|reflexivity]. }
  apply Qltb_ge in E1.
  destruct (Qltb (Solver.capacity S * _) _).
  { injection H as <- <- <-. split; [exact Hct|reflexivity]. }
  destruct (Qltb hours (Solver.min_hours S)) eqn:E2;
    [apply Qltb_lt in E2 | apply Qltb_ge in E2]; injection H as <- <- <-.
  - split; [exact Hmin|]. split; [lra|]. now right.
  - split; [lra|]. split; [exact E2|]. now left.
Qed.

(** X24.  The charge time of a plan is never negative and never longer
    than the charge period of the tariff, unless it is the configured
    minimum; it is that period when "Full charge time used" applies, at
    least the minimum when charge is added otherwise, and 0 when no
    charge is needed. *)
Theorem plan_hours_within_charge_time (S : Solver.scenario) (c : Q)
    (p : Solver.plan) :
  Solver.charge_needed S c = Ok p ->
  0 <= Solver.min_hours S ->
  let charge_time := Timeline.charge_time (Solver.sched S) in
  0 <= Solver.hours p
  /\ (Solver.hours p <= charge_time \/ Solver.hours p = Solver.min_hours S)
  /\ match Solver.message p with
     | Solver.no_charge_needed => Solver.hours p = 0
     | _ => if Solver.full_charge_used p then Solver.hours p = charge_time
            else Solver.min_hours S <= Solver.hours p
     end.
Proof.
  intros Hp Hmin. cbv zeta.
  assert (Hct : 0 <= Timeline.charge_time (Solver.sched S)).
  { unfold Solver.sched, Timeline.next_charge.
    cbn [Timeline.charge_time]. apply round_time_range. }
  apply charge_needed_stages in Hp as (tl & b & _ & _ & Hd).
  pose proof Hd as Hd'.
  apply decide_cases in Hd as (_ & [(Hg & Hm & _ & Hh & _)|(Hg & sr & d & _ & Ha)]).
  - rewrite Hm, Hh. split; [lra|]. split; [left; exact Hct|reflexivity].
  - apply charge_amount_hours in Ha as (H0 & Hfull); [|exact Hmin].
    split; [exact H0|].
    assert (Hmsg : Solver.message p <> Solver.no_charge_needed).
    { unfold Solver.decide in Hd'. rewrite Hg in Hd'.
      repeat match type of Hd' with
        | mbind _ ?r = Ok _ =>
            destruct r; cbn [mbind result_bind] in Hd'; try discriminate
        | match ?r with Some _ => _ | None => _ end = Ok _ =>
            destruct r; cbn [mbind result_bind] in Hd'; try discriminate
        end.
      injection Hd' as <-. cbn [Solver.message].
      destruct (is_None _); discriminate. }
    destruct (Solver.full_charge_used p).
    + rewrite Hfull. split; [left; lra|].
      destruct (Solver.message p); [contradiction|reflexivity..].
    + destruct Hfull as (H1 & H2). split; [exact H2|].
      destruct (Solver.message p); [contradiction|exact H1..].
Qed.

Lemma plan_hours_within_charge_time_witness :
  exists p,
    Solver.charge_needed Examples.cosy_at_reserve 20 = Ok p
    /\ 0 <= Solver.hours p
    /\ (Solver.hours p
        <= Timeline.charge_time (Solver.sched Examples.cosy_at_reserve)
        \/ Solver.hours p = Solver.min_hours Examples.cosy_at_reserve).
Proof.
  eexists. split; [vm_compute; reflexivity|].
  refine (let H := plan_hours_within_charge_time Examples.cosy_at_reserve 20
                     _ _ _ in conj (proj1 H) (proj1 (proj2 H))).
  - vm_compute. reflexivity.
  - discriminate.
Defined.

(** ** The residual loops *)

(** A residual loop from hour [a] completes exactly when [kwh_timed]
    reaches its last hour. *)
Lemma run_hours_flag (settle : Z -> Solver.sim -> Solver.sim)
    (kwh_timed : list Q) (k a : nat) (s : Solver.sim) :
  (a <= length kwh_timed)%nat ->
  (Solver.run_hours settle kwh_timed (map Z.of_nat (seq a k)) s).2
  = bool_decide (a + k <= length kwh_timed)%nat.
Proof.
  revert a s. induction k as [|k IH]; intros a s Ha.
  - cbn. rewrite bool_decide_eq_true_2 by lia. reflexivity.
  - cbn [seq map Solver.run_hours]. rewrite py_index_nonneg by lia.
    rewrite Nat2Z.id.
    destruct (kwh_timed !! a) as [d|] eqn:E.
    + apply lookup_lt_Some in E. rewrite IH by lia.
      apply bool_decide_ext. lia.
    + apply lookup_ge_None in E. cbn [snd].
      rewrite bool_decide_eq_false_2 by lia. reflexivity.
Qed.

(** X25.  Both residual loops complete when the charge and discharge
    timelines cover the run time, of an hour at least, and raise
    [IndexError] when either timeline is shorter than the run time. *)
Theorem residual_loops_complete (S : Solver.scenario) (tl : list Q * list Q) :
  let n := Z.of_nat (length tl.1 `min` length tl.2) in
  let run_time := Timeline.run_time (Solver.sched S) in
  ((1 <= n)%Z -> (run_time <= n)%Z ->
   exists b a, Solver.baseline S tl = Ok b /\ Solver.charged S tl = Ok a)
  /\ ((n < run_time)%Z ->
      Solver.baseline S tl = IndexError /\ Solver.charged S tl = IndexError).
Proof.
  cbv zeta. unfold Solver.baseline, Solver.charged, Solver.kwh_start.
  set (kwh_timed := Solver.kwh_timed_of S tl).
  assert (Hlen : length kwh_timed = (length tl.1 `min` length tl.2)%nat)
    by (unfold kwh_timed, Solver.kwh_timed_of; apply length_zip_with).
  rewrite <- Hlen. rewrite py_range_from_0.
  set (k := Z.to_nat (Timeline.run_time (Solver.sched S))).
  assert (Hflag : forall settle s,
            (Solver.run_hours settle kwh_timed (map Z.of_nat (seq 0 k)) s).2
            = bool_decide (k <= length kwh_timed)%nat).
  { intros settle s. rewrite run_hours_flag by lia. reflexivity. }
  rewrite py_index_nonneg by lia. change (Z.to_nat 0) with 0%nat.
  split.
  - intros Hn Hrun.
    destruct (kwh_timed !! 0%nat) as [k0|] eqn:E0;
      [|apply lookup_ge_None in E0; lia].
    cbn [mbind result_bind]. unfold Solver.completed.
    rewrite !Hflag, bool_decide_eq_true_2 by lia. eauto.
  - intros Hrun.
    destruct (kwh_timed !! 0%nat) as [k0|] eqn:E0; [|split; reflexivity].
    cbn [mbind result_bind]. unfold Solver.completed.
    rewrite !Hflag, bool_decide_eq_false_2 by lia. split; reflexivity.
Qed.

Lemma residual_loops_complete_witness :
  exists b a,
    Solver.baseline Examples.cosy_above_reserve Examples.cosy_above_timelines
    = Ok b
    /\ Solver.charged Examples.cosy_above_reserve Examples.cosy_above_timelines
       = Ok a.
Proof.
  pose proof (residual_loops_complete Examples.cosy_above_reserve
                Examples.cosy_above_timelines) as H.
  cbv zeta in H. apply (proj1 H); vm_compute; discriminate.
Defined.

(** ** The consumption profile of a report *)

Lemma py_store_length {A} (l l' : list A) (i : Z) (x : A) :
  py_store l i x = Ok l' -> length l' = length l.
Proof.
  unfold py_store. destruct (_ <? 0)%Z; [discriminate|].
  destruct (_ <? _)%Z; [|discriminate].
  intros [= <-]. apply length_insert.
Qed.

(** Adding the hours of a day from hour [a]: the sums keep their length
    and every hour is counted, unless the day has more hours than there
    are sums. *)
Lemma add_hours (day : History.day_report) (k a : nat)
    (data : list (Q * Z)) (hours : Z) :
  (a + k <= length (History.day_data day))%nat ->
  (a <= length data)%nat ->
  let r := for_each (History.add_hour day) (map Z.of_nat (seq a k))
                    (data, hours) in
  if decide (a + k <= length data)%nat
  then exists data', r = Ok (data', (hours + Z.of_nat k)%Z)
                     /\ length data' = length data
  else r = IndexError.
Proof.
  revert a data hours. induction k as [|k IH]; intros a data hours Hd Ha;
    cbv zeta.
  - destruct (decide _); [|lia]. exists data. cbn.
    split; [do 2 f_equal; lia|reflexivity].
  - cbn [seq map for_each].
    assert (Hstep : History.add_hour day (data, hours) (Z.of_nat a)
              = (cell ← py_index data (Z.of_nat a);
                 value ← py_index (History.day_data day) (Z.of_nat a);
                 data' ← py_store data (Z.of_nat a)
                                  (cell.1 + value, (cell.2 + 1)%Z);
                 Ok (data', (hours + 1)%Z))) by reflexivity.
    rewrite Hstep. clear Hstep.
    rewrite !py_index_nonneg by lia. rewrite Nat2Z.id.
    destruct (data !! a) as [cell|] eqn:Ec.
    + apply lookup_lt_Some in Ec as Hlt. cbn [mbind result_bind].
      destruct (History.day_data day !! a) as [v|] eqn:Ev;
        [|apply lookup_ge_None in Ev; lia].
      cbn [mbind result_bind].
      rewrite py_store_in_range by lia. cbn [mbind result_bind].
      rewrite Nat2Z.id.
      specialize (IH (Datatypes.S a) (<[a := (cell.1 + v, (cell.2 + 1)%Z)]> data)
                     (hours + 1)%Z).
      cbv zeta in IH. rewrite length_insert in IH.
      specialize (IH ltac:(lia) ltac:(lia)).
      destruct (decide (Datatypes.S a + k <= length data)%nat);
        destruct (decide (a + Datatypes.S k <= length data)%nat); try lia.
      * destruct IH as (data' & -> & Hl). exists data'.
        split; [do 2 f_equal; lia|exact Hl].
      * exact IH.
    + apply lookup_ge_None in Ec. cbn [mbind result_bind].
      destruct (decide _); [lia|reflexivity].
Qed.

Lemma add_day_cases (data : list (Q * Z)) (totals : Q) (n : Z)
    (day : History.day_report) :
  if decide (length (History.day_data day) <= length data)%nat
  then exists data' totals',
         History.add_day (data, totals, n) day = Ok (data', totals', (n + 1)%Z)
         /\ length data' = length data
  else History.add_day (data, totals, n) day = IndexError.
Proof.
  unfold History.add_day. rewrite py_range_from_0, Nat2Z.id.
  pose proof (add_hours day (length (History.day_data day)) 0 data 0
                ltac:(lia) ltac:(lia)) as H.
  cbv zeta in H. cbn [Nat.add] in H.
  destruct (decide _).
  - destruct H as (data' & -> & Hl). cbn [mbind result_bind fst snd].
    eauto.
  - now rewrite H.
Qed.

Lemma add_days_length (days : list History.day_report)
    (data : list (Q * Z)) (totals : Q) (n : Z)
    (data' : list (Q * Z)) (totals' : Q) (n' : Z) :
  History.add_days days (data, totals, n) = Ok (data', totals', n') ->
  length data' = length data /\ n' = (n + Z.of_nat (length days))%Z.
Proof.
  revert data totals n. induction days as [|day days IH]; intros data totals n.
  - cbn. intros [= <- <- <-]. split; [reflexivity|lia].
  - cbn [History.add_days length].
    pose proof (add_day_cases data totals n day) as Hd.
    destruct (decide _).
    + destruct Hd as (d1 & t1 & -> & Hl). cbn [mbind result_bind].
      intros H. apply IH in H as (-> & ->). split; [exact Hl|lia].
    + rewrite Hd. discriminate.
Qed.

(** The first day that has too many hours stops the sums. *)
Lemma add_days_overrun (pre post : list History.day_report)
    (day : History.day_report) (data : list (Q * Z)) (totals : Q) (n : Z) :
  Forall (fun d => (length (History.day_data d) <= length data)%nat) pre ->
  (length data < length (History.day_data day))%nat ->
  History.add_days (pre ++ day :: post) (data, totals, n) = IndexError.
Proof.
  intros Hpre Hday. revert data totals n Hpre Hday.
  induction pre as [|d pre IH]; intros data totals n Hpre Hday.
  - cbn [app History.add_days].
    pose proof (add_day_cases data totals n day) as Hd.
    destruct (decide _); [lia|]. now rewrite Hd.
  - cbn [app History.add_days]. inversion Hpre as [|? ? Hd0 Hpre']; subst.
    pose proof (add_day_cases data totals n d) as Hd.
    destruct (decide _); [|lia].
    destruct Hd as (d1 & t1 & -> & Hl). cbn [mbind result_bind].
    apply IH; rewrite Hl; assumption.
Qed.

Lemma mapM_py_div_inv (c d : Q) (l r : list Q) :
  l <> [] ->
  mapM (fun h => py_div (h * c) d) l = Ok r ->
  ~ d == 0 /\ r = map (fun h => h * c / d) l.
Proof.
  intros Hne H.
  assert (Hd : ~ d == 0).
  { destruct l as [|x l]; [congruence|]. cbn [mapM] in H.
    destruct (py_div (x * c) d) as [q| | | | |] eqn:E;
      cbn [mbind result_bind] in H; try discriminate.
    now apply py_div_inv in E as (Hd & _). }
  split; [exact Hd|].
  rewrite (mapM_ok _ (fun h => h * c / d)) in H
    by (intros x _; now apply py_div_ok).
  now injection H as <-.
Qed.

Lemma py_sum_rescaled (c d : Q) (l : list Q) :
  ~ d == 0 -> py_sum (map (fun h => h * c / d) l) == py_sum l * c / d.
Proof.
  intros Hd. induction l as [|x l IH].
  - cbn [map]. unfold py_sum. cbn. field. exact Hd.
  - cbn [map]. rewrite !py_sum_cons, IH. field. exact Hd.
Qed.

(** X26.  A profile returned by [report_value_profile] has 24 hourly
    values that add up to the daily average returned with it, which is
    not zero; and every day of the report had at most 24 values. *)
Theorem report_value_profile_rescaled (days : list History.day_report)
    (daily_average : Q) (profile : list Q) :
  History.report_value_profile (Some days) = Ok (Some (daily_average, profile)) ->
  length profile = 24%nat
  /\ py_sum profile == daily_average
  /\ ~ daily_average == 0
  /\ Forall (fun d => (length (History.day_data d) <= 24)%nat) days.
Proof.
  unfold History.report_value_profile.
  destruct (py_index days 0) as [first| | | | |]; cbn [mbind result_bind];
    try discriminate.
  destruct (History.is_day first); cbn [negb]; [|discriminate].
  destruct (History.add_days days _) as [[[data totals] n]| | | | |] eqn:Ed;
    cbn [mbind result_bind]; try discriminate.
  assert (Hall : Forall (fun d => (length (History.day_data d) <= 24)%nat) days).
  { apply Forall_forall. intros d Hd.
    destruct (decide (length (History.day_data d) <= 24)%nat) as [|Hn];
      [assumption|exfalso].
    apply list_elem_of_split in Hd as (l1 & l2 & ->).
    assert (Hfirst : exists pre day post,
              l1 ++ d :: l2 = pre ++ day :: post
              /\ Forall (fun d => (length (History.day_data d) <= 24)%nat) pre
              /\ (24 < length (History.day_data day))%nat).
    { clear Ed. induction l1 as [|x l1 IH'].
      - exists [], d, l2. repeat split; [constructor|lia].
      - destruct (decide (length (History.day_data x) <= 24)%nat).
        + destruct IH' as (pre & day & post & E & Hp & Hlt).
          exists (x :: pre), day, post. cbn [app]. rewrite E.
          repeat split; [now constructor|exact Hlt].
        + exists [], x, (l1 ++ d :: l2). repeat split; [constructor|lia]. }
    destruct Hfirst as (pre & day & post & E & Hp & Hlt).
    rewrite E, add_days_overrun in Ed;
      [discriminate|now rewrite length_replicate..]. }
  apply add_days_length in Ed as (Hl & _). rewrite length_replicate in Hl.
  destruct (n =? 0)%Z; [discriminate|].
  set (avg := totals / inject_Z n). clearbody avg.
  destruct (Qeq_bool avg 0) eqn:Ez; [discriminate|].
  destruct (mapM _ _) as [r| | | | |] eqn:Em; cbn [mbind result_bind];
    try discriminate.
  intros [= <- <-].
  apply mapM_py_div_inv in Em as (Hd & ->).
  2:{ intros Hnil. apply (f_equal length) in Hnil.
      rewrite length_map, Hl in Hnil. discriminate. }
  split; [now rewrite !length_map|].
  split; [rewrite py_sum_rescaled by exact Hd; field; exact Hd|].
  split; [|exact Hall].
  intros Hz. apply Qeq_bool_iff in Hz. congruence.
Qed.

Lemma report_value_profile_rescaled_witness :
  exists daily_average profile,
    History.report_value_profile (Some Examples.two_days)
    = Ok (Some (daily_average, profile))
    /\ length profile = 24%nat
    /\ py_sum profile == daily_average.
Proof.
  eexists _, _. split; [vm_compute; reflexivity|].
  refine (let H := report_value_profile_rescaled Examples.two_days _ _ _ in
          conj (proj1 H) (proj1 (proj2 H))).
  vm_compute. reflexivity.
Defined.

(** X27.  [report_value_profile] raises [IndexError] for an empty report
    and for a report of days in which a day has more than 24 values. *)
Theorem report_value_profile_index_error (pre post : list History.day_report)
    (day : History.day_report) :
  Forall (fun d => (length (History.day_data d) <= 24)%nat) pre ->
  (24 < length (History.day_data day))%nat ->
  (forall first, head (pre ++ day :: post) = Some first ->
                 History.is_day first = true) ->
  History.report_value_profile (Some []) = IndexError
  /\ History.report_value_profile (Some (pre ++ day :: post)) = IndexError.
Proof.
  intros Hpre Hday Hfirst. split; [reflexivity|].
  unfold History.report_value_profile.
  rewrite py_index_nonneg by lia. change (Z.to_nat 0) with 0%nat.
  rewrite <- head_lookup.
  destruct (head (pre ++ day :: post)) as [first|] eqn:Eh; [|reflexivity].
  cbn [mbind result_bind]. rewrite (Hfirst first eq_refl). cbn [negb].
  rewrite add_days_overrun; [reflexivity|now rewrite length_replicate..].
Qed.

Lemma report_value_profile_index_error_witness :
  History.report_value_profile
    (Some (Examples.two_days ++ Examples.long_day :: [])) = IndexError.
Proof.
  apply (report_value_profile_index_error Examples.two_days []
           Examples.long_day).
  - repeat constructor.
  - cbn. lia.
  - intros first [= <-]. reflexivity.
Defined.

(** ** Time text, every minute of the day *)

Lemma every_minute (P : Z -> Z -> bool) :
  forallb (fun hh => forallb (P hh) (map Z.of_nat (seq 0 60)))
          (map Z.of_nat (seq 0 24)) = true ->
  forall hh mi, (0 <= hh < 24)%Z -> (0 <= mi < 60)%Z -> P hh mi = true.
Proof.
  intros Hall hh mi Hhh Hmi.
  rewrite forallb_forall in Hall.
  assert (Hin : forall n z, (0 <= z < Z.of_nat n)%Z ->
                            In z (map Z.of_nat (seq 0 n))).
  { intros n z Hz. apply in_map_iff. exists (Z.to_nat z).
    split; [lia|]. apply in_seq. lia. }
  specialize (Hall hh (Hin 24%nat hh Hhh)).
  rewrite forallb_forall in Hall. apply Hall, Hin, Hmi.
Qed.

(** X28.  Over binary64, every text [HH:MM] from 00:00 to 23:59 that is
    read by [time_hours] and printed by [hours_time] comes back as itself
    or as the minute before, never further off, and the quarter hours
    always come back as themselves. *)
Theorem hours_time_within_a_minute (hh mi : Z) :
  (0 <= hh < 24)%Z -> (0 <= mi < 60)%Z ->
  exists r,
    Binary64.roundtrip (Binary64.hhmm hh mi) = Some r
    /\ (r = Binary64.hhmm hh mi
        \/ ((1 <= mi)%Z /\ r = Binary64.hhmm hh (mi - 1)))
    /\ ((mi mod 15 = 0)%Z -> r = Binary64.hhmm hh mi).
Proof.
  intros Hhh Hmi.
  assert (Hall : forallb (fun hh => forallb (back_within_a_minute hh)
                                            (map Z.of_nat (seq 0 60)))
                         (map Z.of_nat (seq 0 24)) = true)
    by (vm_compute; reflexivity).
  pose proof (every_minute _ Hall hh mi Hhh Hmi) as H.
  unfold back_within_a_minute in H.
  destruct (Binary64.roundtrip (Binary64.hhmm hh mi)) as [r|]; [|discriminate].
  exists r. split; [reflexivity|].
  apply andb_true_iff in H as [H1 H2]. split.
  - apply orb_true_iff in H1 as [H1|H1].
    + left. now apply String.eqb_eq.
    + apply andb_true_iff in H1 as [Hm H1]. right.
      split; [lia|now apply String.eqb_eq].
  - intros H15. apply orb_true_iff in H2 as [H2|H2].
    + apply negb_true_iff in H2. lia.
    + now apply String.eqb_eq.
Qed.

Lemma hours_time_within_a_minute_witness :
  exists r,
    Binary64.roundtrip (Binary64.hhmm 16 50) = Some r
    /\ (r = Binary64.hhmm 16 50 \/ ((1 <= 50)%Z /\ r = Binary64.hhmm 16 (50 - 1))).
Proof.
  destruct (hours_time_within_a_minute 16 50) as (r & H1 & H2 & _);
    [lia | lia |].
  exists r. split; [exact H1|exact H2].
Defined.

(** ** Hour and minute fields over binary64 *)

(** X3.  For every text [HH:MM] from 00:00 to 23:59 read by
    [time_hours], [split_hours] returns the hour [HH] and the minute
    [MM], and these are the hour and the minute that [round_time] adds
    up. *)
Theorem split_hours_round_time (hh mi : Z) :
  (0 <= hh < 24)%Z -> (0 <= mi < 60)%Z ->
  exists h,
    Binary64.time_hours (Binary64.TStr (Binary64.hhmm hh mi)) Binary64.TNone
    = Ok (Some h)
    /\ Fields.split_hours h = Ok (hh, mi)
    /\ Binary64.round_time h
       = Some (Binary64.of_Z hh + Binary64.of_Z mi / 60)%float.
Proof.
  intros Hhh Hmi.
  assert (Hall : forallb (fun hh => forallb (fields_of_hhmm hh)
                                            (map Z.of_nat (seq 0 60)))
                         (map Z.of_nat (seq 0 24)) = true)
    by (vm_compute; reflexivity).
  pose proof (every_minute _ Hall hh mi Hhh Hmi) as H. clear Hall.
  unfold fields_of_hhmm in H.
  destruct (Binary64.time_hours
              (Binary64.TStr (Binary64.hhmm hh mi)) Binary64.TNone)
    as [[h|]| | | | |]; try discriminate.
  exists h. split; [reflexivity|].
  destruct (Fields.split_hours h) as [[a b]| | | | |]; try discriminate.
  destruct (Binary64.round_time h) as [r|]; [|discriminate].
  apply andb_true_iff in H as [H Hr]. apply andb_true_iff in H as [Ha Hb].
  apply FloatAxioms.Leibniz.eqb_spec in Hr.
  split; [f_equal; f_equal; lia|]. now rewrite Hr.
Qed.

Lemma split_hours_round_time_witness :
  exists h,
    Binary64.time_hours (Binary64.TStr (Binary64.hhmm 1 40)) Binary64.TNone
    = Ok (Some h)
    /\ Fields.split_hours h = Ok (1%Z, 40%Z).
Proof.
  destruct (split_hours_round_time 1 40) as (h & H1 & H2 & _); [lia | lia |].
  exists h. split; [exact H1|exact H2].
Defined.

(** X4.  In the last half minute before the hour, [split_hours] gives
    minute 60 and leaves the hour as it is: every text [HH:59:SS] with
    more than 30 seconds is split into [HH] and 60.  At 30 seconds the
    rounding of the hour decides: 01:59:30 gives (1, 60) and 00:59:30
    gives (0, 59).  Just below midnight of the day before, the hour is 24
    as well: for [h = -1e-17] (the float [-0x1.70ef54646d497p-57]),
    [h % 24] is rounded to 24.0 and [h % 1] to 1.0. *)
Theorem split_hours_minute_60 (hh ss : Z) :
  (0 <= hh < 24)%Z -> (30 < ss < 60)%Z ->
  (exists h,
     Binary64.time_hours (Binary64.TStr (Binary64.hhmmss hh 59 ss))
                         Binary64.TNone
     = Ok (Some h)
     /\ Fields.split_hours h = Ok (hh, 60%Z))
  /\ (h ← Binary64.time_hours (Binary64.TStr "01:59:30") Binary64.TNone;
      Fields.split_hours (default nan h)) = Ok (1%Z, 60%Z)
  /\ (h ← Binary64.time_hours (Binary64.TStr "00:59:30") Binary64.TNone;
      Fields.split_hours (default nan h)) = Ok (0%Z, 59%Z)
  /\ Fields.split_hours (-0x1.70ef54646d497p-57)%float = Ok (24%Z, 60%Z).
Proof.
  intros Hhh Hss.
  split; [|split; [|split]]; [|vm_compute; reflexivity..].
  assert (Hall : forallb (fun hh => forallb (minute_60_of_hhmmss hh)
                                            (map Z.of_nat (seq 0 60)))
                         (map Z.of_nat (seq 0 24)) = true)
    by (vm_compute; reflexivity).
  pose proof (every_minute _ Hall hh ss Hhh ltac:(lia)) as H. clear Hall.
  unfold minute_60_of_hhmmss in H.
  destruct (Z.leb_spec ss 30); [lia|]. cbn [orb] in H.
  destruct (Binary64.time_hours
              (Binary64.TStr (Binary64.hhmmss hh 59 ss)) Binary64.TNone)
    as [[h|]| | | | |]; try discriminate.
  exists h. split; [reflexivity|].
  destruct (Fields.split_hours h) as [[a b]| | | | |]; try discriminate.
  apply andb_true_iff in H as [Ha Hb]. f_equal. f_equal; lia.
Qed.

Lemma split_hours_minute_60_witness :
  exists h,
    Binary64.time_hours (Binary64.TStr (Binary64.hhmmss 1 59 45))
                        Binary64.TNone
    = Ok (Some h)
    /\ Fields.split_hours h = Ok (1%Z, 60%Z).
Proof.
  refine (proj1 (split_hours_minute_60 1 45 _ _)); lia.
Defined.

(** ** Schedule groups *)

Lemma hours_of_text_hhmm (hh mi : Z) :
  (0 <= hh < 24)%Z -> (0 <= mi < 60)%Z ->
  exists h,
    Fields.hours_of_text (Binary64.TStr (Binary64.hhmm hh mi))
    = Ok (Binary64.TFloat h)
    /\ Fields.split_hours h = Ok (hh, mi).
Proof.
  intros Hhh Hmi.
  assert (Hall : forallb (fun hh => forallb (fields_of_hhmm hh)
                                            (map Z.of_nat (seq 0 60)))
                         (map Z.of_nat (seq 0 24)) = true)
    by (vm_compute; reflexivity).
  pose proof (every_minute _ Hall hh mi Hhh Hmi) as H. clear Hall.
  unfold fields_of_hhmm in H. unfold Fields.hours_of_text.
  destruct (Binary64.time_hours
              (Binary64.TStr (Binary64.hhmm hh mi)) Binary64.TNone)
    as [[h|]| | | | |]; try discriminate.
  exists h. split; [reflexivity|].
  destruct (Fields.split_hours h) as [[a b]| | | | |]; try discriminate.
  destruct (Binary64.round_time h) as [r|]; [|discriminate].
  apply andb_true_iff in H as [H _]. apply andb_true_iff in H as [Ha Hb].
  f_equal. f_equal; lia.
Qed.

(** X22.  [set_group] builds a time segment only for two times, a work
    mode of [work_modes], an [fdsoc] from 10 to 100 and an [fdpwr] from 0
    to 12000; the segment then records the values it was given, with the
    hours and minutes that [split_hours] returns for the two times; for
    times given as texts [HH:MM] of the day these are [HH] and [MM]. *)
Theorem set_group_valid (enable : Z) (start end_ : Binary64.time_value)
    (mode : string) (min_soc fdsoc fdpwr : Q) (g : Fields.group) :
  Fields.set_group enable start end_ mode min_soc fdsoc fdpwr = Ok (Some g) ->
  mode ∈ Fields.work_modes
  /\ 10 <= fdsoc <= 100 /\ 0 <= fdpwr <= 12000
  /\ Fields.g_enable g = enable /\ Fields.workMode g = mode
  /\ Fields.minSocOnGrid g = min_soc
  /\ Fields.fdSoc g = fdsoc /\ Fields.fdPwr g = fdpwr
  /\ (exists s e,
        Fields.hours_of_text start = Ok s /\ Fields.hours_of_text end_ = Ok e
        /\ s <> Binary64.TNone /\ e <> Binary64.TNone
        /\ Fields.split_time s = Ok (Fields.startHour g, Fields.startMinute g)
        /\ Fields.split_time e = Ok (Fields.endHour g, Fields.endMinute g))
  /\ (forall hh mi hh' mi',
        (0 <= hh < 24)%Z -> (0 <= mi < 60)%Z ->
        (0 <= hh' < 24)%Z -> (0 <= mi' < 60)%Z ->
        start = Binary64.TStr (Binary64.hhmm hh mi) ->
        end_ = Binary64.TStr (Binary64.hhmm hh' mi') ->
        g = Fields.Group enable hh mi hh' mi' mode min_soc fdsoc fdpwr).
Proof.
  unfold Fields.set_group. intros H.
  destruct (Fields.hours_of_text start) as [s| | | | |] eqn:Es;
    cbn [mbind result_bind] in H; try discriminate.
  destruct (Fields.hours_of_text end_) as [e| | | | |] eqn:Ee;
    cbn [mbind result_bind] in H; try discriminate.
  assert (Hs : s <> Binary64.TNone) by (intros ->; discriminate).
  assert (He : e <> Binary64.TNone)
    by (intros ->; destruct s; discriminate).
  assert (H' :
    (if negb (existsb (String.eqb mode) Fields.work_modes) then Ok None
     else if Qltb fdpwr 0 || Qltb 12000 fdpwr then Ok None
     else if Qltb fdsoc 10 || Qltb 100 fdsoc then Ok None
     else
       '(start_hour, start_minute) ← Fields.split_time s;
       '(end_hour, end_minute) ← Fields.split_time e;
       Ok (Some (Fields.Group enable start_hour start_minute end_hour
                              end_minute mode min_soc fdsoc fdpwr)))
    = Ok (Some g))
    by (destruct s, e; try congruence; exact H).
  clear H.
  destruct (existsb (String.eqb mode) Fields.work_modes) eqn:Em;
    cbn [negb] in H'; [|discriminate].
  destruct (Qltb fdpwr 0) eqn:E1; cbn [orb] in H'; [discriminate|].
  destruct (Qltb 12000 fdpwr) eqn:E2; [discriminate|].
  destruct (Qltb fdsoc 10) eqn:E3; cbn [orb] in H'; [discriminate|].
  destruct (Qltb 100 fdsoc) eqn:E4; [discriminate|].
  apply Qltb_ge in E1, E2, E3, E4.
  destruct (Fields.split_time s) as [[sh sm]| | | | |] eqn:Ss;
    cbn [mbind result_bind] in H'; try discriminate.
  destruct (Fields.split_time e) as [[eh em]| | | | |] eqn:Se;
    cbn [mbind result_bind] in H'; try discriminate.
  injection H' as <-.
  cbn [Fields.g_enable Fields.workMode Fields.minSocOnGrid Fields.fdSoc
       Fields.fdPwr Fields.startHour Fields.startMinute Fields.endHour
       Fields.endMinute].
  split.
  { apply existsb_exists in Em as (w & Hw & Ew).
    apply String.eqb_eq in Ew as ->. now apply list_elem_of_In. }
  split; [split; assumption|]. split; [split; assumption|].
  do 5 (split; [reflexivity|]).
  split; [exists s, e; repeat split; assumption|].
  intros hh mi hh' mi' Hhh Hmi Hhh' Hmi' -> ->.
  destruct (hours_of_text_hhmm hh mi Hhh Hmi) as (h1 & Eh1 & Sh1).
  destruct (hours_of_text_hhmm hh' mi' Hhh' Hmi') as (h2 & Eh2 & Sh2).
  rewrite Eh1 in Es. rewrite Eh2 in Ee.
  injection Es as <-. injection Ee as <-.
  cbn [Fields.split_time] in Ss, Se.
  rewrite Sh1 in Ss. rewrite Sh2 in Se.
  injection Ss as <- <-. injection Se as <- <-. reflexivity.
Qed.

Lemma set_group_valid_witness :
  "ForceCharge"%string ∈ Fields.work_modes
  /\ Fields.Group 1 2 30 5 15 "ForceCharge"%string 10 100 0
     = Fields.Group 1 2 30 5 15 "ForceCharge"%string 10 100 0.
Proof.
  destruct (set_group_valid 1 (Binary64.TStr "02:30") (Binary64.TStr "05:15")
              "ForceCharge"%string 10 100 0
              (Fields.Group 1 2 30 5 15 "ForceCharge"%string 10 100 0))
    as (H1 & _ & _ & _ & _ & _ & _ & _ & _ & H2).
  - vm_compute. reflexivity.
  - split; [exact H1|].
    apply (H2 2 30 5 15)%Z; first [lia | reflexivity].
Defined.

(** ** Profiles in exact arithmetic *)

Lemma timed_list_aligned_witness :
  Timeline.timed_list Timeline.medium_profile (35 # 2) (Some 30%Z) !! 10%nat
  = Timeline.medium_profile !! ((Z.to_nat (py_int (35 # 2)) + 10) mod 24)%nat.
Proof.
  apply (timed_list_aligned Timeline.medium_profile (35 # 2) 30 10).
  - reflexivity.
  - split; [discriminate|reflexivity].
  - lia.
Defined.
